(** * Telemetry bridges of the llama-throughput-lab harness

    A shallow embedding of the three Python modules

    - [pmoves_nats_bridge]  (event publisher with a lazily created connection),
    - [pmoves_chit_bridge]  (memory-API POST and presigned CSV archive),
    - [pmoves_metrics]      (metrics registry and its HTTP exporter),

    together with the properties their specification states about them.

    Python values are an inductive type, dicts are insertion-ordered
    association lists, module globals are fields of an explicit state,
    exceptions are an outcome of a small state-and-exception monad, and
    everything outside the process (broker, HTTP peers, file system, clock,
    random source) is an oracle that answers from the history of external
    actions performed so far. *)

From Stdlib Require Import ZArith NArith Lia Bool List Ascii String.
From Stdlib Require Import Floats.SpecFloat.
From stdpp Require Import base decidable option list strings gmap.

Set Warnings "-register-all,-notation-for-abbreviation".

Local Open Scope string_scope.
Local Open Scope list_scope.
Local Open Scope Z_scope.

(* ===================================================================== *)
(** * Part I: definitions                                                 *)
(* ===================================================================== *)

(** ** Exceptions

    Only classes deriving from [Exception] are modelled: interrupts and
    interpreter exit are not failures of a dependency.  An exception value is
    identified with its class. *)

Inductive exc_class : Type :=
| Exception
| ImportError
| ModuleNotFoundError
| OSError
| ConnectionError
| TimeoutError
| FileNotFoundError
| URLError
| HTTPError
| HTTPException
| ValueError
| JSONDecodeError
| UnicodeDecodeError
| TypeError
| AttributeError
| OverflowError
| NatsError.

#[global] Instance exc_class_eq_dec : EqDecision exc_class.
Proof. solve_decision. Defined.

(** Method resolution order of each class (the class itself first). *)
Definition mro (c : exc_class) : list exc_class :=
  match c with
  | Exception => [Exception]
  | ImportError => [ImportError; Exception]
  | ModuleNotFoundError => [ModuleNotFoundError; ImportError; Exception]
  | OSError => [OSError; Exception]
  | ConnectionError => [ConnectionError; OSError; Exception]
  | TimeoutError => [TimeoutError; OSError; Exception]
  | FileNotFoundError => [FileNotFoundError; OSError; Exception]
  | URLError => [URLError; OSError; Exception]
  | HTTPError => [HTTPError; URLError; OSError; Exception]
  | HTTPException => [HTTPException; Exception]
  | ValueError => [ValueError; Exception]
  | JSONDecodeError => [JSONDecodeError; ValueError; Exception]
  | UnicodeDecodeError => [UnicodeDecodeError; ValueError; Exception]
  | TypeError => [TypeError; Exception]
  | AttributeError => [AttributeError; Exception]
  | OverflowError => [OverflowError; Exception]
  | NatsError => [NatsError; Exception]
  end.

(** [isinstance e c]: an exception of class [e] is caught by [except c]. *)
Definition isinstance (e c : exc_class) : bool := bool_decide (c ∈ mro e).

(** [except (c1, c2, ...)] *)
Definition except_any (cs : list exc_class) (e : exc_class) : bool :=
  existsb (isinstance e) cs.

(** ** Outcomes and the state-and-exception monad *)

(** A run returns a value, raises an exception, or leaves the part of
    Python that is modelled (a [str] with a character above U+00FF, a text
    in UTF-16): [Beyond] says that nothing is stated about the run from
    there on.  No handler catches it. *)
Inductive outcome (A : Type) : Type :=
| Ret (a : A)
| Raise (e : exc_class)
| Beyond.
Arguments Ret {A} a.
Arguments Raise {A} e.
Arguments Beyond {A}.

Definition M (S A : Type) : Type := S -> outcome A * S.

Definition ret {S A} (a : A) : M S A := fun s => (Ret a, s).
Definition raise {S A} (e : exc_class) : M S A := fun s => (Raise e, s).
Definition bind {S A B} (m : M S A) (k : A -> M S B) : M S B :=
  fun s => match m s with
           | (Ret a, s') => k a s'
           | (Raise e, s') => (Raise e, s')
           | (Beyond, s') => (Beyond, s')
           end.
Definition get_state {S} : M S S := fun s => (Ret s, s).
Definition lift_outcome {S A} (o : outcome A) : M S A := fun s => (o, s).

(** [try: body except cs: handler] *)
Definition try_except {S A} (body : M S A) (catches : exc_class -> bool)
    (handler : M S A) : M S A :=
  fun s => match body s with
           | (Ret a, s') => (Ret a, s')
           | (Raise e, s') => if catches e then handler s' else (Raise e, s')
           | (Beyond, s') => (Beyond, s')
           end.

(** A computation that stays within the model. *)
Definition defined {S A} (m : M S A) : Prop := forall s, fst (m s) <> Beyond.

Notation "'let*' x ':=' m 'in' k" := (bind m (fun x => k))
  (at level 10, x pattern, m at level 100, k at level 200).
Notation "m ';;' k" := (bind m (fun _ => k))
  (at level 100, k at level 200, right associativity).

(** ** Python values

    [str] values are sequences of code points below 256 ([string]), which is
    where every literal of these modules lives; [int] is unbounded; [float] is
    an IEEE-754 binary64 datum; dict keys are [str], and a dict lists its
    items in insertion order with no key repeated. *)

Inductive pyval : Type :=
| VNone
| VBool (b : bool)
| VInt (z : Z)
| VFloat (f : spec_float)
| VStr (s : string)
| VList (l : list pyval)
| VTuple (l : list pyval)
| VDict (d : list (string * pyval)).

Notation pydict := (list (string * pyval)).

(** [d.get(k)] *)
Fixpoint dict_get (k : string) (d : pydict) : option pyval :=
  match d with
  | [] => None
  | (k', v) :: d' => if String.eqb k k' then Some v else dict_get k d'
  end.

(** [d.get(k, default)] *)
Definition dict_get_default (k : string) (dflt : pyval) (d : pydict) : pyval :=
  match dict_get k d with Some v => v | None => dflt end.

(** [d[k] = v]: an existing key keeps its position, a new one goes last. *)
Fixpoint dict_set (k : string) (v : pyval) (d : pydict) : pydict :=
  match d with
  | [] => [(k, v)]
  | (k', v') :: d' =>
      if String.eqb k k' then (k', v) :: d' else (k', v') :: dict_set k v d'
  end.

(** [dict(pairs)], also [{**a, **b}] read as successive assignments. *)
Definition dict_update (d : pydict) (items : pydict) : pydict :=
  fold_left (fun acc kv => dict_set (fst kv) (snd kv) acc) items d.

(** Truth value of an object ([if x:], [not x]). *)
Definition float_is_zero (f : spec_float) : bool :=
  match f with S754_zero _ => true | _ => false end.

Definition truthy (v : pyval) : bool :=
  match v with
  | VNone => false
  | VBool b => b
  | VInt z => negb (z =? 0)
  | VFloat f => negb (float_is_zero f)
  | VStr s => negb (String.eqb s "")
  | VList l => match l with [] => false | _ => true end
  | VTuple l => match l with [] => false | _ => true end
  | VDict d => match d with [] => false | _ => true end
  end.

(** ** Text: decimal and hexadecimal digits *)

Notation chars := list_ascii_of_string.

Definition digit_char (d : N) : ascii := ascii_of_N (48 + d).

Fixpoint dec_digits (fuel : nat) (n : N) (acc : list ascii) : list ascii :=
  match fuel with
  | O => acc
  | S fuel' =>
      let acc' := digit_char (n mod 10) :: acc in
      if (n <? 10)%N then acc' else dec_digits fuel' (n / 10) acc'
  end.

(** Decimal digits of a natural number, most significant first. *)
Definition dec_of_N (n : N) : list ascii :=
  dec_digits (S (N.to_nat (N.log2 n))) n [].

(** [str(z)] for an [int]. *)
Definition dec_of_Z (z : Z) : list ascii :=
  if z <? 0 then "-"%char :: dec_of_N (Z.abs_N z) else dec_of_N (Z.abs_N z).

Definition str_of_Z (z : Z) : string := string_of_list_ascii (dec_of_Z z).

Definition hex_char (d : N) : ascii :=
  if (d <? 10)%N then ascii_of_N (48 + d) else ascii_of_N (87 + d).

Definition HEX_char (d : N) : ascii :=
  if (d <? 10)%N then ascii_of_N (48 + d) else ascii_of_N (55 + d).

Fixpoint join_chars (sep : list ascii) (parts : list (list ascii)) : list ascii :=
  match parts with
  | [] => []
  | [p] => p
  | p :: ps => p ++ sep ++ join_chars sep ps
  end.

(** [sep.join(parts)] *)
Definition str_join (sep : string) (parts : list string) : string :=
  string_of_list_ascii (join_chars (chars sep) (map chars parts)).

(** ** Floats as text

    The digits of [repr] of a finite non-zero float (the shortest string that
    reads back to the same binary64) and the value of a decimal literal are
    computed by the interpreter; both are taken as given. *)

Record float_text : Type := {
  float_repr : spec_float -> string;
  float_of_literal : string -> spec_float
}.

(** [repr(f)], which is also [str(f)]. *)
Definition py_float_repr (ft : float_text) (f : spec_float) : string :=
  match f with
  | S754_nan => "nan"
  | S754_infinity s => if s then "-inf" else "inf"
  | S754_zero s => if s then "-0.0" else "0.0"
  | S754_finite _ _ _ => float_repr ft f
  end.

(** [float(z)]: the nearest binary64 (ties to even), [OverflowError] beyond
    the range. *)
Definition float_of_int (z : Z) : outcome spec_float :=
  if z =? 0 then Ret (S754_zero false)
  else
    let a := Z.abs z in
    let bits := Z.log2 a + 1 in
    if bits <=? 53 then Ret (S754_finite (z <? 0) (Z.to_pos a) 0)
    else
      let sh := bits - 53 in
      let q := Z.shiftr a sh in
      let r := a - Z.shiftl q sh in
      let half := Z.shiftl 1 (sh - 1) in
      let q' := if (half <? r) || ((r =? half) && Z.odd q) then q + 1 else q in
      if 2 ^ 1024 <=? q' * 2 ^ sh then Raise OverflowError
      else Ret (S754_finite (z <? 0) (Z.to_pos q') sh).

(** The number of tenths nearest to [m * 2^e], ties to even. *)
Definition tenths (m : positive) (e : Z) : Z :=
  if 0 <=? e then Z.pos m * 10 * 2 ^ e
  else
    let d := 2 ^ (- e) in
    let n := Z.pos m * 10 in
    let q := n / d in
    let r := n mod d in
    if (d <? 2 * r) || ((2 * r =? d) && Z.odd q) then q + 1 else q.

(** [format(f, ".1f")] for a float. *)
Definition format_float_1f (f : spec_float) : string :=
  match f with
  | S754_nan => "nan"
  | S754_infinity s => if s then "-inf" else "inf"
  | S754_zero s => if s then "-0.0" else "0.0"
  | S754_finite s m e =>
      let t := tenths m e in
      string_of_list_ascii
        ((if s then ["-"%char] else []) ++ dec_of_N (Z.to_N (t / 10))
           ++ "."%char :: dec_of_N (Z.to_N (t mod 10)))
  end.

(** [format(v, ".1f")], the conversion behind [f"{v:.1f}"]. *)
Definition format_1f (v : pyval) : outcome string :=
  match v with
  | VFloat f => Ret (format_float_1f f)
  | VInt z =>
      match float_of_int z with
      | Ret f => Ret (format_float_1f f)
      | Raise e => Raise e
      | Beyond => Beyond
      end
  | VBool b => Ret (if b then "1.0" else "0.0")
  | VStr _ => Raise ValueError
  | VNone | VList _ | VTuple _ | VDict _ => Raise TypeError
  end.

(** ** [str] and [repr] of values *)

Definition code (c : ascii) : N := N_of_ascii c.
Definition chr (n : N) : ascii := ascii_of_N n.

(** Code points that [repr] writes as [\xhh]. *)
Definition repr_hex_escaped (n : N) : bool :=
  ((n <? 32) || (n =? 127) || ((128 <=? n) && (n <=? 160)) || (n =? 173))%N.

Definition repr_char (q : N) (c : ascii) : list ascii :=
  let n := code c in
  if ((n =? q) || (n =? 92))%N then [chr 92; c]
  else if (n =? 9)%N then chars "\t"
  else if (n =? 10)%N then chars "\n"
  else if (n =? 13)%N then chars "\r"
  else if repr_hex_escaped n
       then chars "\x" ++ [hex_char (n / 16); hex_char (n mod 16)]
  else [c].

(** [repr(s)] for a [str]: single quotes unless the text has single quotes
    and no double quote. *)
Definition repr_str (s : string) : list ascii :=
  let cs := chars s in
  let has q := existsb (fun c => (code c =? q)%N) cs in
  let q := if has 39%N && negb (has 34%N) then 34%N else 39%N in
  chr q :: concat (map (repr_char q) cs) ++ [chr q].

Section Repr.
Variable ft : float_text.

Fixpoint py_repr_chars (v : pyval) : list ascii :=
  match v with
  | VNone => chars "None"
  | VBool b => chars (if b then "True" else "False")
  | VInt z => dec_of_Z z
  | VFloat f => chars (py_float_repr ft f)
  | VStr s => repr_str s
  | VList l => chars "[" ++ join_chars (chars ", ") (map py_repr_chars l) ++ chars "]"
  | VTuple l =>
      match l with
      | [x] => chars "(" ++ py_repr_chars x ++ chars ",)"
      | _ => chars "(" ++ join_chars (chars ", ") (map py_repr_chars l) ++ chars ")"
      end
  | VDict d =>
      chars "{"
        ++ join_chars (chars ", ")
             (map (fun kv => repr_str (fst kv) ++ chars ": " ++ py_repr_chars (snd kv)) d)
        ++ chars "}"
  end.

(** [repr(v)] *)
Definition py_repr (v : pyval) : string := string_of_list_ascii (py_repr_chars v).

(** [str(v)], which is what [f"{v}"] inserts. *)
Definition py_str (v : pyval) : string :=
  match v with
  | VStr s => s
  | _ => py_repr v
  end.
End Repr.

(** ** JSON text, as [json.dumps] writes it with its default settings
    ([ensure_ascii], separators [", "] and [": "], no key sorting) *)

(** One character of a string literal: backslash, quote and everything
    outside [' '..'~'] are escaped. *)
Definition json_escape_char (c : ascii) : list ascii :=
  let n := code c in
  if (n =? 34)%N then [chr 92; chr 34]
  else if (n =? 92)%N then [chr 92; chr 92]
  else if (n =? 10)%N then chars "\n"
  else if (n =? 13)%N then chars "\r"
  else if (n =? 9)%N then chars "\t"
  else if (n =? 8)%N then chars "\b"
  else if (n =? 12)%N then chars "\f"
  else if ((32 <=? n) && (n <=? 126))%N then [c]
  else chars "\u00" ++ [hex_char (n / 16); hex_char (n mod 16)].

Definition json_quote (s : string) : list ascii :=
  chr 34 :: concat (map json_escape_char (chars s)) ++ [chr 34].

(** The encoder's [floatstr]. *)
Definition json_float (ft : float_text) (f : spec_float) : string :=
  match f with
  | S754_nan => "NaN"
  | S754_infinity s => if s then "-Infinity" else "Infinity"
  | _ => py_float_repr ft f
  end.

Section JsonEmit.
Variable ft : float_text.

Fixpoint json_emit (v : pyval) : list ascii :=
  match v with
  | VNone => chars "null"
  | VBool b => chars (if b then "true" else "false")
  | VInt z => dec_of_Z z
  | VFloat f => chars (json_float ft f)
  | VStr s => json_quote s
  | VList l | VTuple l =>
      chars "[" ++ join_chars (chars ", ") (map json_emit l) ++ chars "]"
  | VDict d =>
      chars "{"
        ++ join_chars (chars ", ")
             (map (fun kv => json_quote (fst kv) ++ chars ": " ++ json_emit (snd kv)) d)
        ++ chars "}"
  end.

(** [json.dumps(v)]; every value of [pyval] is serializable. *)
Definition json_dumps (v : pyval) : string := string_of_list_ascii (json_emit v).
End JsonEmit.

(** [s.encode()]: the text [json.dumps] writes is ASCII, on which UTF-8
    encoding is the identity. *)
Definition encode (s : string) : string := s.

(** ** JSON text, as [json.loads] reads it

    [json.loads] is given the bytes of a response.  It first turns them into
    text, then reads one value from the text.  A [str] of the model holds
    characters below U+0100 only, so the decoder has three answers besides
    a value: [UnicodeDecodeError] for bytes that are no text,
    [JSONDecodeError] for text that is no JSON, and [Beyond] where the text
    or the value cannot be held (a character at or above U+0100, written
    raw or as an escape, or a text that is not in UTF-8). *)

(** *** From bytes to text *)

(** The three cases of [json.detect_encoding]: UTF-8, UTF-8 with a byte
    order mark, or one of the UTF-16 and UTF-32 forms (told by a byte order
    mark or by the position of the zero bytes at the start). *)
Inductive encoding : Type :=
| utf_8
| utf_8_sig
| utf_16_or_32.

Definition byte_is (n : N) (c : ascii) : bool := (N_of_ascii c =? n)%N.

Definition detect_encoding (b : list ascii) : encoding :=
  match b with
  | b0 :: b1 :: rest =>
      if (byte_is 254 b0 && byte_is 255 b1) || (byte_is 255 b0 && byte_is 254 b1)
      then utf_16_or_32
      else if byte_is 239 b0 && byte_is 187 b1
              && match rest with b2 :: _ => byte_is 191 b2 | [] => false end
      then utf_8_sig
      else
        match rest with
        | [_] => utf_8
        | _ => if byte_is 0 b0 || byte_is 0 b1 then utf_16_or_32 else utf_8
        end
  | _ => utf_8
  end.

Definition byte_in (lo hi : N) (c : ascii) : bool :=
  ((lo <=? N_of_ascii c) && (N_of_ascii c <=? hi))%N.

(** A continuation byte. *)
Definition is_cont (c : ascii) : bool := byte_in 128 191 c.

(** Well-formed UTF-8, as the codec accepts it with the [surrogatepass]
    handler that [json.loads] asks for: shortest forms only, nothing above
    U+10FFFF, surrogates allowed. *)
Fixpoint utf8_valid (b : list ascii) : bool :=
  match b with
  | [] => true
  | b0 :: r0 =>
      if byte_in 0 127 b0 then utf8_valid r0
      else if byte_in 194 223 b0 then
        match r0 with
        | c1 :: r1 => is_cont c1 && utf8_valid r1
        | _ => false
        end
      else if byte_in 224 239 b0 then
        match r0 with
        | c1 :: c2 :: r2 =>
            (if byte_is 224 b0 then byte_in 160 191 c1 else is_cont c1)
            && is_cont c2 && utf8_valid r2
        | _ => false
        end
      else if byte_in 240 244 b0 then
        match r0 with
        | c1 :: c2 :: c3 :: r3 =>
            (if byte_is 240 b0 then byte_in 144 191 c1
             else if byte_is 244 b0 then byte_in 128 143 c1
             else is_cont c1)
            && is_cont c2 && is_cont c3 && utf8_valid r3
        | _ => false
        end
      else false
  end.

(** The text of well-formed UTF-8 when every character lies below U+0100:
    one byte below 128 is one character, and the two-byte forms that start
    with C2 or C3 are the characters U+0080 to U+00FF. *)
Fixpoint utf8_narrow (b : list ascii) : option (list ascii) :=
  match b with
  | [] => Some []
  | b0 :: r0 =>
      if byte_in 0 127 b0 then option_map (cons b0) (utf8_narrow r0)
      else if byte_in 194 195 b0 then
        match r0 with
        | c1 :: r1 =>
            if is_cont c1
            then option_map
                   (cons (ascii_of_N ((N_of_ascii b0 - 192) * 64 + (N_of_ascii c1 - 128))))
                   (utf8_narrow r1)
            else None
        | [] => None
        end
      else None
  end.

(** [b.decode("utf-8", "surrogatepass")] *)
Definition decode_utf8 (b : list ascii) : outcome (list ascii) :=
  if utf8_valid b then
    match utf8_narrow b with
    | Some t => Ret t
    | None => Beyond
    end
  else Raise UnicodeDecodeError.

(** [b.decode(detect_encoding(b), "surrogatepass")] *)
Definition decode_body (b : list ascii) : outcome (list ascii) :=
  match detect_encoding b with
  | utf_8 => decode_utf8 b
  | utf_8_sig => decode_utf8 (skipn 3 b)
  | utf_16_or_32 => Beyond
  end.

(** *** From text to a value

    In the parsers below [None] stands for a text that gives no value of the
    model: either it is no JSON, or it holds an escape [\uXXXX] at or above
    U+0100. *)

Definition is_ws (c : ascii) : bool :=
  let n := code c in ((n =? 32) || (n =? 9) || (n =? 10) || (n =? 13))%N.

Fixpoint skip_ws (s : list ascii) : list ascii :=
  match s with
  | c :: s' => if is_ws c then skip_ws s' else s
  | [] => []
  end.

Definition is_digit (c : ascii) : bool :=
  let n := code c in ((48 <=? n) && (n <=? 57))%N.

Definition hex_value (c : ascii) : option N :=
  let n := code c in
  if ((48 <=? n) && (n <=? 57))%N then Some (n - 48)%N
  else if ((97 <=? n) && (n <=? 102))%N then Some (n - 87)%N
  else if ((65 <=? n) && (n <=? 70))%N then Some (n - 55)%N
  else None.

Definition hex4 (a b c d : ascii) : option N :=
  match hex_value a, hex_value b, hex_value c, hex_value d with
  | Some x, Some y, Some z, Some w => Some (((x * 16 + y) * 16 + z) * 16 + w)%N
  | _, _, _, _ => None
  end.

(** The character a one-letter escape stands for. *)
Definition unescape (e : ascii) : option ascii :=
  let n := code e in
  if ((n =? 34) || (n =? 92) || (n =? 47))%N then Some e
  else if (n =? 98)%N then Some (chr 8)
  else if (n =? 102)%N then Some (chr 12)
  else if (n =? 110)%N then Some (chr 10)
  else if (n =? 114)%N then Some (chr 13)
  else if (n =? 116)%N then Some (chr 9)
  else None.

Definition cons_fst {A B} (a : A) (r : option (list A * B)) : option (list A * B) :=
  match r with
  | Some (l, b) => Some (a :: l, b)
  | None => None
  end.

(** The body of a string literal, after its opening quote (strict mode:
    raw control characters are refused). *)
Fixpoint scan_string (s : list ascii) : option (list ascii * list ascii) :=
  match s with
  | [] => None
  | c :: s1 =>
      if (code c =? 34)%N then Some ([], s1)
      else if (code c =? 92)%N then
        match s1 with
        | [] => None
        | e :: s2 =>
            if (code e =? 117)%N then
              match s2 with
              | h1 :: h2 :: h3 :: h4 :: s3 =>
                  match hex4 h1 h2 h3 h4 with
                  | Some n =>
                      if (n <? 256)%N then cons_fst (chr n) (scan_string s3) else None
                  | None => None
                  end
              | _ => None
              end
            else
              match unescape e with
              | Some c' => cons_fst c' (scan_string s2)
              | None => None
              end
        end
      else if (code c <? 32)%N then None
      else cons_fst c (scan_string s1)
  end.

(** Value of a run of digits read left to right. *)
Fixpoint read_digits (acc : N) (s : list ascii) : N :=
  match s with
  | c :: s' => read_digits (acc * 10 + (code c - 48))%N s'
  | [] => acc
  end.

(** The longest prefix of digits, and what follows it. *)
Fixpoint span_digits (s : list ascii) : list ascii * list ascii :=
  match s with
  | c :: s' =>
      if is_digit c then let (ds, r) := span_digits s' in (c :: ds, r) else ([], s)
  | [] => ([], [])
  end.

(** Integer part of a number: [0] or a digit run with no leading zero. *)
Definition lex_int (s : list ascii) : option (list ascii * list ascii) :=
  match s with
  | c :: s' =>
      if (code c =? 48)%N then Some ([c], s')
      else if is_digit c then Some (span_digits s)
      else None
  | [] => None
  end.

(** Optional fraction: a dot followed by at least one digit. *)
Definition lex_frac (s : list ascii) : list ascii * list ascii :=
  match s with
  | c :: s' =>
      if (code c =? 46)%N then
        match span_digits s' with
        | ([], _) => ([], s)
        | (ds, r) => (c :: ds, r)
        end
      else ([], s)
  | [] => ([], [])
  end.

(** Optional exponent: [e] or [E], an optional sign, at least one digit. *)
Definition lex_exp (s : list ascii) : list ascii * list ascii :=
  match s with
  | c :: s' =>
      if ((code c =? 101) || (code c =? 69))%N then
        let (sg, s'') :=
          match s' with
          | d :: t => if ((code d =? 43) || (code d =? 45))%N then ([d], t) else ([], s')
          | [] => ([], s')
          end in
        match span_digits s'' with
        | ([], _) => ([], s)
        | (ds, r) => (c :: sg ++ ds, r)
        end
      else ([], s)
  | [] => ([], [])
  end.

Fixpoint strip_prefix (p s : list ascii) : option (list ascii) :=
  match p, s with
  | [], _ => Some s
  | a :: p', b :: s' => if Ascii.eqb a b then strip_prefix p' s' else None
  | _ :: _, [] => None
  end.

Definition parser (A : Type) : Type := list ascii -> option (A * list ascii).

Section JsonParse.
Variable ft : float_text.

(** A number: [int] when it has neither fraction nor exponent, [float]
    otherwise. *)
Definition parse_number : parser pyval := fun s =>
  let (neg, s1) :=
    match s with
    | c :: s' => if (code c =? 45)%N then (true, s') else (false, s)
    | [] => (false, s)
    end in
  match lex_int s1 with
  | None => None
  | Some (ds, s2) =>
      let (fr, s3) := lex_frac s2 in
      let (ex, s4) := lex_exp s3 in
      match fr ++ ex with
      | [] =>
          let n := Z.of_N (read_digits 0 ds) in
          Some (VInt (if neg then - n else n), s4)
      | _ =>
          let sign := if neg then [chr 45] else [] in
          Some (VFloat (float_of_literal ft
                          (string_of_list_ascii (sign ++ ds ++ fr ++ ex))), s4)
      end
  end.

(** The constants the decoder accepts besides numbers. *)
Definition parse_constant : parser pyval := fun s =>
  match strip_prefix (chars "NaN") s with
  | Some r => Some (VFloat S754_nan, r)
  | None =>
  match strip_prefix (chars "Infinity") s with
  | Some r => Some (VFloat (S754_infinity false), r)
  | None =>
  match strip_prefix (chars "-Infinity") s with
  | Some r => Some (VFloat (S754_infinity true), r)
  | None => None
  end end end.

(** Elements of an array after the first has been located: a value, then
    either a comma and the next element, or the closing bracket. *)
Fixpoint parse_elems (pv : parser pyval) (k : nat) : parser (list pyval) := fun s =>
  match k with
  | O => None
  | S k' =>
      match pv s with
      | None => None
      | Some (v, s1) =>
          match skip_ws s1 with
          | c :: s2 =>
              if (code c =? 44)%N then cons_fst v (parse_elems pv k' (skip_ws s2))
              else if (code c =? 93)%N then Some ([v], s2)
              else None
          | [] => None
          end
      end
  end.

(** Members of an object: a quoted key, a colon, a value, then either a
    comma and the next member, or the closing brace. *)
Fixpoint parse_members (pv : parser pyval) (k : nat) : parser pydict := fun s =>
  match k with
  | O => None
  | S k' =>
      match s with
      | q :: s0 =>
          if (code q =? 34)%N then
            match scan_string s0 with
            | None => None
            | Some (key, s1) =>
                match skip_ws s1 with
                | c :: s2 =>
                    if (code c =? 58)%N then
                      match pv (skip_ws s2) with
                      | None => None
                      | Some (v, s3) =>
                          match skip_ws s3 with
                          | d :: s4 =>
                              if (code d =? 44)%N then
                                cons_fst (string_of_list_ascii key, v)
                                  (parse_members pv k' (skip_ws s4))
                              else if (code d =? 125)%N then
                                Some ([(string_of_list_ascii key, v)], s4)
                              else None
                          | [] => None
                          end
                      end
                    else None
                | [] => None
                end
            end
          else None
      | [] => None
      end
  end.

(** One JSON value at the head of the input. *)
Fixpoint parse_value (fuel : nat) : parser pyval := fun s =>
  match fuel with
  | O => None
  | S fuel' =>
      match s with
      | [] => None
      | c :: s1 =>
          if (code c =? 34)%N then
            match scan_string s1 with
            | Some (cs, r) => Some (VStr (string_of_list_ascii cs), r)
            | None => None
            end
          else if (code c =? 123)%N then
            match skip_ws s1 with
            | d :: s2 =>
                if (code d =? 125)%N then Some (VDict [], s2)
                else
                  match parse_members (parse_value fuel') fuel' (d :: s2) with
                  | Some (ps, r) => Some (VDict (dict_update [] ps), r)
                  | None => None
                  end
            | [] => None
            end
          else if (code c =? 91)%N then
            match skip_ws s1 with
            | d :: s2 =>
                if (code d =? 93)%N then Some (VList [], s2)
                else
                  match parse_elems (parse_value fuel') fuel' (d :: s2) with
                  | Some (vs, r) => Some (VList vs, r)
                  | None => None
                  end
            | [] => None
            end
          else
            match strip_prefix (chars "null") s with
            | Some r => Some (VNone, r)
            | None =>
            match strip_prefix (chars "true") s with
            | Some r => Some (VBool true, r)
            | None =>
            match strip_prefix (chars "false") s with
            | Some r => Some (VBool false, r)
            | None =>
            match parse_number s with
            | Some r => Some r
            | None => parse_constant s
            end end end end
      end
  end.

(** The decoder on a text: leading white space, one value, trailing white
    space, end of input. *)
Definition parse_text (s : list ascii) : option pyval :=
  match parse_value (S (length s)) (skip_ws s) with
  | Some (v, r) => match skip_ws r with [] => Some v | _ => None end
  | None => None
  end.

(** Whether a text holds, where an escape can stand, an escape [\uXXXX] at
    or above U+0100.  A backslash and the character after it are read
    together, as the decoder reads them inside a string. *)
Fixpoint wide_escape (s : list ascii) : bool :=
  match s with
  | [] => false
  | c :: s1 =>
      if (code c =? 92)%N then
        match s1 with
        | [] => false
        | e :: s2 =>
            if (code e =? 117)%N then
              match s2 with
              | h1 :: h2 :: h3 :: h4 :: s3 =>
                  match hex4 h1 h2 h3 h4 with
                  | Some n => (256 <=? n)%N || wide_escape s3
                  | None => wide_escape s3
                  end
              | _ => false
              end
            else wide_escape s2
        end
      else wide_escape s1
  end.

(** [json.loads(b)] for the bytes [b]. *)
Definition json_decode (b : string) : outcome pyval :=
  match decode_body (chars b) with
  | Ret t =>
      match parse_text t with
      | Some v => Ret v
      | None => if wide_escape t then Beyond else Raise JSONDecodeError
      end
  | Raise e => Raise e
  | Beyond => Beyond
  end.

(** The value [json.loads(b)] returns, when it returns one of the model. *)
Definition json_loads (b : string) : option pyval :=
  match json_decode b with
  | Ret v => Some v
  | _ => None
  end.
End JsonParse.

(** ** Time stamps, paths and URL quoting *)

(** The fields of [time.struct_time] that the modules format. *)
Record struct_time : Type := {
  tm_year : N;
  tm_mon : N;
  tm_mday : N;
  tm_hour : N;
  tm_min : N;
  tm_sec : N
}.

(** What [time.gmtime()] can return for a clock between the years 1000 and
    9999: a calendar date and a time of day. *)
Definition valid_gmtime (t : struct_time) : Prop :=
  (1000 <= tm_year t <= 9999 /\ 1 <= tm_mon t <= 12 /\ 1 <= tm_mday t <= 31
   /\ tm_hour t <= 23 /\ tm_min t <= 59 /\ tm_sec t <= 59)%N.

Definition pad2 (n : N) : list ascii :=
  if (n <? 10)%N then chr 48 :: dec_of_N n else dec_of_N n.

(** One conversion of [strftime]; the modules use [%Y %m %d %H %M %S]. *)
Definition strftime_directive (d : ascii) (t : struct_time) : list ascii :=
  let n := code d in
  if (n =? 89)%N then dec_of_N (tm_year t)
  else if (n =? 109)%N then pad2 (tm_mon t)
  else if (n =? 100)%N then pad2 (tm_mday t)
  else if (n =? 72)%N then pad2 (tm_hour t)
  else if (n =? 77)%N then pad2 (tm_min t)
  else if (n =? 83)%N then pad2 (tm_sec t)
  else [chr 37; d].

Fixpoint strftime_chars (fmt : list ascii) (t : struct_time) : list ascii :=
  match fmt with
  | [] => []
  | c :: rest =>
      if (code c =? 37)%N then
        match rest with
        | d :: rest' => strftime_directive d t ++ strftime_chars rest' t
        | [] => [c]
        end
      else c :: strftime_chars rest t
  end.

(** [time.strftime(fmt, t)] *)
Definition strftime (fmt : string) (t : struct_time) : string :=
  string_of_list_ascii (strftime_chars (chars fmt) t).

(** A reader of the ISO-8601 form [YYYY-MM-DDTHH:MM:SSZ] (UTC, literal [Z]),
    used to state what a time stamp parses as. *)
Definition parse_iso8601_z (s : string) : option struct_time :=
  match chars s with
  | [y1; y2; y3; y4; a; m1; m2; b; d1; d2; t; h1; h2; c; n1; n2; e; s1; s2; z] =>
      if forallb is_digit [y1; y2; y3; y4; m1; m2; d1; d2; h1; h2; n1; n2; s1; s2]
         && (code a =? 45)%N && (code b =? 45)%N && (code t =? 84)%N
         && (code c =? 58)%N && (code e =? 58)%N && (code z =? 90)%N
      then
        let tm := {| tm_year := read_digits 0 [y1; y2; y3; y4];
                     tm_mon := read_digits 0 [m1; m2];
                     tm_mday := read_digits 0 [d1; d2];
                     tm_hour := read_digits 0 [h1; h2];
                     tm_min := read_digits 0 [n1; n2];
                     tm_sec := read_digits 0 [s1; s2] |} in
        if ((1 <=? tm_mon tm) && (tm_mon tm <=? 12) && (1 <=? tm_mday tm)
            && (tm_mday tm <=? 31) && (tm_hour tm <=? 23) && (tm_min tm <=? 59)
            && (tm_sec tm <=? 59))%N
        then Some tm else None
      else None
  | _ => None
  end.

Definition is_slash (c : ascii) : bool := (code c =? 47)%N.

Fixpoint after_last_slash (s : list ascii) : list ascii :=
  match s with
  | [] => []
  | c :: s' =>
      if existsb is_slash s' then after_last_slash s'
      else if is_slash c then s' else s
  end.

(** [os.path.basename(p)]: what follows the last slash. *)
Definition basename (p : string) : string :=
  string_of_list_ascii (after_last_slash (chars p)).

(** UTF-8 bytes of a code point below 256. *)
Definition utf8_bytes (c : ascii) : list ascii :=
  let n := code c in
  if (n <? 128)%N then [c] else [chr (192 + n / 64); chr (128 + n mod 64)].

Definition url_unreserved (n : N) : bool :=
  (((48 <=? n) && (n <=? 57)) || ((65 <=? n) && (n <=? 90))
   || ((97 <=? n) && (n <=? 122))
   || (n =? 95) || (n =? 46) || (n =? 45) || (n =? 126))%N.

Definition quote_byte (b : ascii) : list ascii :=
  let n := code b in
  if url_unreserved n then [b]
  else if (n =? 32)%N then [chr 43]
  else [chr 37; HEX_char (n / 16); HEX_char (n mod 16)].

(** [urllib.parse.quote_plus(s)] *)
Definition quote_plus (s : string) : string :=
  string_of_list_ascii (concat (map quote_byte (concat (map utf8_bytes (chars s))))).

(** [urllib.parse.urlencode(d)] for a dict of strings. *)
Definition urlencode (d : list (string * string)) : string :=
  str_join "&" (map (fun kv => quote_plus (fst kv) +:+ "=" +:+ quote_plus (snd kv)) d).

(** ** The world outside the process *)

(** The arguments of a [urllib.request.Request(url, data=, headers=, method=)]
    call, as passed. *)
Record Request : Type := {
  url : pyval;
  data : option string;
  headers : list (string * string);
  method : string
}.

(** *** What [Request(...)] checks

    The constructor turns the URL into text with [str], removes the
    wrapping that [urllib.parse.unwrap] knows, cuts the fragment and looks
    for a scheme; without one it raises [ValueError].  It then parses the
    URL once more for its host, which can fail on the brackets of an IPv6
    literal and on characters outside ASCII: such URLs are beyond the
    model. *)

(** [c.isspace()] for a character below U+0100. *)
Definition is_space (c : ascii) : bool :=
  let n := code c in
  (((9 <=? n) && (n <=? 13)) || ((28 <=? n) && (n <=? 32)) || (n =? 133) || (n =? 160))%N.

Fixpoint lstrip (s : list ascii) : list ascii :=
  match s with
  | c :: r => if is_space c then lstrip r else s
  | [] => []
  end.

(** [s.strip()] *)
Definition strip (s : list ascii) : list ascii := rev (lstrip (rev (lstrip s))).

(** [urllib.parse.unwrap(url)] after [str(url)]: [<URL:scheme://host/path>]
    gives [scheme://host/path]. *)
Definition unwrap (s : list ascii) : list ascii :=
  let u := strip s in
  let u1 :=
    match u with
    | c :: r =>
        if (code c =? 60)%N
           && match last r with Some d => (code d =? 62)%N | None => false end
        then strip (removelast r)
        else u
    | [] => u
    end in
  match strip_prefix (chars "URL:") u1 with
  | Some r => strip r
  | None => u1
  end.

Definition is_hash (c : ascii) : bool := (code c =? 35)%N.

(** What precedes the last [#] (all of the text when it has none). *)
Fixpoint before_tag (s : list ascii) : list ascii :=
  match s with
  | [] => []
  | c :: r =>
      if existsb is_hash r then c :: before_tag r
      else if is_hash c then [] else s
  end.

(** Whether a colon comes before any slash. *)
Fixpoint colon_first (s : list ascii) : bool :=
  match s with
  | c :: r =>
      if (code c =? 58)%N then true
      else if (code c =? 47)%N then false
      else colon_first r
  | [] => false
  end.

(** The test of [_splittype]: the text starts with one or more characters
    other than [/] and [:], followed by a colon. *)
Definition has_scheme (s : list ascii) : bool :=
  match s with
  | c :: r => negb ((code c =? 58) || (code c =? 47))%N && colon_first r
  | [] => false
  end.

(** Characters on which the second parse of the URL can fail. *)
Definition url_unparsed (c : ascii) : bool :=
  ((code c =? 91) || (code c =? 93) || (128 <=? code c))%N.

(** [Request(url, data=, headers=, method=)] on the arguments [r]. *)
Definition Request__init__ (ft : float_text) (r : Request) : outcome Request :=
  let u := unwrap (chars (py_str ft (url r))) in
  if negb (has_scheme (before_tag u)) then Raise ValueError
  else if existsb url_unparsed u then Beyond
  else Ret r.

(** A base URL to which any path and query of printable ASCII can be
    appended to give a URL that [Request] accepts: printable ASCII with a
    scheme, without space, [#], brackets or angle brackets, and not of the
    form [URL:...]. *)
Definition url_plain (c : ascii) : bool :=
  let n := code c in
  ((33 <=? n) && (n <=? 126)
   && negb ((n =? 35) || (n =? 60) || (n =? 62) || (n =? 91) || (n =? 93)))%N.

Definition url_base_ok (s : string) : bool :=
  let cs := chars s in
  (4 <=? length cs)%nat && forallb url_plain cs && has_scheme cs
  && match strip_prefix (chars "URL:") cs with Some _ => false | None => true end.

(** External actions, in the order the process performs them.  A broker
    connection is named by the number of actions that preceded it. *)
Inductive event : Type :=
| EvNatsConnect (broker : string)
| EvNatsPublish (conn : nat) (subject : string) (payload : string)
| EvNatsFlush (conn : nat)
| EvNatsDrain (conn : nat)
| EvLoopClose (conn : nat)
| EvUrlopen (req : Request) (timeout : Z)
| EvReadFile (path : string)
| EvBind (host : string) (port : Z)
| EvThreadStart
| EvServeForever.

Notation history := (list event).

(** The five series of the metrics registry.  Gauges hold floats; counters
    are sums of the integer amounts they were incremented by. *)
Record registry : Type := {
  THROUGHPUT_TPS : gmap (string * string * string) spec_float;
  SWEEPS_TOTAL : gmap string Z;
  ERRORS_TOTAL : gmap string Z;
  LAST_SWEEP_TS : option spec_float;
  BEST_THROUGHPUT : gmap (string * string) spec_float
}.

(** Configuration read from the environment at import time, the libraries
    that may or may not be installed, and the answers of every external
    party, each a function of the history so far.  The two HTTP base URLs
    are taken to be URLs: a configuration from which [Request] cannot build
    a request is not a platform of the model. *)
Record platform : Type := {
  (* os.getenv(...) at import *)
  NATS_URL : string;
  CIPHER_MEMORY_URL : string;
  PRESIGN_URL : string;
  PRESIGN_SECRET : string;
  METRICS_PORT : Z;
  base_urls_ok : url_base_ok CIPHER_MEMORY_URL && url_base_ok PRESIGN_URL = true;
  (* optional libraries *)
  nats_installed : bool;
  prom_installed : bool;
  (* the interpreter's float printer and reader *)
  ft : float_text;
  (* clock and random source *)
  gmtime : history -> struct_time;
  time_time : history -> spec_float;
  uuid4 : history -> string;
  (* message broker: [None] is success *)
  nats_connect : string -> history -> option exc_class;
  nats_publish : nat -> string -> string -> history -> option exc_class;
  nats_flush : nat -> history -> option exc_class;
  nats_drain : nat -> history -> option exc_class;
  (* what the peer does with a request that was built and sent, up to
     [resp.read()]: the body, or the exception sending or reading raises *)
  http_answer : Request -> Z -> history -> outcome string;
  (* [open(path, "rb")] followed by [f.read()] *)
  read_file : string -> history -> outcome string;
  (* binding the listening socket: [None] is success *)
  bind_socket : string -> Z -> history -> option exc_class;
  (* prometheus_client *)
  generate_latest : registry -> string;
  CONTENT_TYPE_LATEST : string;
  (* http.server: the HTML page [send_error] writes for a status *)
  error_page : Z -> string
}.

(** [urlopen(Request(...), timeout=t)] followed by [resp.read()], for the
    arguments [req] of the request: there is nothing to open when [Request]
    refuses them. *)
Definition urlopen (P : platform) (req : Request) (timeout : Z) (h : history)
    : outcome string :=
  match Request__init__ (ft P) req with
  | Ret _ => http_answer P req timeout h
  | Raise e => Raise e
  | Beyond => Beyond
  end.

(** [ISO_Z] is the format both bridges stamp their messages with. *)
Definition ISO_Z : string := "%Y-%m-%dT%H:%M:%SZ".

(* --------------------------------------------------------------------- *)
(** ** pmoves_nats_bridge                                                 *)
(* --------------------------------------------------------------------- *)

(** An instance of the class [_SyncNats]: the broker it is connected to and
    the identity of its event loop and client. *)
Record SyncNats : Type := {
  sn_url : string;
  sn_id : nat
}.

(** Module state: the global [_nc] and the history of external actions. *)
Record nats_state : Type := {
  _nc : option SyncNats;
  nats_trace : history
}.

Section NatsBridge.
Variable P : platform.

Definition nats_emit (e : event) : M nats_state unit :=
  fun s => (Ret tt, {| _nc := _nc s; nats_trace := nats_trace s ++ [e] |}).

Definition nats_history : M nats_state history :=
  fun s => (Ret (nats_trace s), s).

Definition set_nc (c : option SyncNats) : M nats_state unit :=
  fun s => (Ret tt, {| _nc := c; nats_trace := nats_trace s |}).

(** Run one awaited broker call: record it, then succeed or raise as the
    broker answers. *)
Definition await (e : event) (answer : history -> option exc_class)
    : M nats_state unit :=
  let* h := nats_history in
  nats_emit e ;;
  match answer h with
  | None => ret tt
  | Some x => raise x
  end.

(** [import nats] *)
Definition import_nats : M nats_state unit :=
  if nats_installed P then ret tt else raise ModuleNotFoundError.

(** [_SyncNats.__init__(self, url)] *)
Definition _SyncNats__init__ (url : string) : M nats_state SyncNats :=
  import_nats ;;
  let* h := nats_history in
  await (EvNatsConnect url) (nats_connect P url) ;;
  ret {| sn_url := url; sn_id := length h |}.

(** [_SyncNats.publish(self, subject, payload)] *)
Definition _SyncNats_publish (self : SyncNats) (subject payload : string)
    : M nats_state unit :=
  await (EvNatsPublish (sn_id self) subject payload)
        (nats_publish P (sn_id self) subject payload) ;;
  await (EvNatsFlush (sn_id self)) (nats_flush P (sn_id self)).

(** [_SyncNats.close(self)] *)
Definition _SyncNats_close (self : SyncNats) : M nats_state unit :=
  await (EvNatsDrain (sn_id self)) (nats_drain P (sn_id self)) ;;
  nats_emit (EvLoopClose (sn_id self)).

Definition _ensure_connected : M nats_state (option SyncNats) :=
  let* s := get_state in
  match _nc s with
  | Some c => ret (Some c)
  | None =>
      try_except
        (import_nats ;;
         let* c := _SyncNats__init__ (NATS_URL P) in
         set_nc (Some c) ;;
         ret (Some c))
        (except_any [Exception])
        (ret None)
  end.

(** The dict that [_envelope] serializes, given the identifier and the
    time stamp it drew. *)
Definition envelope_dict (id ts subject : string) (payload : pydict) : pydict :=
  [("id", VStr id);
   ("topic", VStr subject);
   ("ts", VStr ts);
   ("version", VStr "v1");
   ("source", VStr "llama-throughput-lab");
   ("payload", VDict payload)].

(** The bytes of an envelope built after history [h]. *)
Definition envelope_bytes (h : history) (subject : string) (payload : pydict) : string :=
  encode (json_dumps (ft P)
            (VDict (envelope_dict (uuid4 P h) (strftime ISO_Z (gmtime P h))
                      subject payload))).

Definition _envelope (subject : string) (payload : pydict) : M nats_state string :=
  let* h := nats_history in
  ret (envelope_bytes h subject payload).

Definition _safe_publish (subject : string) (payload : pydict) : M nats_state unit :=
  try_except
    (let* nc := _ensure_connected in
     match nc with
     | None => ret tt
     | Some c =>
         let* body := _envelope subject payload in
         _SyncNats_publish c subject body
     end)
    (except_any [Exception])
    (ret tt).

Definition publish_started (sweep_type model_path : string) (config : pydict)
    : M nats_state unit :=
  _safe_publish "llama.benchmark.started.v1"
    [("sweep_type", VStr sweep_type);
     ("model", VStr model_path);
     ("config", VDict config)].

(** The dict display [{"sweep_type": sweep_type, **row}]. *)
Definition cell_payload (sweep_type : string) (row : pydict) : pydict :=
  dict_update [("sweep_type", VStr sweep_type)] row.

Definition publish_cell (sweep_type : string) (row : pydict) : M nats_state unit :=
  _safe_publish "llama.benchmark.cell.v1" (cell_payload sweep_type row).

Definition publish_completed (sweep_type : string) (best : pydict)
    (csv_path : string) (total_cells : Z) : M nats_state unit :=
  _safe_publish "llama.benchmark.completed.v1"
    [("sweep_type", VStr sweep_type);
     ("best", VDict best);
     ("csv_path", VStr csv_path);
     ("total_cells", VInt total_cells)].

Definition close : M nats_state unit :=
  let* s := get_state in
  match _nc s with
  | Some c =>
      try_except (_SyncNats_close c) (except_any [Exception]) (ret tt) ;;
      set_nc None
  | None => ret tt
  end.
End NatsBridge.


(* --------------------------------------------------------------------- *)
(** ** pmoves_chit_bridge                                                 *)
(* --------------------------------------------------------------------- *)

(** The module keeps no state of its own: its state is the history. *)
Section ChitBridge.
Variable P : platform.

Definition chit_emit (e : event) : M history unit :=
  fun h => (Ret tt, h ++ [e]).

(** [urlopen(req, timeout=t)] and reading the response. *)
Definition do_urlopen (req : Request) (timeout : Z) : M history string :=
  let* h := get_state in
  chit_emit (EvUrlopen req timeout) ;;
  lift_outcome (urlopen P req timeout h).

(** [open(path, "rb")] and [f.read()]. *)
Definition do_read_file (path : string) : M history string :=
  let* h := get_state in
  chit_emit (EvReadFile path) ;;
  lift_outcome (read_file P path h).

(** [json.loads(body)] inside the monad. *)
Definition loads (body : string) : M history pyval :=
  lift_outcome (json_decode (ft P) body).

(** [Request(url, data=, headers=, method=)] inside the monad. *)
Definition Request_ (r : Request) : M history Request :=
  lift_outcome (Request__init__ (ft P) r).

(** [data.get(k)]: only a dict has the method. *)
Definition py_get (data : pyval) (k : string) : M history pyval :=
  match data with
  | VDict d => ret (dict_get_default k VNone d)
  | _ => raise AttributeError
  end.

Definition _post_json (u : string) (payload : pydict) (timeout : Z)
    : M history pyval :=
  try_except
    (let* req := Request_ {| url := VStr u;
                             data := Some (encode (json_dumps (ft P) (VDict payload)));
                             headers := [("Content-Type", "application/json")];
                             method := "POST" |} in
     let* body := do_urlopen req timeout in
     loads body)
    (except_any [URLError; OSError; JSONDecodeError])
    (ret VNone).

(** [best.get("throughput", 0)] *)
Definition best_throughput (best : pydict) : pyval :=
  dict_get_default "throughput" (VInt 0) best.

(** [{k: v for k, v in best.items() if k != "throughput"}] *)
Definition best_config_of (best : pydict) : pydict :=
  List.filter (fun kv => negb (String.eqb (fst kv) "throughput")) best.

(** The summary line, given the formatted throughput. *)
Definition content_line (model_path thr : string) (best_config : pydict) : string :=
  "Model " +:+ basename model_path +:+ " achieves " +:+ thr +:+ " tok/s at "
  +:+ str_join ", " (map (fun kv => fst kv +:+ "=" +:+ py_str (ft P) (snd kv)) best_config).

(** The record that is posted. *)
Definition reasoning_record (sweep_type model_path : string) (best : pydict)
    (csv_path : string) (gpu_type : option string) (thr : string) (now : struct_time)
    : pydict :=
  let best_config := best_config_of best in
  let metadata :=
    [("model", VStr model_path);
     ("best_throughput_tps", best_throughput best);
     ("best_config", VDict best_config);
     ("sweep_type", VStr sweep_type);
     ("csv_path", VStr csv_path);
     ("timestamp", VStr (strftime ISO_Z now))] in
  let metadata' :=
    match gpu_type with
    | Some g => if String.eqb g "" then metadata
                else dict_set "gpu_type" (VStr g) metadata
    | None => metadata
    end in
  [("type", VStr "reasoning");
   ("domain", VStr "llama_inference_optimization");
   ("content", VStr (content_line model_path thr best_config));
   ("metadata", VDict metadata')].

Definition store_reasoning (sweep_type model_path : string) (best : pydict)
    (csv_path : string) (gpu_type : option string) : M history pyval :=
  let* thr := lift_outcome (format_1f (best_throughput best)) in
  let* h := get_state in
  _post_json (CIPHER_MEMORY_URL P +:+ "/api/memory")
    (reasoning_record sweep_type model_path best csv_path gpu_type thr (gmtime P h))
    10.

(** The GET request to the presign gateway for one method. *)
Definition presign_request (bucket object_key meth : string) : Request :=
  {| url := VStr (PRESIGN_URL P +:+ "/presign?"
                  +:+ urlencode [("bucket", bucket); ("key", object_key); ("method", meth)]);
     data := None;
     headers := [("Authorization", "Bearer " +:+ PRESIGN_SECRET P)];
     method := "GET" |}.

(** The PUT request that uploads the file's bytes. *)
Definition upload_request (upload_url : pyval) (bytes : string) : Request :=
  {| url := upload_url;
     data := Some bytes;
     headers := [("Content-Type", "text/csv")];
     method := "PUT" |}.

Definition default_object_key (csv_path : string) : string :=
  "llama-throughput-lab/" +:+ basename csv_path.

Definition archive_csv_to_minio (csv_path bucket : string) (object_key : option string)
    : M history pyval :=
  if String.eqb (PRESIGN_SECRET P) "" then ret VNone
  else
    let object_key :=
      match object_key with
      | Some k => k
      | None => default_object_key csv_path
      end in
    try_except
      (let* req := Request_ (presign_request bucket object_key "PUT") in
       let* body := do_urlopen req 10 in
       let* data := loads body in
       let* upload_url := py_get data "url" in
       if negb (truthy upload_url) then ret VNone
       else
         let* bytes := do_read_file csv_path in
         let* put_req := Request_ (upload_request upload_url bytes) in
         do_urlopen put_req 30 ;;
         let* req := Request_ (presign_request bucket object_key "GET") in
         let* body := do_urlopen req 10 in
         let* data := loads body in
         py_get data "url")
      (except_any [URLError; OSError])
      (ret VNone).
End ChitBridge.


(* --------------------------------------------------------------------- *)
(** ** pmoves_metrics                                                     *)
(* --------------------------------------------------------------------- *)

(** An [HTTPServer] bound to an address. *)
Record HTTPServer : Type := {
  server_host : string;
  server_port : Z
}.

(** Module state: the registry, the global [_server], and the history. *)
Record metrics_state : Type := {
  reg : registry;
  _server : option HTTPServer;
  metrics_trace : history
}.

(** What a handler does with its connection. *)
Inductive handler_action : Type :=
| send_response (status : Z)
| send_header (name value : string)
| end_headers
| wfile_write (body : string)
| send_error (status : Z).

(** How a call that may serve forever ends. *)
Inductive completion : Type :=
| Returns
| NeverReturns.

(** The double quote, for literals that contain one. *)
Definition dq : string := String (chr 34) EmptyString.

Section Metrics.
Variable P : platform.

(** Set at import: whether [prometheus_client] could be imported. *)
Definition _HAS_PROM : bool := prom_installed P.

Definition with_reg (f : registry -> registry) : M metrics_state unit :=
  fun s => (Ret tt, {| reg := f (reg s); _server := _server s;
                       metrics_trace := metrics_trace s |}).

Definition metrics_emit (e : event) : M metrics_state unit :=
  fun s => (Ret tt, {| reg := reg s; _server := _server s;
                       metrics_trace := metrics_trace s ++ [e] |}).

(** [THROUGHPUT_TPS.labels(model=, sweep_type=, config=).set(v)] *)
Definition throughput_set (model sweep_type config : string) (v : spec_float)
    (r : registry) : registry :=
  {| THROUGHPUT_TPS := <[(model, sweep_type, config) := v]> (THROUGHPUT_TPS r);
     SWEEPS_TOTAL := SWEEPS_TOTAL r;
     ERRORS_TOTAL := ERRORS_TOTAL r;
     LAST_SWEEP_TS := LAST_SWEEP_TS r;
     BEST_THROUGHPUT := BEST_THROUGHPUT r |}.

(** [counter.labels(k)]: the child series, created at zero when new. *)
Definition counter_labels (k : string) (m : gmap string Z) : gmap string Z :=
  match m !! k with
  | Some _ => m
  | None => <[k := 0]> m
  end.

(** Current value of a counter series (zero when it was never created). *)
Definition counter_value (k : string) (m : gmap string Z) : Z :=
  default 0 (m !! k).

Definition counter_add (k : string) (amount : Z) (m : gmap string Z) : gmap string Z :=
  <[k := counter_value k m + amount]> m.

Definition with_errors_total (f : gmap string Z -> gmap string Z) (r : registry)
    : registry :=
  {| THROUGHPUT_TPS := THROUGHPUT_TPS r;
     SWEEPS_TOTAL := SWEEPS_TOTAL r;
     ERRORS_TOTAL := f (ERRORS_TOTAL r);
     LAST_SWEEP_TS := LAST_SWEEP_TS r;
     BEST_THROUGHPUT := BEST_THROUGHPUT r |}.

Definition with_sweeps_total (f : gmap string Z -> gmap string Z) (r : registry)
    : registry :=
  {| THROUGHPUT_TPS := THROUGHPUT_TPS r;
     SWEEPS_TOTAL := f (SWEEPS_TOTAL r);
     ERRORS_TOTAL := ERRORS_TOTAL r;
     LAST_SWEEP_TS := LAST_SWEEP_TS r;
     BEST_THROUGHPUT := BEST_THROUGHPUT r |}.

(** [counter.labels(k).inc(amount)] as prometheus_client does it: the child
    series is looked up (and created) first; a counter only increases, so a
    negative amount is refused with [ValueError]. *)
Definition counter_inc (sel : (gmap string Z -> gmap string Z) -> registry -> registry)
    (k : string) (amount : Z) : M metrics_state unit :=
  with_reg (sel (counter_labels k)) ;;
  if amount <? 0 then raise ValueError
  else with_reg (sel (counter_add k amount)).

Definition update_cell (model sweep_type config_label : string)
    (throughput_tps : spec_float) (errors : Z) : M metrics_state unit :=
  if negb _HAS_PROM then ret tt
  else
    with_reg (throughput_set model sweep_type config_label throughput_tps) ;;
    if negb (errors =? 0) then counter_inc with_errors_total sweep_type errors
    else ret tt.

Definition update_sweep (model sweep_type : string) (best_throughput : spec_float)
    : M metrics_state unit :=
  if negb _HAS_PROM then ret tt
  else
    counter_inc with_sweeps_total sweep_type 1 ;;
    let* s := get_state in
    with_reg (fun r =>
      {| THROUGHPUT_TPS := THROUGHPUT_TPS r;
         SWEEPS_TOTAL := SWEEPS_TOTAL r;
         ERRORS_TOTAL := ERRORS_TOTAL r;
         LAST_SWEEP_TS := Some (time_time P (metrics_trace s));
         BEST_THROUGHPUT := <[(model, sweep_type) := best_throughput]> (BEST_THROUGHPUT r) |}).

(** [str(len(body))] *)
Definition content_length (body : string) : string :=
  str_of_Z (Z.of_nat (String.length body)).

(** The bytes literal of the liveness answer, [{"ok":true}]. *)
Definition healthz_body : string := "{" +:+ dq +:+ "ok" +:+ dq +:+ ":true}".

(** [_Handler.do_GET], by the request path and the registry it serves. *)
Definition do_GET (path : string) (r : registry) : list handler_action :=
  if String.eqb path "/healthz" then
    let body := healthz_body in
    [send_response 200;
     send_header "Content-Type" "application/json";
     send_header "Content-Length" (content_length body);
     end_headers;
     wfile_write body]
  else if String.eqb path "/metrics" && _HAS_PROM then
    let body := generate_latest P r in
    [send_response 200;
     send_header "Content-Type" (CONTENT_TYPE_LATEST P);
     send_header "Content-Length" (content_length body);
     end_headers;
     wfile_write body]
  else [send_error 404].

(** What [send_error(code)] of [BaseHTTPRequestHandler] does while a GET is
    handled: the status line, [Connection: close] and, for a status that
    carries a body (200 and above, other than 204, 205 and 304), the headers
    of the error page and the page.  [log_error] goes through the handler's
    [log_message], which does nothing. *)
Definition send_error_calls (code : Z) : list handler_action :=
  [send_response code; send_header "Connection" "close"]
  ++ (if (200 <=? code) && negb ((code =? 204) || (code =? 205) || (code =? 304))
      then
        let body := error_page P code in
        [send_header "Content-Type" "text/html;charset=utf-8";
         send_header "Content-Length" (content_length body);
         end_headers]
        ++ (if String.eqb body "" then [] else [wfile_write body])
      else [end_headers]).

(** The calls that write the response: those of the handler, with each
    [send_error] replaced by what it does. *)
Definition on_wire (acts : list handler_action) : list handler_action :=
  flat_map (fun a => match a with
                     | send_error code => send_error_calls code
                     | _ => [a]
                     end) acts.

Definition set_server (srv : option HTTPServer) : M metrics_state unit :=
  fun s => (Ret tt, {| reg := reg s; _server := srv; metrics_trace := metrics_trace s |}).

(** [HTTPServer(("0.0.0.0", port), _Handler)]: binds the socket. *)
Definition HTTPServer__init__ (host : string) (port : Z) : M metrics_state HTTPServer :=
  let* s := get_state in
  metrics_emit (EvBind host port) ;;
  match bind_socket P host port (metrics_trace s) with
  | None => ret {| server_host := host; server_port := port |}
  | Some e => raise e
  end.

Definition start_server (port : Z) (background : bool) : M metrics_state completion :=
  let* s := get_state in
  match _server s with
  | Some _ => ret Returns
  | None =>
      let* srv := HTTPServer__init__ "0.0.0.0" port in
      set_server (Some srv) ;;
      if background then metrics_emit EvThreadStart ;; ret Returns
      else metrics_emit EvServeForever ;; ret NeverReturns
  end.
End Metrics.

(** ** Views used to state the properties *)

(** The status line of a response. *)
Definition first_status (acts : list handler_action) : option Z :=
  match acts with
  | send_response c :: _ => Some c
  | _ => None
  end.

Fixpoint first_header (name : string) (acts : list handler_action) : option string :=
  match acts with
  | [] => None
  | send_header n v :: rest => if String.eqb n name then Some v else first_header name rest
  | _ :: rest => first_header name rest
  end.

Fixpoint first_write (acts : list handler_action) : option string :=
  match acts with
  | [] => None
  | wfile_write b :: _ => Some b
  | _ :: rest => first_write rest
  end.

(** Status, header and body of the response that a handler's calls put on
    the connection. *)
Definition response_status (P : platform) (acts : list handler_action) : option Z :=
  first_status (on_wire P acts).

Definition response_header (P : platform) (name : string) (acts : list handler_action)
    : option string :=
  first_header name (on_wire P acts).

Definition response_body (P : platform) (acts : list handler_action) : option string :=
  first_write (on_wire P acts).

(** [s.startswith(p)] *)
Fixpoint is_prefix (p s : list ascii) : bool :=
  match p, s with
  | [], _ => true
  | a :: p', b :: s' => Ascii.eqb a b && is_prefix p' s'
  | _ :: _, [] => false
  end.

Fixpoint contains_chars (needle hay : list ascii) : bool :=
  is_prefix needle hay ||
  match hay with
  | [] => false
  | _ :: hay' => contains_chars needle hay'
  end.

(** [needle in hay] for strings. *)
Definition contains (needle hay : string) : bool :=
  contains_chars (chars needle) (chars hay).

(** The printable characters of ASCII. *)
Definition printable (c : ascii) : bool := ((32 <=? code c) && (code c <=? 126))%N.

(** Values without a tuple anywhere. *)
Fixpoint tuple_free (v : pyval) : bool :=
  match v with
  | VTuple _ => false
  | VList l => forallb tuple_free l
  | VDict d => forallb (fun kv => tuple_free (snd kv)) d
  | _ => true
  end.

(** What a value reads back as after a trip through JSON text: tuples come
    back as lists, everything else as itself. *)
Fixpoint as_json (v : pyval) : pyval :=
  match v with
  | VList l | VTuple l => VList (map as_json l)
  | VDict d => VDict (map (fun kv => (fst kv, as_json (snd kv))) d)
  | _ => v
  end.

(** A JSON number with a fraction or an exponent: what the decoder reads as
    a float. *)
Definition float_literal (cs : list ascii) : bool :=
  let body :=
    match cs with
    | c :: t => if (code c =? 45)%N then t else cs
    | [] => []
    end in
  match lex_int body with
  | Some (_, r1) =>
      let (fr, r2) := lex_frac r1 in
      let (ex, r3) := lex_exp r2 in
      match r3, fr ++ ex with
      | [], _ :: _ => true
      | _, _ => false
      end
  | None => false
  end.

#[global] Instance spec_float_eq_dec : EqDecision spec_float.
Proof. solve_decision. Defined.

(** The interpreter's float printer and reader agree on [f]: its [repr] is a
    float literal and reads back as [f].  Infinities are written as
    constants; a NaN never compares equal to what is read back. *)
Definition float_round_trips (ft : float_text) (f : spec_float) : bool :=
  match f with
  | S754_nan => false
  | S754_infinity _ => true
  | _ =>
      float_literal (chars (py_float_repr ft f))
      && bool_decide (float_of_literal ft (py_float_repr ft f) = f)
  end.

(** Values that a trip through JSON text can give back: unique keys, and
    floats on which the interpreter's printer and reader agree. *)
Fixpoint json_exact (ft : float_text) (v : pyval) : bool :=
  match v with
  | VFloat f => float_round_trips ft f
  | VList l | VTuple l => forallb (json_exact ft) l
  | VDict d =>
      forallb (fun kv => json_exact ft (snd kv)) d
      && bool_decide (NoDup (map fst d))
  | _ => true
  end.

(** Number of nodes of a value. *)
Fixpoint json_size (v : pyval) : nat :=
  match v with
  | VList l | VTuple l => S (list_sum (map json_size l))
  | VDict d => S (list_sum (map (fun kv => json_size (snd kv)) d))
  | _ => 1
  end.

(** A character after which a number cannot go on. *)
Definition number_stop (rest : list ascii) : bool :=
  match rest with
  | [] => true
  | c :: _ =>
      negb (is_digit c) && negb (code c =? 46)%N
      && negb (code c =? 101)%N && negb (code c =? 69)%N
  end.

(** Fuel [f] is enough to write [n]: at least one step, and one per binary
    digit. *)
Definition fuel_ok (f : nat) (n : N) : Prop := (1 <= f)%nat /\ (n < 2 ^ N.of_nat f)%N.

(** How a value's text starts: not with white space, not with a closing
    bracket or brace. *)
Definition opens_value (c : ascii) : bool :=
  negb (is_ws c) && negb (code c =? 93)%N && negb (code c =? 125)%N.

(** The reader [pv] of one value reads the text of [x] back, whatever
    follows it. *)
Definition reads_back (ft : float_text) (pv : parser pyval) (x : pyval) : Prop :=
  forall r, number_stop r = true -> pv (json_emit ft x ++ r) = Some (as_json x, r).

(** The text of one member of an object. *)
Definition json_member (ft : float_text) (kv : string * pyval) : list ascii :=
  json_quote (fst kv) ++ chars ": " ++ json_emit ft (snd kv).

(** The broker actions of one [publish] on connection [c] after history
    [h]: the send, and the flush when the send succeeded. *)
Definition publish_events (P : platform) (c : SyncNats) (h : history)
    (subject body : string) : list event :=
  EvNatsPublish (sn_id c) subject body ::
  match nats_publish P (sn_id c) subject body h with
  | None => [EvNatsFlush (sn_id c)]
  | Some _ => []
  end.

Definition is_connect (e : event) : bool :=
  match e with EvNatsConnect _ => true | _ => false end.

(** ** Sample worlds

    Concrete platforms on which the statements below are exercised. *)

(** 42.5 as a binary64: 85 * 2^-1. *)
Definition f42_5 : spec_float := S754_finite false 85 (-1).

(** A float printer that is exact on floats with one fractional digit, such
    as 42.5, and a float reader that knows the one literal of the samples. *)
Definition sample_ft : float_text :=
  {| float_repr := format_float_1f;
     float_of_literal := fun s => if String.eqb s "42.5" then f42_5 else S754_nan |}.

Definition sample_time : struct_time :=
  {| tm_year := 2026; tm_mon := 3; tm_mday := 9;
     tm_hour := 7; tm_min := 5; tm_sec := 0 |}.

(** A platform with the given secret, libraries, broker and HTTP peers. *)
Definition sample_platform (secret : string) (has_nats has_prom : bool)
    (connect : string -> history -> option exc_class)
    (publish : nat -> string -> string -> history -> option exc_class)
    (http : Request -> Z -> history -> outcome string)
    (files : string -> history -> outcome string) : platform :=
  {| NATS_URL := "nats://localhost:4222";
     CIPHER_MEMORY_URL := "http://localhost:8096";
     PRESIGN_URL := "http://localhost:8088";
     PRESIGN_SECRET := secret;
     METRICS_PORT := 8201;
     base_urls_ok := eq_refl;
     nats_installed := has_nats;
     prom_installed := has_prom;
     ft := sample_ft;
     gmtime := fun _ => sample_time;
     time_time := fun _ => S754_zero false;
     uuid4 := fun _ => "123e4567-e89b-42d3-a456-426614174000";
     nats_connect := connect;
     nats_publish := publish;
     nats_flush := fun _ _ => None;
     nats_drain := fun _ _ => None;
     http_answer := http;
     read_file := files;
     bind_socket := fun _ _ _ => None;
     generate_latest := fun _ => "# metrics";
     CONTENT_TYPE_LATEST := "text/plain; version=0.0.4; charset=utf-8";
     error_page := fun _ => "<html>Error response</html>" |}.

Definition no_http : Request -> Z -> history -> outcome string :=
  fun _ _ _ => Raise URLError.
Definition no_files : string -> history -> outcome string :=
  fun _ _ => Raise FileNotFoundError.
Definition broker_up : string -> history -> option exc_class := fun _ _ => None.
Definition broker_down : string -> history -> option exc_class :=
  fun _ _ => Some ConnectionError.
Definition publish_ok : nat -> string -> string -> history -> option exc_class :=
  fun _ _ _ _ => None.
Definition publish_fails : nat -> string -> string -> history -> option exc_class :=
  fun _ _ _ _ => Some NatsError.

(** The presign gateway of the end-to-end scenario: it answers a request for
    method PUT with the upload URL u1 and any other with the download URL
    u2; the object store accepts every PUT. *)
Definition u1 : string := "http://minio.local/u1".
Definition u2 : string := "http://minio.local/u2".

Definition gateway_stub : Request -> Z -> history -> outcome string :=
  fun req _ _ =>
    if String.eqb (method req) "PUT" then Ret ""
    else
      match url req with
      | VStr u =>
          if contains "method=PUT" u
          then Ret (json_dumps sample_ft (VDict [("url", VStr u1)]))
          else Ret (json_dumps sample_ft (VDict [("url", VStr u2)]))
      | _ => Raise ValueError
      end.

(** A gateway behind a failing proxy: every answer is an HTML error page.
    The memory API of the same world answers the same way. *)
Definition html_stub : Request -> Z -> history -> outcome string :=
  fun _ _ _ => Ret "<html>502 Bad Gateway</html>".

(** A memory API that acknowledges every record. *)
Definition memory_stub : Request -> Z -> history -> outcome string :=
  fun _ _ _ => Ret (json_dumps sample_ft (VDict [("ok", VBool true)])).

Definition csv_files : string -> history -> outcome string :=
  fun path _ =>
    if String.eqb path "/tmp/run.csv" then Ret "batch,throughput"
    else Raise FileNotFoundError.

(** A process that has not yet touched the broker. *)
Definition nats_initial : nats_state := {| _nc := None; nats_trace := [] |}.

Definition empty_registry : registry :=
  {| THROUGHPUT_TPS := ∅; SWEEPS_TOTAL := ∅; ERRORS_TOTAL := ∅;
     LAST_SWEEP_TS := None; BEST_THROUGHPUT := ∅ |}.

Definition metrics_initial : metrics_state :=
  {| reg := empty_registry; _server := None; metrics_trace := [] |}.

(** ** Sequences of calls *)

(** One call of the publisher's public API. *)
Inductive nats_call : Type :=
| CallStarted (sweep_type model_path : string) (config : pydict)
| CallCell (sweep_type : string) (row : pydict)
| CallCompleted (sweep_type : string) (best : pydict) (csv_path : string)
    (total_cells : Z)
| CallClose.

Definition nats_do (P : platform) (c : nats_call) : M nats_state unit :=
  match c with
  | CallStarted st mp cfg => publish_started P st mp cfg
  | CallCell st row => publish_cell P st row
  | CallCompleted st best csv n => publish_completed P st best csv n
  | CallClose => close P
  end.

(** A caller's script: the calls one after the other, stopping at the first
    exception. *)
Fixpoint nats_script (P : platform) (calls : list nats_call) : M nats_state unit :=
  match calls with
  | [] => ret tt
  | c :: cs => nats_do P c ;; nats_script P cs
  end.

(** The handle in use was made by a connect to the configured broker that
    succeeded, and that connect is in the history where the handle says. *)
Definition handle_wf (P : platform) (s : nats_state) : Prop :=
  match _nc s with
  | Some c =>
      sn_url c = NATS_URL P
      /\ nth_error (nats_trace s) (sn_id c) = Some (EvNatsConnect (NATS_URL P))
      /\ nats_connect P (NATS_URL P) (firstn (sn_id c) (nats_trace s)) = None
  | None => True
  end.

Definition is_publish (e : event) : bool :=
  match e with EvNatsPublish _ _ _ => true | _ => false end.

(** One call of the registry's public helpers. *)
Inductive metrics_call : Type :=
| CallUpdateCell (model sweep_type config_label : string)
    (throughput_tps : spec_float) (errors : Z)
| CallUpdateSweep (model sweep_type : string) (best_throughput : spec_float).

Definition metrics_do (P : platform) (c : metrics_call) : M metrics_state unit :=
  match c with
  | CallUpdateCell m st cfg v e => update_cell P m st cfg v e
  | CallUpdateSweep m st v => update_sweep P m st v
  end.

(** The state after a series of calls, each run to its end whether it
    returned or raised (a caller that stops at the first exception reaches
    the state of a shorter series). *)
Definition metrics_run (P : platform) (calls : list metrics_call)
    (s : metrics_state) : metrics_state :=
  fold_left (fun s c => snd (metrics_do P c s)) calls s.

(** The state after a series of [start_server(port)] calls in background
    mode, each run to its end. *)
Definition start_all (P : platform) (ports : list Z) (s : metrics_state)
    : metrics_state :=
  fold_left (fun s port => snd (start_server P port true s)) ports s.

Definition is_bind (e : event) : bool :=
  match e with EvBind _ _ => true | _ => false end.

Definition is_thread_start (e : event) : bool :=
  match e with EvThreadStart => true | _ => false end.

(** The external actions of a complete archive, in order. *)
Definition archive_steps (P : platform) (csv_path bucket key : string)
    (upload_url : pyval) (bytes : string) : list event :=
  [EvUrlopen (presign_request P bucket key "PUT") 10;
   EvReadFile csv_path;
   EvUrlopen (upload_request upload_url bytes) 30;
   EvUrlopen (presign_request P bucket key "GET") 10].

(** The key an archive call uses. *)
Definition archive_key (csv_path : string) (object_key : option string) : string :=
  match object_key with
  | Some k => k
  | None => default_object_key csv_path
  end.

(** The POST request of [_post_json]. *)
Definition post_request (P : platform) (u : string) (payload : pydict) : Request :=
  {| url := VStr u;
     data := Some (encode (json_dumps (ft P) (VDict payload)));
     headers := [("Content-Type", "application/json")];
     method := "POST" |}.

(** Occurrences of the character with code [n]. *)
Definition count_code (n : N) (s : string) : nat :=
  length (List.filter (fun c => (code c =? n)%N) (chars s)).

(** The characters [quote_plus] can write: the unreserved ones, [+] for a
    space, and [%] before two hexadecimal digits. *)
Definition url_safe_char (c : ascii) : bool :=
  (url_unreserved (code c) || (code c =? 43) || (code c =? 37))%N.

(** The completed sweeps of one type among a series of calls. *)
Definition is_sweep_of (k : string) (c : metrics_call) : bool :=
  match c with
  | CallUpdateSweep _ sweep_type _ => String.eqb sweep_type k
  | CallUpdateCell _ _ _ _ _ => false
  end.

(** What a call adds to the error counter of one sweep type. *)
Definition errors_of (k : string) (c : metrics_call) : Z :=
  match c with
  | CallUpdateCell _ sweep_type _ _ errors =>
      if String.eqb sweep_type k && (0 <? errors) then errors else 0
  | CallUpdateSweep _ _ _ => 0
  end.

(** The value a call writes to one series of the per-cell gauge. *)
Definition cell_write (key : string * string * string) (c : metrics_call)
    : option spec_float :=
  match c with
  | CallUpdateCell model sweep_type config v _ =>
      if bool_decide ((model, sweep_type, config) = key) then Some v else None
  | CallUpdateSweep _ _ _ => None
  end.

(** The last value a series of calls writes to one series of the gauge. *)
Definition last_write (key : string * string * string) (calls : list metrics_call)
    : option spec_float :=
  fold_left (fun acc c => match cell_write key c with Some v => Some v | None => acc end)
    calls None.

Definition is_publish_call (c : nats_call) : bool :=
  match c with CallClose => false | _ => true end.

(** A host whose metrics port is taken and whose broker accepts
    connections and messages but times out on drain. *)
Definition sample_platform_stuck : platform :=
  {| NATS_URL := "nats://localhost:4222";
     CIPHER_MEMORY_URL := "http://localhost:8096";
     PRESIGN_URL := "http://localhost:8088";
     PRESIGN_SECRET := "";
     METRICS_PORT := 8201;
     base_urls_ok := eq_refl;
     nats_installed := true;
     prom_installed := true;
     ft := sample_ft;
     gmtime := fun _ => sample_time;
     time_time := fun _ => S754_zero false;
     uuid4 := fun _ => "123e4567-e89b-42d3-a456-426614174000";
     nats_connect := broker_up;
     nats_publish := publish_ok;
     nats_flush := fun _ _ => None;
     nats_drain := fun _ _ => Some TimeoutError;
     http_answer := no_http;
     read_file := no_files;
     bind_socket := fun _ _ _ => Some OSError;
     generate_latest := fun _ => "# metrics";
     CONTENT_TYPE_LATEST := "text/plain; version=0.0.4; charset=utf-8";
     error_page := fun _ => "<html>Error response</html>" |}.

(** A gateway that answers every request with an empty JSON array. *)
Definition array_stub : Request -> Z -> history -> outcome string :=
  fun _ _ _ => Ret "[]".

(** A gateway that presigns uploads only: a request for method PUT gets the
    upload URL u1, any other an empty object; the object store accepts
    every PUT. *)
Definition gateway_put_only : Request -> Z -> history -> outcome string :=
  fun req _ _ =>
    if String.eqb (method req) "PUT" then Ret ""
    else
      match url req with
      | VStr u =>
          if contains "method=PUT" u
          then Ret (json_dumps sample_ft (VDict [("url", VStr u1)]))
          else Ret "{}"
      | _ => Raise ValueError
      end.

(** A gateway whose every answer names the absolute URL u1, with a store
    that accepts every PUT. *)
Definition gateway_absolute : Request -> Z -> history -> outcome string :=
  fun req _ _ =>
    if String.eqb (method req) "PUT" then Ret ""
    else Ret (json_dumps sample_ft (VDict [("url", VStr u1)])).

(** A gateway whose every answer names a URL without a scheme. *)
Definition gateway_relative : Request -> Z -> history -> outcome string :=
  fun req _ _ =>
    if String.eqb (method req) "PUT" then Ret ""
    else Ret (json_dumps sample_ft (VDict [("url", VStr "u1")])).

(** The state of a process right after its first, successful connect. *)
Definition nats_connected : nats_state :=
  {| _nc := Some {| sn_url := "nats://localhost:4222"; sn_id := 0 |};
     nats_trace := [EvNatsConnect "nats://localhost:4222"] |}.

(* ===================================================================== *)
(** * Part II: properties                                                 *)
(* ===================================================================== *)

(** ** Exceptions and the monad *)

Lemma isinstance_Exception (e : exc_class) : isinstance e Exception = true.
Proof. destruct e; reflexivity. Qed.

Lemma except_Exception_all (e : exc_class) : except_any [Exception] e = true.
Proof. unfold except_any; simpl. now rewrite isinstance_Exception. Qed.

(** A block guarded by [except Exception] with a handler that returns
    never raises, and leaves the state where the block left it. *)
Lemma try_except_Exception_run {S A} (body : M S A) (a : A) (s : S) :
  fst (body s) <> Beyond ->
  try_except body (except_any [Exception]) (ret a) s =
    (Ret (match fst (body s) with Ret x => x | _ => a end), snd (body s)).
Proof.
  unfold try_except. destruct (body s) as [[x|e|] s1]; cbn [fst snd]; intros Hd.
  - reflexivity.
  - rewrite except_Exception_all. reflexivity.
  - now destruct Hd.
Qed.

Lemma unit_outcome (o : outcome unit) :
  match o with Ret x => x | _ => tt end = tt.
Proof. now destruct o as [[]| |]. Qed.

(** Computations built from [ret], [raise], [bind], [try_except] and from
    actions that stay within the model stay within the model. *)
Lemma defined_ret {S A} (a : A) : defined (@ret S A a).
Proof. intros s. discriminate. Qed.

Lemma defined_raise {S A} (e : exc_class) : defined (@raise S A e).
Proof. intros s. discriminate. Qed.

Lemma defined_get_state {S} : defined (@get_state S).
Proof. intros s. discriminate. Qed.

Lemma defined_bind {S A B} (m : M S A) (k : A -> M S B) :
  defined m -> (forall a, defined (k a)) -> defined (bind m k).
Proof.
  intros Hm Hk s. unfold bind. specialize (Hm s).
  destruct (m s) as [[a|e|] s1]; cbn [fst] in *; [apply Hk | discriminate | congruence].
Qed.

Lemma defined_try_except {S A} (body handler : M S A) (c : exc_class -> bool) :
  defined body -> defined handler -> defined (try_except body c handler).
Proof.
  intros Hb Hh s. unfold try_except. specialize (Hb s).
  destruct (body s) as [[a|e|] s1]; cbn [fst] in *; [discriminate | | congruence].
  destruct (c e); [apply Hh | discriminate].
Qed.

Create HintDb defined.
#[global] Hint Resolve defined_ret defined_raise defined_get_state : defined.
#[global] Hint Extern 2 (defined (bind _ _)) =>
  apply defined_bind; [| intros ?] : defined.
#[global] Hint Extern 2 (defined (try_except _ _ _)) =>
  apply defined_try_except : defined.
#[global] Hint Extern 3 (defined (match ?x with _ => _ end)) => destruct x : defined.
#[global] Hint Extern 3 (defined (if ?x then _ else _)) => destruct x : defined.

(** ** Dicts *)

Lemma dict_get_None (k : string) (d : pydict) :
  dict_get k d = None <-> k ∉ map fst d.
Proof.
  induction d as [|[k' v] d IH]; simpl.
  - split; [intros _; apply not_elem_of_nil | reflexivity].
  - rewrite not_elem_of_cons. destruct (String.eqb_spec k k') as [->|Hne].
    + split; [discriminate | intros [H _]; congruence].
    + rewrite IH. tauto.
Qed.

Lemma dict_get_set_eq (k : string) (v : pyval) (d : pydict) :
  dict_get k (dict_set k v d) = Some v.
Proof.
  induction d as [|[k' v'] d IH]; simpl.
  - now rewrite String.eqb_refl.
  - destruct (String.eqb_spec k k') as [->|Hne]; simpl.
    + now rewrite String.eqb_refl.
    + destruct (String.eqb_spec k k'); [congruence | exact IH].
Qed.

Lemma dict_get_set_ne (k k' : string) (v : pyval) (d : pydict) :
  k <> k' -> dict_get k' (dict_set k v d) = dict_get k' d.
Proof.
  intros Hne. induction d as [|[k1 v1] d IH]; simpl.
  - destruct (String.eqb_spec k' k); [congruence | reflexivity].
  - destruct (String.eqb_spec k k1) as [->|Hk]; simpl.
    + destruct (String.eqb_spec k' k1); [congruence | reflexivity].
    + destruct (String.eqb_spec k' k1); [reflexivity | exact IH].
Qed.

(** After [d.update(items)] a key holds what [items] gives it, and what [d]
    gave it when [items] does not mention it. *)
Lemma dict_get_update (k : string) (items d : pydict) :
  NoDup (map fst items) ->
  dict_get k (dict_update d items) =
    match dict_get k items with Some v => Some v | None => dict_get k d end.
Proof.
  revert d. induction items as [|[k1 v1] items IH]; intros d Hnd; simpl.
  - reflexivity.
  - simpl in Hnd. apply NoDup_cons in Hnd as [Hk1 Hnd].
    unfold dict_update in *. simpl. rewrite IH by assumption.
    destruct (String.eqb_spec k k1) as [->|Hne].
    + apply dict_get_None in Hk1. rewrite Hk1. apply dict_get_set_eq.
    + destruct (dict_get k items); [reflexivity |].
      apply dict_get_set_ne. congruence.
Qed.

(** Building a dict from pairs with distinct keys keeps the pairs. *)
Lemma dict_set_fresh (k : string) (v : pyval) (d : pydict) :
  k ∉ map fst d -> dict_set k v d = d ++ [(k, v)].
Proof.
  induction d as [|[k' v'] d IH]; simpl; intros Hk; [reflexivity |].
  apply not_elem_of_cons in Hk as [Hne Hk].
  destruct (String.eqb_spec k k'); [congruence |]. now rewrite IH.
Qed.

Lemma dict_update_fresh (items d : pydict) :
  NoDup (map fst (d ++ items)) -> dict_update d items = d ++ items.
Proof.
  revert d. induction items as [|[k v] items IH]; intros d Hnd.
  - simpl. now rewrite app_nil_r.
  - unfold dict_update in *. simpl.
    assert (Hk : k ∉ map fst d).
    { rewrite map_app in Hnd. apply NoDup_app in Hnd as (_ & Hd & _).
      intros Hin. apply (Hd k Hin). simpl. apply elem_of_cons. now left. }
    rewrite dict_set_fresh by assumption.
    rewrite IH; rewrite <- app_assoc; [reflexivity | exact Hnd].
Qed.

Lemma dict_of_pairs (items : pydict) :
  NoDup (map fst items) -> dict_update [] items = items.
Proof. intros H. now rewrite dict_update_fresh. Qed.

(** ** Decimal digits *)

Lemma dec_digits_acc (f : nat) (n : N) (acc : list ascii) :
  dec_digits f n acc = dec_digits f n [] ++ acc.
Proof.
  revert n acc. induction f as [|f IH]; intros n acc; simpl; [reflexivity |].
  destruct (n <? 10)%N; [reflexivity |].
  rewrite IH, (IH _ [_]), <- app_assoc. reflexivity.
Qed.

Lemma fuel_ok_div10 (f : nat) (n : N) :
  fuel_ok (S f) n -> (10 <= n)%N -> fuel_ok f (n / 10).
Proof.
  intros [_ Hn] Hge. rewrite Nat2N.inj_succ, N.pow_succ_r' in Hn.
  assert (Hlt : (n / 10 < 2 ^ N.of_nat f)%N).
  { apply N.Div0.div_lt_upper_bound. lia. }
  split; [| exact Hlt].
  destruct f; [simpl in Hn; lia | lia].
Qed.

Lemma fuel_ok_log2 (n : N) : fuel_ok (S (N.to_nat (N.log2 n))) n.
Proof.
  split; [lia |]. rewrite Nat2N.inj_succ, N2Nat.id.
  destruct (N.eq_dec n 0%N) as [->|Hn]; [reflexivity |].
  apply N.log2_spec. lia.
Qed.

Lemma dec_digits_fuel (f f' : nat) (n : N) (acc : list ascii) :
  fuel_ok f n -> fuel_ok f' n -> dec_digits f n acc = dec_digits f' n acc.
Proof.
  revert f' n acc. induction f as [|f IH]; intros f' n acc Hf Hf'.
  - destruct Hf; lia.
  - destruct f' as [|f']; [destruct Hf'; lia |]. simpl.
    destruct (N.ltb_spec n 10); [reflexivity |].
    apply IH; now apply fuel_ok_div10.
Qed.

Lemma dec_of_N_small (n : N) : (n < 10)%N -> dec_of_N n = [digit_char n].
Proof.
  intros H. unfold dec_of_N. simpl.
  destruct (N.ltb_spec n 10); [| lia]. now rewrite N.mod_small.
Qed.

Lemma dec_of_N_step (n : N) :
  (10 <= n)%N -> dec_of_N n = dec_of_N (n / 10) ++ [digit_char (n mod 10)].
Proof.
  intros H. unfold dec_of_N at 1. simpl.
  destruct (N.ltb_spec n 10); [lia |].
  rewrite dec_digits_acc. f_equal. unfold dec_of_N.
  apply dec_digits_fuel.
  - apply fuel_ok_div10; [apply fuel_ok_log2 | assumption].
  - apply fuel_ok_log2.
Qed.

Lemma code_digit_char (d : N) : (d < 10)%N -> code (digit_char d) = (48 + d)%N.
Proof.
  intros H. unfold code, digit_char. apply N_ascii_embedding. lia.
Qed.

Lemma is_digit_digit_char (d : N) : (d < 10)%N -> is_digit (digit_char d) = true.
Proof.
  intros H. unfold is_digit. rewrite code_digit_char by assumption.
  apply andb_true_intro. split; apply N.leb_le; lia.
Qed.

(** Strong induction along division by ten. *)
Lemma N_div10_ind (Q : N -> Prop) :
  (forall n, (n < 10)%N -> Q n) ->
  (forall n, (10 <= n)%N -> Q (n / 10)%N -> Q n) ->
  forall n, Q n.
Proof.
  intros Hsmall Hstep n.
  induction n as [n IH] using (well_founded_induction N.lt_wf_0).
  destruct (N.lt_ge_cases n 10) as [H|H]; [now apply Hsmall |].
  apply Hstep; [assumption |]. apply IH. apply N.div_lt; lia.
Qed.

Lemma dec_of_N_digits (n : N) : forallb is_digit (dec_of_N n) = true.
Proof.
  induction n as [n H | n H IH] using N_div10_ind.
  - rewrite dec_of_N_small by assumption. simpl.
    now rewrite is_digit_digit_char.
  - rewrite dec_of_N_step, forallb_app, IH by assumption. simpl.
    rewrite is_digit_digit_char; [reflexivity |]. apply N.mod_lt. lia.
Qed.

Lemma read_digits_app (a : N) (l1 l2 : list ascii) :
  read_digits a (l1 ++ l2) = read_digits (read_digits a l1) l2.
Proof. revert a. induction l1 as [|c l1 IH]; intros a; simpl; [reflexivity | apply IH]. Qed.

Lemma read_dec_of_N (n : N) : read_digits 0%N (dec_of_N n) = n.
Proof.
  induction n as [n H | n H IH] using N_div10_ind.
  - rewrite dec_of_N_small by assumption. cbn [read_digits].
    rewrite code_digit_char by assumption. lia.
  - rewrite dec_of_N_step, read_digits_app, IH by assumption. cbn [read_digits].
    rewrite code_digit_char by (apply N.mod_lt; lia).
    pose proof (N.div_mod n 10 ltac:(lia)) as Hdm.
    pose proof (N.mod_lt n 10 ltac:(lia)) as Hm.
    generalize dependent (n / 10)%N. generalize dependent (n mod 10)%N. intros. lia.
Qed.

(** The first digit is a zero only for zero, which is written [0]. *)
Lemma dec_of_N_head (n : N) :
  exists c t, dec_of_N n = c :: t /\ is_digit c = true
              /\ ((code c =? 48)%N = true -> t = [] /\ n = 0%N).
Proof.
  induction n as [n H | n H IH] using N_div10_ind.
  - rewrite dec_of_N_small by assumption. exists (digit_char n), [].
    split; [reflexivity |]. split; [now apply is_digit_digit_char |].
    rewrite code_digit_char by assumption. intros E%N.eqb_eq. split; [reflexivity | lia].
  - destruct IH as (c & t & E & Hd & Hz). rewrite dec_of_N_step, E by assumption.
    exists c, (t ++ [digit_char (n mod 10)]). split; [reflexivity |].
    split; [assumption |]. intros Hc. destruct (Hz Hc) as [_ H0].
    assert (n / 10 <> 0)%N; [| contradiction].
    pose proof (N.div_le_lower_bound n 10 1). lia.
Qed.

(** ** JSON: what is written is read back *)

(** Reading an escaped character gives the character back. *)
Lemma scan_escape_char (c : ascii) (t : list ascii) :
  scan_string (json_escape_char c ++ t) = cons_fst c (scan_string t).
Proof.
  destruct c as [[] [] [] [] [] [] [] []]; reflexivity.
Qed.

Lemma scan_string_quote (cs rest : list ascii) :
  scan_string (concat (map json_escape_char cs) ++ chr 34 :: rest) = Some (cs, rest).
Proof.
  induction cs as [|c cs IH]; cbn [map concat].
  - reflexivity.
  - rewrite <- app_assoc, scan_escape_char, IH. reflexivity.
Qed.

Lemma json_quote_app (s : string) (rest : list ascii) :
  json_quote s ++ rest =
    chr 34 :: concat (map json_escape_char (chars s)) ++ chr 34 :: rest.
Proof. unfold json_quote. simpl. now rewrite <- app_assoc. Qed.

Lemma number_stop_cons (c : ascii) (rest : list ascii) :
  number_stop (c :: rest) = true ->
  is_digit c = false /\ (code c =? 46)%N = false
  /\ (code c =? 101)%N = false /\ (code c =? 69)%N = false.
Proof.
  unfold number_stop. rewrite !andb_true_iff, !negb_true_iff. tauto.
Qed.

Lemma span_digits_app (ds rest : list ascii) :
  forallb is_digit ds = true -> number_stop rest = true ->
  span_digits (ds ++ rest) = (ds, rest).
Proof.
  intros Hds Hrest. induction ds as [|c ds IH]; cbn [app forallb] in *.
  - destruct rest as [|c rest]; [reflexivity |].
    apply number_stop_cons in Hrest as (Hd & _). cbn [span_digits]. now rewrite Hd.
  - apply andb_true_iff in Hds as [Hc Hds]. cbn [span_digits]. now rewrite Hc, IH.
Qed.

Lemma lex_frac_stop (rest : list ascii) :
  number_stop rest = true -> lex_frac rest = ([], rest).
Proof.
  destruct rest as [|c rest]; [reflexivity |]. intros H.
  apply number_stop_cons in H as (_ & Hdot & _). unfold lex_frac. now rewrite Hdot.
Qed.

Lemma lex_exp_stop (rest : list ascii) :
  number_stop rest = true -> lex_exp rest = ([], rest).
Proof.
  destruct rest as [|c rest]; [reflexivity |]. intros H.
  apply number_stop_cons in H as (_ & _ & He & HE). unfold lex_exp. now rewrite He, HE.
Qed.

Lemma lex_int_dec (n : N) (rest : list ascii) :
  number_stop rest = true ->
  lex_int (dec_of_N n ++ rest) = Some (dec_of_N n, rest).
Proof.
  intros Hrest. destruct (dec_of_N_head n) as (c & t & E & Hd & Hz).
  pose proof (dec_of_N_digits n) as Hall.
  rewrite E in *. cbn [app lex_int]. destruct (code c =? 48)%N eqn:Hc.
  - destruct (Hz eq_refl) as [-> _]. reflexivity.
  - rewrite Hd. change (c :: t ++ rest) with ((c :: t) ++ rest).
    now rewrite span_digits_app.
Qed.

Lemma parse_number_nat (ft : float_text) (n : N) (rest : list ascii) :
  number_stop rest = true ->
  parse_number ft (dec_of_N n ++ rest) = Some (VInt (Z.of_N n), rest).
Proof.
  intros Hrest. unfold parse_number.
  destruct (dec_of_N_head n) as (c & t & E & Hd & _).
  assert (Hminus : (code c =? 45)%N = false).
  { unfold is_digit in Hd. apply andb_true_iff in Hd as [H1 _].
    apply N.leb_le in H1. apply N.eqb_neq. lia. }
  rewrite E. cbn [app]. rewrite Hminus.
  change (c :: t ++ rest) with ((c :: t) ++ rest). rewrite <- E.
  rewrite lex_int_dec, lex_frac_stop, lex_exp_stop by assumption. cbn [app].
  now rewrite read_dec_of_N.
Qed.

Lemma parse_number_int (ft : float_text) (z : Z) (rest : list ascii) :
  number_stop rest = true ->
  parse_number ft (dec_of_Z z ++ rest) = Some (VInt z, rest).
Proof.
  intros Hrest. unfold dec_of_Z. destruct (Z.ltb_spec z 0) as [Hneg|Hpos].
  - unfold parse_number. cbn [app]. change (code "-" =? 45)%N with true. cbv iota.
    rewrite lex_int_dec, lex_frac_stop, lex_exp_stop by assumption. cbn [app].
    rewrite read_dec_of_N. do 3 f_equal. lia.
  - rewrite parse_number_nat by assumption. do 3 f_equal. lia.
Qed.

(** A value that opens with a digit or a minus sign is read as a number. *)
Lemma parse_value_number (ft : float_text) (fuel : nat) (c : ascii) (t : list ascii) :
  is_digit c || (code c =? 45)%N = true ->
  parse_value ft (S fuel) (c :: t) =
    match parse_number ft (c :: t) with
    | Some r => Some r
    | None => parse_constant (c :: t)
    end.
Proof.
  destruct c as [[] [] [] [] [] [] [] []]; intros H; try discriminate H; reflexivity.
Qed.

Lemma dec_of_Z_head (z : Z) :
  exists c t, dec_of_Z z = c :: t /\ is_digit c || (code c =? 45)%N = true.
Proof.
  unfold dec_of_Z. destruct (z <? 0).
  - eexists _, _. split; reflexivity.
  - destruct (dec_of_N_head (Z.abs_N z)) as (c & t & E & Hd & _).
    exists c, t. now rewrite E, Hd.
Qed.

Lemma parse_value_int (ft : float_text) (fuel : nat) (z : Z) (rest : list ascii) :
  number_stop rest = true ->
  parse_value ft (S fuel) (dec_of_Z z ++ rest) = Some (VInt z, rest).
Proof.
  intros Hrest. destruct (dec_of_Z_head z) as (c & t & E & Hc).
  pose proof (parse_number_int ft z rest Hrest) as Hnum.
  rewrite E in *. simpl app in *. rewrite parse_value_number by assumption.
  now rewrite Hnum.
Qed.

(** *** Float literals *)

Lemma span_digits_split (s : list ascii) :
  fst (span_digits s) ++ snd (span_digits s) = s.
Proof.
  induction s as [|c s IH]; [reflexivity |]. cbn [span_digits].
  destruct (is_digit c); [| reflexivity].
  destruct (span_digits s) as [ds r]. cbn [fst snd app] in *. now rewrite IH.
Qed.

Lemma span_digits_stable (s rest : list ascii) :
  number_stop rest = true ->
  span_digits (s ++ rest) = (fst (span_digits s), snd (span_digits s) ++ rest).
Proof.
  intros Hrest. induction s as [|c s IH]; cbn [app span_digits].
  - destruct rest as [|c rest]; [reflexivity |].
    apply number_stop_cons in Hrest as (Hd & _). cbn [span_digits]. now rewrite Hd.
  - destruct (is_digit c); [| reflexivity].
    rewrite IH. now destruct (span_digits s).
Qed.

Lemma lex_int_split (s ds r : list ascii) : lex_int s = Some (ds, r) -> s = ds ++ r.
Proof.
  destruct s as [|c s]; [discriminate |]. cbn [lex_int].
  destruct (code c =? 48)%N; [intros [= <- <-]; reflexivity |].
  destruct (is_digit c); [| discriminate].
  pose proof (span_digits_split (c :: s)) as Hs.
  destruct (span_digits (c :: s)) as [ds' r']. intros [= <- <-]. now symmetry.
Qed.

Lemma lex_int_stable (s ds r rest : list ascii) :
  number_stop rest = true ->
  lex_int s = Some (ds, r) -> lex_int (s ++ rest) = Some (ds, r ++ rest).
Proof.
  intros Hrest. destruct s as [|c s]; [discriminate |]. cbn [lex_int app].
  destruct (code c =? 48)%N; [intros [= <- <-]; reflexivity |].
  destruct (is_digit c); [| discriminate].
  change (c :: s ++ rest) with ((c :: s) ++ rest).
  rewrite span_digits_stable by assumption.
  destruct (span_digits (c :: s)) as [ds' r']. now intros [= <- <-].
Qed.

Lemma lex_int_head (s ds r : list ascii) :
  lex_int s = Some (ds, r) -> exists c t, s = c :: t /\ is_digit c = true.
Proof.
  destruct s as [|c s]; [discriminate |]. cbn [lex_int].
  destruct (code c =? 48)%N eqn:E.
  - intros _. exists c, s. split; [reflexivity |].
    apply N.eqb_eq in E. unfold is_digit. now rewrite E.
  - destruct (is_digit c) eqn:Hd; [| discriminate]. now exists c, s.
Qed.

Lemma lex_frac_split (s : list ascii) : fst (lex_frac s) ++ snd (lex_frac s) = s.
Proof.
  destruct s as [|c s]; [reflexivity |]. cbn [lex_frac].
  destruct (code c =? 46)%N; [| reflexivity].
  pose proof (span_digits_split s) as Hs.
  destruct (span_digits s) as [[|d ds] r]; [reflexivity |].
  cbn [fst snd app] in *. now rewrite Hs.
Qed.

Lemma lex_frac_stable (s rest : list ascii) :
  number_stop rest = true ->
  lex_frac (s ++ rest) = (fst (lex_frac s), snd (lex_frac s) ++ rest).
Proof.
  intros Hrest. destruct s as [|c s]; cbn [app].
  - now rewrite lex_frac_stop.
  - cbn [lex_frac]. destruct (code c =? 46)%N; [| reflexivity].
    rewrite span_digits_stable by assumption.
    now destruct (span_digits s) as [[|d ds] r].
Qed.

Lemma lex_exp_split (s : list ascii) : fst (lex_exp s) ++ snd (lex_exp s) = s.
Proof.
  destruct s as [|c s]; [reflexivity |]. cbn [lex_exp].
  destruct ((code c =? 101) || (code c =? 69))%N; [| reflexivity].
  destruct s as [|d t].
  - reflexivity.
  - destruct ((code d =? 43) || (code d =? 45))%N.
    + pose proof (span_digits_split t) as Hs.
      destruct (span_digits t) as [[|e ds] r]; [reflexivity |].
      cbn [fst snd app] in *. now rewrite Hs.
    + pose proof (span_digits_split (d :: t)) as Hs.
      destruct (span_digits (d :: t)) as [[|e ds] r]; [reflexivity |].
      cbn [fst snd app] in *. now rewrite Hs.
Qed.

(** An exponent that runs to the end of its text is read the same way when
    something that stops a number follows. *)
Lemma lex_exp_stable (s ex rest : list ascii) :
  number_stop rest = true ->
  lex_exp s = (ex, []) -> lex_exp (s ++ rest) = (ex, rest).
Proof.
  intros Hrest. destruct s as [|c s]; cbn [app].
  - intros [= <-]. now apply lex_exp_stop.
  - cbn [lex_exp]. destruct ((code c =? 101) || (code c =? 69))%N; [| discriminate].
    destruct s as [|d t].
    + discriminate.
    + cbn [app]. destruct ((code d =? 43) || (code d =? 45))%N.
      * rewrite span_digits_stable by assumption.
        destruct (span_digits t) as [[|e ds] r]; [discriminate |].
        cbn [fst snd]. intros [= <- ->]. reflexivity.
      * change (d :: t ++ rest) with ((d :: t) ++ rest).
        rewrite span_digits_stable by assumption.
        destruct (span_digits (d :: t)) as [[|e ds] r]; [discriminate |].
        cbn [fst snd]. intros [= <- ->]. reflexivity.
Qed.

Lemma float_literal_head (cs : list ascii) :
  float_literal cs = true ->
  exists c t, cs = c :: t /\ is_digit c || (code c =? 45)%N = true.
Proof.
  unfold float_literal. destruct cs as [|c t]; [discriminate |].
  intros H. exists c, t. split; [reflexivity |].
  destruct (code c =? 45)%N; [apply orb_true_r |].
  destruct (lex_int (c :: t)) as [[ds r]|] eqn:E; [| discriminate].
  destruct (lex_int_head _ _ _ E) as (c' & t' & [= <- <-] & Hd). now rewrite Hd.
Qed.

(** A float literal followed by something that stops a number is read as
    the float the interpreter assigns to the literal. *)
Lemma parse_number_float (ft : float_text) (cs rest : list ascii) :
  float_literal cs = true ->
  number_stop rest = true ->
  parse_number ft (cs ++ rest) =
    Some (VFloat (float_of_literal ft (string_of_list_ascii cs)), rest).
Proof.
  intros Hlit Hrest. unfold float_literal in Hlit. unfold parse_number.
  destruct cs as [|c t]; [discriminate |]. cbn [app].
  set (neg := (code c =? 45)%N) in *.
  assert (Hbody : forall body,
            body = (if neg then t else c :: t) ->
            c :: t = (if neg then [chr 45] else []) ++ body).
  { intros body ->. subst neg. destruct (N.eqb_spec (code c) 45) as [E|E]; [| reflexivity].
    cbn [app]. f_equal. rewrite <- (ascii_N_embedding c). unfold code in E. now rewrite E. }
  remember (if neg then t else c :: t) as body eqn:Ebody.
  specialize (Hbody body eq_refl).
  replace (if neg then (true, t ++ rest) else (false, c :: t ++ rest))
    with (neg, body ++ rest) by (subst body; now destruct neg).
  destruct (lex_int body) as [[ds r1]|] eqn:Ei; [| discriminate].
  rewrite (lex_int_stable _ _ _ rest Hrest Ei), lex_frac_stable by assumption.
  pose proof (lex_frac_split r1) as Sf.
  destruct (lex_frac r1) as [fr r2]. cbn [fst snd] in *.
  pose proof (lex_exp_split r2) as Se.
  destruct (lex_exp r2) as [ex r3] eqn:Ee. cbn [fst snd] in *.
  destruct r3 as [|x r3]; [| discriminate].
  rewrite (lex_exp_stable r2 ex rest Hrest Ee).
  destruct (fr ++ ex) as [|y l] eqn:Efe; [discriminate |].
  do 4 f_equal. rewrite Hbody, (lex_int_split _ _ _ Ei), <- Sf, <- Se, app_nil_r.
  now rewrite <- Efe.
Qed.

Lemma skip_ws_head (c : ascii) (t : list ascii) :
  is_ws c = false -> skip_ws (c :: t) = c :: t.
Proof. intros H. simpl. now rewrite H. Qed.

Lemma opens_value_spec (c : ascii) :
  opens_value c = true ->
  is_ws c = false /\ (code c =? 93)%N = false /\ (code c =? 125)%N = false.
Proof.
  unfold opens_value. rewrite !andb_true_iff, !negb_true_iff. tauto.
Qed.

Lemma number_opens_value (c : ascii) :
  is_digit c || (code c =? 45)%N = true -> opens_value c = true.
Proof.
  destruct c as [[] [] [] [] [] [] [] []]; intros H; try discriminate H; reflexivity.
Qed.

Lemma json_float_head (ft : float_text) (f : spec_float) :
  float_round_trips ft f = true ->
  exists c t, chars (json_float ft f) = c :: t /\ opens_value c = true.
Proof.
  intros Hf.
  assert (Hlit : float_literal (chars (py_float_repr ft f)) = true ->
                 exists c t, chars (py_float_repr ft f) = c :: t /\ opens_value c = true).
  { intros H. destruct (float_literal_head _ H) as (c & t & E & Hc).
    exists c, t. split; [exact E | now apply number_opens_value]. }
  destruct f as [s | s | | s m e]; cbn [float_round_trips json_float] in *.
  - apply andb_true_iff in Hf as [H _]. now apply Hlit.
  - destruct s; eexists _, _; split; reflexivity.
  - discriminate.
  - apply andb_true_iff in Hf as [H _]. now apply Hlit.
Qed.

(** The text of a float on which printer and reader agree reads back as the
    float. *)
Lemma parse_value_float (ft : float_text) (fuel : nat) (f : spec_float)
    (rest : list ascii) :
  float_round_trips ft f = true ->
  number_stop rest = true ->
  parse_value ft (S fuel) (chars (json_float ft f) ++ rest) = Some (VFloat f, rest).
Proof.
  intros Hf Hrest.
  assert (Hlit : float_literal (chars (py_float_repr ft f)) = true ->
                 float_of_literal ft (py_float_repr ft f) = f ->
                 parse_value ft (S fuel) (chars (py_float_repr ft f) ++ rest)
                 = Some (VFloat f, rest)).
  { intros H Heq. destruct (float_literal_head _ H) as (c & t & E & Hc).
    pose proof (parse_number_float ft _ rest H Hrest) as Hnum.
    rewrite string_of_list_ascii_of_string, Heq in Hnum.
    rewrite E in *. cbn [app] in *. rewrite parse_value_number by assumption.
    now rewrite Hnum. }
  destruct f as [s | s | | s m e]; cbn [float_round_trips json_float] in *.
  - apply andb_true_iff in Hf as [H Heq]. apply bool_decide_eq_true in Heq. now apply Hlit.
  - destruct s; reflexivity.
  - discriminate.
  - apply andb_true_iff in Hf as [H Heq]. apply bool_decide_eq_true in Heq. now apply Hlit.
Qed.

Lemma json_emit_head (ft : float_text) (v : pyval) :
  json_exact ft v = true ->
  exists c t, json_emit ft v = c :: t /\ opens_value c = true.
Proof.
  destruct v as [| b | z | f | s | l | l | d]; intros Hv;
    try (eexists _, _; split; reflexivity).
  - destruct b; eexists _, _; split; reflexivity.
  - destruct (dec_of_Z_head z) as (c & t & E & Hc).
    exists c, t. split; [exact E | now apply number_opens_value].
  - now apply json_float_head.
Qed.

Lemma join_chars_cons (sep p : list ascii) (q : list ascii) (ps : list (list ascii)) :
  join_chars sep (p :: q :: ps) = p ++ sep ++ join_chars sep (q :: ps).
Proof. reflexivity. Qed.

Lemma list_sum_In {A} (f : A -> nat) (x : A) (l : list A) :
  In x l -> (f x <= list_sum (map f l))%nat.
Proof.
  induction l as [|y l IH]; simpl; [tauto |].
  intros [->|H]; [lia | specialize (IH H); lia].
Qed.

Lemma list_sum_length {A} (f : A -> nat) (l : list A) :
  (forall x, (1 <= f x)%nat) -> (length l <= list_sum (map f l))%nat.
Proof.
  intros Hf. induction l as [|y l IH]; simpl; [lia |]. specialize (Hf y). lia.
Qed.

Lemma json_size_pos (v : pyval) : (1 <= json_size v)%nat.
Proof. destruct v; simpl; lia. Qed.

Section Roundtrip.
Variable ft : float_text.

Lemma parse_elems_emit (pv : parser pyval) (l : list pyval) :
  forall (k : nat) (rest : list ascii),
  l <> [] ->
  (length l <= k)%nat ->
  (forall x, In x l -> json_exact ft x = true /\ reads_back ft pv x) ->
  parse_elems pv k (join_chars (chars ", ") (map (json_emit ft) l) ++ chr 93 :: rest)
  = Some (map as_json l, rest).
Proof.
  induction l as [|x l IH]; intros k rest Hne Hk Hl; [congruence |].
  destruct k as [|k]; [simpl in Hk; lia |].
  destruct (Hl x (or_introl eq_refl)) as [_ Hx].
  destruct l as [|y l].
  - cbn [map join_chars parse_elems].
    rewrite Hx by reflexivity. reflexivity.
  - cbn [map]. rewrite join_chars_cons, <- !app_assoc. cbn [parse_elems].
    rewrite Hx by reflexivity.
    change (chars ", " ++ ?t) with (chr 44 :: chr 32 :: t).
    cbn [skip_ws app]. change (is_ws (chr 44)) with false. cbv iota.
    change (code (chr 44) =? 44)%N with true. cbv iota.
    change (skip_ws (chr 32 :: ?t)) with (skip_ws t).
    destruct (Hl y (or_intror (or_introl eq_refl))) as [Hfy _].
    destruct (json_emit_head ft y Hfy) as (c & t & E & Hc).
    apply opens_value_spec in Hc as (Hws & _).
    assert (Hskip : forall tail,
               skip_ws (join_chars (chars ", ") (json_emit ft y :: map (json_emit ft) l) ++ tail)
               = join_chars (chars ", ") (json_emit ft y :: map (json_emit ft) l) ++ tail).
    { intros tail. destruct (map (json_emit ft) l); cbn [join_chars];
        rewrite E; cbn [app]; now apply skip_ws_head. }
    rewrite Hskip.
    change (json_emit ft y :: map (json_emit ft) l) with (map (json_emit ft) (y :: l)).
    rewrite IH; [reflexivity | discriminate | simpl in *; lia |].
    intros z Hz. apply Hl. now right.
Qed.

Lemma json_member_head (kv : string * pyval) (tail : list ascii) :
  exists t, json_member ft kv ++ tail = chr 34 :: t.
Proof. unfold json_member, json_quote. eexists. reflexivity. Qed.

Lemma join_members_head (d : pydict) (tail : list ascii) :
  d <> [] ->
  exists t, join_chars (chars ", ") (map (json_member ft) d) ++ tail = chr 34 :: t.
Proof.
  destruct d as [|kv d]; [congruence |]. intros _. cbn [map].
  destruct (map (json_member ft) d); cbn [join_chars]; eexists; reflexivity.
Qed.

Lemma parse_members_emit (pv : parser pyval) (d : pydict) :
  forall (k : nat) (rest : list ascii),
  d <> [] ->
  (length d <= k)%nat ->
  (forall kv, In kv d -> json_exact ft (snd kv) = true /\ reads_back ft pv (snd kv)) ->
  parse_members pv k (join_chars (chars ", ") (map (json_member ft) d) ++ chr 125 :: rest)
  = Some (map (fun kv => (fst kv, as_json (snd kv))) d, rest).
Proof.
  induction d as [|[key v] d IH]; intros k rest Hne Hk Hd; [congruence |].
  destruct k as [|k]; [simpl in Hk; lia |].
  destruct (Hd (key, v) (or_introl eq_refl)) as [Hfv Hv]. cbn [fst snd] in *.
  destruct (json_emit_head ft v Hfv) as (c & t & E & Hc).
  apply opens_value_spec in Hc as (Hws & _).
  assert (Hmember : forall tail,
            parse_members pv (S k) (json_member ft (key, v) ++ tail) =
              match pv (json_emit ft v ++ tail) with
              | None => None
              | Some (v', s3) =>
                  match skip_ws s3 with
                  | d0 :: s4 =>
                      if (code d0 =? 44)%N then
                        cons_fst (key, v') (parse_members pv k (skip_ws s4))
                      else if (code d0 =? 125)%N then Some ([(key, v')], s4)
                      else None
                  | [] => None
                  end
              end).
  { intros tail. unfold json_member. cbn [fst snd].
    rewrite <- !app_assoc, json_quote_app. cbn [parse_members].
    change (code (chr 34) =? 34)%N with true. cbv iota.
    rewrite scan_string_quote.
    change (chars ": " ++ ?x) with (chr 58 :: chr 32 :: x).
    cbn [skip_ws]. change (is_ws (chr 58)) with false. cbv iota.
    change (code (chr 58) =? 58)%N with true. cbv iota.
    change (skip_ws (chr 32 :: ?x)) with (skip_ws x).
    rewrite E. cbn [app]. rewrite (skip_ws_head c _ Hws).
    now rewrite string_of_list_ascii_of_string. }
  destruct d as [|kv' d].
  - cbn [map join_chars]. rewrite Hmember, Hv by reflexivity. reflexivity.
  - cbn [map]. rewrite join_chars_cons, <- !app_assoc, Hmember.
    rewrite Hv by reflexivity.
    change (chars ", " ++ ?x) with (chr 44 :: chr 32 :: x).
    cbn [skip_ws]. change (is_ws (chr 44)) with false. cbv iota.
    change (code (chr 44) =? 44)%N with true. cbv iota.
    change (skip_ws (chr 32 :: ?x)) with (skip_ws x).
    assert (Hskip : forall tail,
               skip_ws (join_chars (chars ", ") (map (json_member ft) (kv' :: d)) ++ tail)
               = join_chars (chars ", ") (map (json_member ft) (kv' :: d)) ++ tail).
    { intros tail. destruct (join_members_head (kv' :: d) tail) as [t' E']; [discriminate |].
      rewrite E'. reflexivity. }
    change (json_member ft kv' :: map (json_member ft) d) with (map (json_member ft) (kv' :: d)).
    rewrite Hskip.
    rewrite IH; [reflexivity | discriminate | simpl in *; lia |].
    intros z Hz. apply Hd. now right.
Qed.

Lemma json_emit_dict (d : pydict) :
  json_emit ft (VDict d) =
    chr 123 :: join_chars (chars ", ") (map (json_member ft) d) ++ [chr 125].
Proof. reflexivity. Qed.

Lemma json_emit_list (l : list pyval) :
  json_emit ft (VList l) =
    chr 91 :: join_chars (chars ", ") (map (json_emit ft) l) ++ [chr 93].
Proof. reflexivity. Qed.

Lemma json_emit_tuple (l : list pyval) : json_emit ft (VTuple l) = json_emit ft (VList l).
Proof. reflexivity. Qed.

Lemma parse_value_array (fuel : nat) (s1 : list ascii) :
  parse_value ft (S fuel) (chr 91 :: s1) =
    match skip_ws s1 with
    | d :: s2 =>
        if (code d =? 93)%N then Some (VList [], s2)
        else
          match parse_elems (parse_value ft fuel) fuel (d :: s2) with
          | Some (vs, r) => Some (VList vs, r)
          | None => None
          end
    | [] => None
    end.
Proof. reflexivity. Qed.

Lemma parse_value_object (fuel : nat) (s1 : list ascii) :
  parse_value ft (S fuel) (chr 123 :: s1) =
    match skip_ws s1 with
    | d :: s2 =>
        if (code d =? 125)%N then Some (VDict [], s2)
        else
          match parse_members (parse_value ft fuel) fuel (d :: s2) with
          | Some (ps, r) => Some (VDict (dict_update [] ps), r)
          | None => None
          end
    | [] => None
    end.
Proof. reflexivity. Qed.

Lemma parse_value_string (fuel : nat) (s1 : list ascii) :
  parse_value ft (S fuel) (chr 34 :: s1) =
    match scan_string s1 with
    | Some (cs, r) => Some (VStr (string_of_list_ascii cs), r)
    | None => None
    end.
Proof. reflexivity. Qed.

Lemma parse_list_emit (fuel : nat) (l : list pyval) (rest : list ascii) :
  (list_sum (map json_size l) <= fuel)%nat ->
  (forall x, In x l -> json_exact ft x = true /\ reads_back ft (parse_value ft fuel) x) ->
  parse_value ft (S fuel) (json_emit ft (VList l) ++ rest) = Some (VList (map as_json l), rest).
Proof.
  intros Hsize Hl. rewrite json_emit_list. cbn [app]. rewrite <- app_assoc. cbn [app].
  rewrite parse_value_array. destruct l as [|x l]; [reflexivity |].
  destruct (Hl x (or_introl eq_refl)) as [Hfx _].
  destruct (json_emit_head ft x Hfx) as (c & t & E & Hc).
  apply opens_value_spec in Hc as (Hws & Hclose & _).
  assert (Hhead : exists t', join_chars (chars ", ") (map (json_emit ft) (x :: l)) ++ chr 93 :: rest = c :: t').
  { cbn [map]. destruct (map (json_emit ft) l); cbn [join_chars]; rewrite E; eexists; reflexivity. }
  destruct Hhead as [t' Hhead]. rewrite Hhead, (skip_ws_head c _ Hws), Hclose, <- Hhead.
  rewrite parse_elems_emit; [reflexivity | discriminate | | exact Hl].
  pose proof (list_sum_length json_size (x :: l) json_size_pos). lia.
Qed.

(** The text of a float-free value, followed by anything a number cannot
    run into, reads back as the value (tuples as lists). *)
Lemma parse_value_emit (fuel : nat) :
  forall (v : pyval) (rest : list ascii),
  json_exact ft v = true ->
  (json_size v <= fuel)%nat ->
  number_stop rest = true ->
  parse_value ft fuel (json_emit ft v ++ rest) = Some (as_json v, rest).
Proof.
  induction fuel as [|fuel IH]; intros v rest Hv Hsize Hrest.
  { pose proof (json_size_pos v). lia. }
  destruct v as [| b | z | f | s | l | l | d].
  - reflexivity.
  - destruct b; reflexivity.
  - now apply parse_value_int.
  - now apply parse_value_float.
  - cbn [json_emit as_json]. rewrite json_quote_app, parse_value_string, scan_string_quote.
    now rewrite string_of_list_ascii_of_string.
  - cbn [json_exact json_size] in *. apply parse_list_emit; [lia |].
    intros x Hx. rewrite forallb_forall in Hv. split; [now apply Hv |].
    intros r Hr. apply IH; [now apply Hv | | assumption].
    pose proof (list_sum_In json_size x l Hx). lia.
  - rewrite json_emit_tuple. cbn [json_exact json_size as_json] in *.
    apply parse_list_emit; [lia |].
    intros x Hx. rewrite forallb_forall in Hv. split; [now apply Hv |].
    intros r Hr. apply IH; [now apply Hv | | assumption].
    pose proof (list_sum_In json_size x l Hx). lia.
  - cbn [json_exact json_size as_json] in *.
    apply andb_true_iff in Hv as [Hv Hnd]. apply bool_decide_eq_true in Hnd.
    rewrite forallb_forall in Hv.
    rewrite json_emit_dict. cbn [app]. rewrite <- app_assoc. cbn [app].
    rewrite parse_value_object. destruct d as [|kv d]; [reflexivity |].
    destruct (join_members_head (kv :: d) (chr 125 :: rest)) as [t' Hhead];
      [discriminate |].
    rewrite Hhead.
    change (skip_ws (chr 34 :: t')) with (chr 34 :: t').
    change (code (chr 34) =? 125)%N with false. cbv iota. rewrite <- Hhead.
    rewrite parse_members_emit.
    + rewrite dict_of_pairs; [reflexivity |]. now rewrite map_map.
    + discriminate.
    + pose proof (list_sum_length (fun kv => json_size (snd kv)) (kv :: d)
                    (fun kv => json_size_pos (snd kv))). lia.
    + intros kv' Hin. split; [now apply Hv |].
      intros r Hr. apply IH; [now apply Hv | | assumption].
      pose proof (list_sum_In (fun kv => json_size (snd kv)) kv' (kv :: d) Hin). lia.
Qed.
End Roundtrip.

(** ** [json.loads(json.dumps(v))] *)

Lemma length_join_chars (sep : list ascii) (parts : list (list ascii)) :
  (list_sum (map (@length ascii) parts) <= length (join_chars sep parts))%nat.
Proof.
  induction parts as [|p parts IH]; [simpl; lia |].
  destruct parts as [|q parts]; [simpl; lia |].
  rewrite join_chars_cons, !length_app. cbn [map list_sum fold_right] in *. lia.
Qed.

Lemma list_sum_le {A} (f g : A -> nat) (l : list A) :
  (forall x, In x l -> (f x <= g x)%nat) ->
  (list_sum (map f l) <= list_sum (map g l))%nat.
Proof.
  induction l as [|x l IH]; intros H; simpl; [lia |].
  pose proof (H x (or_introl eq_refl)).
  assert (list_sum (map f l) <= list_sum (map g l))%nat; [| lia].
  apply IH. intros y Hy. apply H. now right.
Qed.

(** The text of a value has at least one character per node. *)
Lemma json_size_le_length (ft : float_text) (n : nat) :
  forall v, (json_size v <= n)%nat -> json_exact ft v = true ->
            (json_size v <= length (json_emit ft v))%nat.
Proof.
  induction n as [|n IH]; intros v Hn Hv.
  { pose proof (json_size_pos v). lia. }
  assert (Hlist : forall l, (S (list_sum (map json_size l)) <= S n)%nat ->
                            forallb (json_exact ft) l = true ->
                            (S (list_sum (map json_size l))
                             <= length (json_emit ft (VList l)))%nat).
  { intros l Hl Hf. rewrite json_emit_list. cbn [length]. rewrite length_app. cbn [length].
    pose proof (length_join_chars (chars ", ") (map (json_emit ft) l)) as Hj.
    rewrite map_map in Hj.
    assert (list_sum (map json_size l)
            <= list_sum (map (fun x => length (json_emit ft x)) l))%nat; [| lia].
    apply list_sum_le. intros x Hx. rewrite forallb_forall in Hf.
    apply IH; [| now apply Hf].
    pose proof (list_sum_In json_size x l Hx). lia. }
  destruct v as [| b | z | f | s | l | l | d]; cbn [json_size json_exact] in *.
  - simpl. lia.
  - destruct b; simpl; lia.
  - destruct (dec_of_Z_head z) as (c & t & E & _). cbn [json_emit]. rewrite E. simpl. lia.
  - destruct (json_float_head ft f Hv) as (c & t & E & _). cbn [json_emit]. rewrite E.
    simpl. lia.
  - simpl. lia.
  - now apply Hlist.
  - rewrite json_emit_tuple. now apply Hlist.
  - apply andb_true_iff in Hv as [Hv _]. rewrite forallb_forall in Hv.
    rewrite json_emit_dict. cbn [length]. rewrite length_app. cbn [length].
    pose proof (length_join_chars (chars ", ") (map (json_member ft) d)) as Hj.
    rewrite map_map in Hj.
    assert (list_sum (map (fun kv => json_size (snd kv)) d)
            <= list_sum (map (fun x => length (json_member ft x)) d))%nat; [| lia].
    apply list_sum_le. intros kv Hkv. unfold json_member. rewrite !length_app.
    assert (json_size (snd kv) <= length (json_emit ft (snd kv)))%nat; [| lia].
    apply IH; [| now apply Hv].
    pose proof (list_sum_In (fun kv => json_size (snd kv)) kv d Hkv). lia.
Qed.

(** Induction on the number of nodes. *)
Lemma pyval_size_ind (Q : pyval -> Prop) :
  (forall v, (forall x, (json_size x < json_size v)%nat -> Q x) -> Q v) ->
  forall v, Q v.
Proof.
  intros Hstep v. remember (json_size v) as n eqn:En.
  revert v En. induction n as [n IH] using lt_wf_ind. intros v ->.
  apply Hstep. intros x Hx. now apply (IH (json_size x)).
Qed.

Lemma json_size_elem (x : pyval) (l : list pyval) :
  In x l -> (json_size x < S (list_sum (map json_size l)))%nat.
Proof. intros H. pose proof (list_sum_In json_size x l H). lia. Qed.

Lemma json_size_item (kv : string * pyval) (d : pydict) :
  In kv d -> (json_size (snd kv) < S (list_sum (map (fun kv => json_size (snd kv)) d)))%nat.
Proof.
  intros H. pose proof (list_sum_In (fun kv => json_size (snd kv)) kv d H). lia.
Qed.

(** *** The text [json.dumps] writes is printable ASCII *)

Lemma printable_digit (c : ascii) : is_digit c = true -> printable c = true.
Proof. destruct c as [[] [] [] [] [] [] [] []]; intros H; try discriminate H; reflexivity. Qed.

Lemma printable_digits (l : list ascii) :
  forallb is_digit l = true -> forallb printable l = true.
Proof.
  induction l as [|c l IH]; [reflexivity |]. cbn [forallb].
  intros H. apply andb_prop in H as [Hc Hl]. now rewrite printable_digit, IH.
Qed.

Lemma span_digits_digits (s : list ascii) : forallb is_digit (fst (span_digits s)) = true.
Proof.
  induction s as [|c s IH]; [reflexivity |]. cbn [span_digits].
  destruct (is_digit c) eqn:Hc; [| reflexivity].
  destruct (span_digits s) as [ds r]. cbn [fst forallb] in *. now rewrite Hc, IH.
Qed.

Lemma lex_int_printable (s ds r : list ascii) :
  lex_int s = Some (ds, r) -> forallb printable ds = true.
Proof.
  destruct s as [|c s]; [discriminate |]. cbn [lex_int].
  destruct (code c =? 48)%N eqn:E0.
  - intros [= <- <-]. cbn [forallb]. unfold printable.
    apply N.eqb_eq in E0. rewrite E0. reflexivity.
  - destruct (is_digit c); [| discriminate].
    pose proof (span_digits_digits (c :: s)) as Hd.
    destruct (span_digits (c :: s)) as [ds' r']. intros [= <- <-].
    now apply printable_digits.
Qed.

Lemma lex_frac_printable (s : list ascii) : forallb printable (fst (lex_frac s)) = true.
Proof.
  destruct s as [|c s]; [reflexivity |]. cbn [lex_frac].
  destruct (code c =? 46)%N eqn:E; [| reflexivity].
  pose proof (span_digits_digits s) as Hd.
  destruct (span_digits s) as [[|d ds] r]; [reflexivity |].
  cbn [fst] in *. change (c :: d :: ds) with ([c] ++ d :: ds).
  rewrite forallb_app, (printable_digits _ Hd). cbn [forallb].
  unfold printable. apply N.eqb_eq in E. rewrite E. reflexivity.
Qed.

Lemma lex_exp_printable (s : list ascii) : forallb printable (fst (lex_exp s)) = true.
Proof.
  destruct s as [|c s]; [reflexivity |]. cbn [lex_exp].
  destruct ((code c =? 101) || (code c =? 69))%N eqn:E; [| reflexivity].
  assert (Hc : printable c = true).
  { unfold printable. apply orb_prop in E as [E|E]; apply N.eqb_eq in E; now rewrite E. }
  destruct s as [|d t]; [reflexivity |].
  destruct ((code d =? 43) || (code d =? 45))%N eqn:Ed.
  - assert (Hd : printable d = true).
    { unfold printable. apply orb_prop in Ed as [Ed|Ed]; apply N.eqb_eq in Ed; now rewrite Ed. }
    pose proof (span_digits_digits t) as Hs.
    destruct (span_digits t) as [[|e ds] r]; [reflexivity |].
    cbn [fst] in *. change (c :: [d] ++ e :: ds) with ([c; d] ++ e :: ds).
    rewrite forallb_app, (printable_digits _ Hs). cbn [forallb].
    now rewrite Hc, Hd.
  - pose proof (span_digits_digits (d :: t)) as Hs.
    destruct (span_digits (d :: t)) as [[|e ds] r]; [reflexivity |].
    cbn [fst] in *. change (c :: [] ++ e :: ds) with ([c] ++ e :: ds).
    rewrite forallb_app, (printable_digits _ Hs). cbn [forallb].
    now rewrite Hc.
Qed.

Lemma float_literal_printable (cs : list ascii) :
  float_literal cs = true -> forallb printable cs = true.
Proof.
  unfold float_literal.
  set (body := match cs with
               | c :: t => if (code c =? 45)%N then t else cs
               | [] => []
               end).
  assert (Hcs : forallb printable body = true -> forallb printable cs = true).
  { subst body. destruct cs as [|c t]; [easy |].
    destruct (code c =? 45)%N eqn:E; [| easy].
    intros H. cbn [forallb]. rewrite H. unfold printable.
    apply N.eqb_eq in E. now rewrite E. }
  destruct (lex_int body) as [[ds r1]|] eqn:E1; [| discriminate].
  pose proof (lex_int_split _ _ _ E1) as Hb.
  pose proof (lex_int_printable _ _ _ E1) as Hds.
  pose proof (lex_frac_split r1) as H1. pose proof (lex_frac_printable r1) as Hfr.
  destruct (lex_frac r1) as [fr r2]. cbn [fst snd] in *.
  pose proof (lex_exp_split r2) as H2. pose proof (lex_exp_printable r2) as Hex.
  destruct (lex_exp r2) as [ex r3]. cbn [fst snd] in *.
  destruct r3 as [|c3 r3]; [| discriminate]. intros _. apply Hcs.
  rewrite Hb, <- H1, <- H2, app_nil_r, !forallb_app. now rewrite Hds, Hfr, Hex.
Qed.

Lemma dec_of_Z_printable (z : Z) : forallb printable (dec_of_Z z) = true.
Proof.
  unfold dec_of_Z. pose proof (printable_digits _ (dec_of_N_digits (Z.abs_N z))) as H.
  destruct (z <? 0); [cbn [forallb]; now rewrite H | exact H].
Qed.

Lemma json_escape_printable (c : ascii) : forallb printable (json_escape_char c) = true.
Proof. destruct c as [[] [] [] [] [] [] [] []]; reflexivity. Qed.

Lemma json_quote_printable (s : string) : forallb printable (json_quote s) = true.
Proof.
  unfold json_quote. cbn [forallb]. rewrite forallb_app. cbn [forallb].
  replace (printable (chr 34)) with true by reflexivity. cbn [andb].
  rewrite andb_true_r.
  induction (chars s) as [|c l IH]; [reflexivity |].
  cbn [map concat]. now rewrite forallb_app, json_escape_printable, IH.
Qed.

Lemma json_float_printable (ft : float_text) (f : spec_float) :
  float_round_trips ft f = true -> forallb printable (chars (json_float ft f)) = true.
Proof.
  destruct f as [s | s | | s m e]; cbn [float_round_trips json_float]; intros H.
  - apply andb_prop in H as [H _]. now apply float_literal_printable.
  - now destruct s.
  - discriminate.
  - apply andb_prop in H as [H _]. now apply float_literal_printable.
Qed.

Lemma join_chars_printable (sep : list ascii) (parts : list (list ascii)) :
  forallb printable sep = true ->
  (forall p, In p parts -> forallb printable p = true) ->
  forallb printable (join_chars sep parts) = true.
Proof.
  intros Hsep. induction parts as [|p ps IH]; intros Hall; [reflexivity |].
  destruct ps as [|q ps].
  - cbn [join_chars]. apply Hall. now left.
  - rewrite join_chars_cons, !forallb_app, Hsep.
    rewrite (Hall p) by now left. rewrite IH; [reflexivity |].
    intros x Hx. apply Hall. now right.
Qed.

Lemma json_emit_printable (ft : float_text) (v : pyval) :
  json_exact ft v = true -> forallb printable (json_emit ft v) = true.
Proof.
  induction v as [v IH] using pyval_size_ind.
  destruct v as [| b | z | f | s | l | l | d]; cbn [json_exact json_emit json_size] in *;
    intros Hv.
  - reflexivity.
  - now destruct b.
  - apply dec_of_Z_printable.
  - now apply json_float_printable.
  - apply json_quote_printable.
  - rewrite !forallb_app. cbn [forallb chars]. rewrite forallb_forall in Hv.
    rewrite join_chars_printable; [reflexivity | reflexivity |].
    intros p Hp. apply in_map_iff in Hp as (x & <- & Hx).
    apply IH; [now apply json_size_elem | now apply Hv].
  - rewrite !forallb_app. cbn [forallb chars]. rewrite forallb_forall in Hv.
    rewrite join_chars_printable; [reflexivity | reflexivity |].
    intros p Hp. apply in_map_iff in Hp as (x & <- & Hx).
    apply IH; [now apply json_size_elem | now apply Hv].
  - apply andb_prop in Hv as [Hv _]. rewrite forallb_forall in Hv.
    rewrite !forallb_app. cbn [forallb chars].
    rewrite join_chars_printable; [reflexivity | reflexivity |].
    intros p Hp. apply in_map_iff in Hp as ([k x] & <- & Hx). cbn [fst snd].
    rewrite !forallb_app, json_quote_printable. cbn [forallb chars].
    rewrite (IH x); [reflexivity | now apply (json_size_item (k, x)) | now apply (Hv (k, x))].
Qed.

(** *** Printable ASCII is UTF-8 text that decodes to itself *)

Lemma printable_byte (c : ascii) :
  printable c = true ->
  byte_in 0 127 c = true
  /\ byte_is 0 c = false /\ byte_is 239 c = false
  /\ byte_is 254 c = false /\ byte_is 255 c = false.
Proof. destruct c as [[] [] [] [] [] [] [] []]; intros H; try discriminate H; now repeat split. Qed.

Lemma detect_encoding_printable (t : list ascii) :
  forallb printable t = true -> detect_encoding t = utf_8.
Proof.
  destruct t as [|b0 [|b1 rest]]; try reflexivity. cbn [forallb].
  intros H. apply andb_prop in H as [H0 H]. apply andb_prop in H as [H1 _].
  destruct (printable_byte _ H0) as (_ & Z0 & E0 & F0 & G0).
  destruct (printable_byte _ H1) as (_ & Z1 & _ & _ & _).
  unfold detect_encoding. rewrite Z0, Z1, E0, F0, G0. cbn [andb orb].
  now destruct rest as [|b2 [|b3 rest]].
Qed.

Lemma decode_utf8_printable (t : list ascii) :
  forallb printable t = true -> decode_utf8 t = Ret t.
Proof.
  intros H. unfold decode_utf8.
  assert (Hv : utf8_valid t = true /\ utf8_narrow t = Some t).
  { induction t as [|c t IH]; [now split |]. cbn [forallb] in H.
    apply andb_prop in H as [Hc Ht]. destruct (IH Ht) as [V Nr].
    destruct (printable_byte _ Hc) as (A & _).
    cbn [utf8_valid utf8_narrow]. rewrite A, V, Nr. now split. }
  destruct Hv as [-> ->]. reflexivity.
Qed.

Lemma decode_body_printable (t : list ascii) :
  forallb printable t = true -> decode_body t = Ret t.
Proof.
  intros H. unfold decode_body. rewrite detect_encoding_printable by exact H.
  now apply decode_utf8_printable.
Qed.

(** Decoding the text of a value gives the value back, with its tuples as
    lists. *)
Theorem json_loads_dumps (ft : float_text) (v : pyval) :
  json_exact ft v = true -> json_loads ft (json_dumps ft v) = Some (as_json v).
Proof.
  intros Hv. unfold json_loads, json_decode, json_dumps.
  rewrite list_ascii_of_string_of_list_ascii.
  rewrite decode_body_printable by now apply json_emit_printable.
  unfold parse_text.
  destruct (json_emit_head ft v Hv) as (c & t & E & Hc).
  apply opens_value_spec in Hc as (Hws & _).
  replace (skip_ws (json_emit ft v)) with (json_emit ft v ++ [])
    by (rewrite app_nil_r, E; symmetry; now apply skip_ws_head).
  rewrite parse_value_emit; [reflexivity | assumption | | reflexivity].
  pose proof (json_size_le_length ft _ v (le_n _) Hv). lia.
Qed.

Lemma as_json_tuple_free (v : pyval) : tuple_free v = true -> as_json v = v.
Proof.
  induction v as [v IH] using pyval_size_ind.
  destruct v as [| b | z | f | s | l | l | d]; cbn [tuple_free as_json json_size] in *;
    intros Hv; try reflexivity; try discriminate.
  - f_equal. rewrite forallb_forall in Hv. rewrite <- (map_id l) at 2.
    apply map_ext_in. intros x Hx. apply IH; [now apply json_size_elem | now apply Hv].
  - f_equal. rewrite forallb_forall in Hv.
    rewrite <- (map_id d) at 2. apply map_ext_in. intros [k x] Hx. cbn [fst snd].
    f_equal. apply IH; [apply (json_size_item _ _ Hx) | apply (Hv _ Hx)].
Qed.

(** ** Time stamps *)

Lemma strftime_ISO_Z (t : struct_time) :
  strftime ISO_Z t =
    string_of_list_ascii
      (dec_of_N (tm_year t) ++ chr 45 :: pad2 (tm_mon t) ++ chr 45 :: pad2 (tm_mday t)
         ++ chr 84 :: pad2 (tm_hour t) ++ chr 58 :: pad2 (tm_min t)
         ++ chr 58 :: pad2 (tm_sec t) ++ [chr 90]).
Proof. reflexivity. Qed.

Lemma div10_bounds (n lo hi : N) :
  (10 * lo <= n)%N -> (n < 10 * hi)%N -> (lo <= n / 10 < hi)%N.
Proof.
  intros Hlo Hhi. split.
  - apply N.div_le_lower_bound; [lia | assumption].
  - apply N.Div0.div_lt_upper_bound. assumption.
Qed.

Lemma dec_of_N_length_2 (n : N) : (10 <= n < 100)%N -> length (dec_of_N n) = 2%nat.
Proof.
  intros [H1 H2]. rewrite dec_of_N_step, length_app by assumption.
  rewrite dec_of_N_small; [reflexivity |].
  apply (div10_bounds n 1 10); lia.
Qed.

Lemma dec_of_N_length_3 (n : N) : (100 <= n < 1000)%N -> length (dec_of_N n) = 3%nat.
Proof.
  intros [H1 H2]. rewrite dec_of_N_step, length_app by lia.
  rewrite dec_of_N_length_2; [reflexivity |].
  apply (div10_bounds n 10 100); lia.
Qed.

Lemma dec_of_N_length_4 (n : N) : (1000 <= n < 10000)%N -> length (dec_of_N n) = 4%nat.
Proof.
  intros [H1 H2]. rewrite dec_of_N_step, length_app by lia.
  rewrite dec_of_N_length_3; [reflexivity |].
  apply (div10_bounds n 100 1000); lia.
Qed.

(** A year of four digits is written with four digits that read back. *)
Lemma year_digits (y : N) :
  (1000 <= y <= 9999)%N ->
  exists a b c d, dec_of_N y = [a; b; c; d]
                  /\ forallb is_digit [a; b; c; d] = true
                  /\ read_digits 0%N [a; b; c; d] = y.
Proof.
  intros Hy. pose proof (dec_of_N_length_4 y ltac:(lia)) as Hlen.
  pose proof (dec_of_N_digits y) as Hd. pose proof (read_dec_of_N y) as Hr.
  destruct (dec_of_N y) as [|a [|b [|c [|d [|e l]]]]]; try discriminate Hlen.
  now exists a, b, c, d.
Qed.

(** A field below one hundred is written with two digits that read back. *)
Lemma pad2_digits (n : N) :
  (n <= 99)%N ->
  exists a b, pad2 n = [a; b]
              /\ forallb is_digit [a; b] = true
              /\ read_digits 0%N [a; b] = n.
Proof.
  intros Hn. unfold pad2. destruct (N.ltb_spec n 10) as [Hlt|Hge].
  - rewrite dec_of_N_small by assumption. exists (chr 48), (digit_char n).
    split; [reflexivity |]. cbn [forallb read_digits].
    rewrite is_digit_digit_char, code_digit_char by assumption.
    split; [reflexivity |]. change (code (chr 48)) with 48%N. lia.
  - pose proof (dec_of_N_length_2 n ltac:(lia)) as Hlen.
    pose proof (dec_of_N_digits n) as Hd. pose proof (read_dec_of_N n) as Hr.
    destruct (dec_of_N n) as [|a [|b [|c l]]]; try discriminate Hlen.
    now exists a, b.
Qed.

(** The time stamp both bridges write parses as the UTC time it was made
    from. *)
Lemma parse_iso8601_strftime (t : struct_time) :
  valid_gmtime t -> parse_iso8601_z (strftime ISO_Z t) = Some t.
Proof.
  intros (Hy & Hmo & Hd & Hh & Hmi & Hs). rewrite strftime_ISO_Z.
  unfold parse_iso8601_z. rewrite list_ascii_of_string_of_list_ascii.
  destruct (year_digits _ Hy) as (y1 & y2 & y3 & y4 & -> & Dy & Ry).
  destruct (pad2_digits (tm_mon t) ltac:(lia)) as (m1 & m2 & -> & Dm & Rm).
  destruct (pad2_digits (tm_mday t) ltac:(lia)) as (d1 & d2 & -> & Dd & Rd).
  destruct (pad2_digits (tm_hour t) ltac:(lia)) as (h1 & h2 & -> & Dh & Rh).
  destruct (pad2_digits (tm_min t) ltac:(lia)) as (n1 & n2 & -> & Dn & Rn).
  destruct (pad2_digits (tm_sec t) ltac:(lia)) as (s1 & s2 & -> & Ds & Rs).
  cbn [app].
  assert (Hall : forallb is_digit [y1; y2; y3; y4; m1; m2; d1; d2; h1; h2; n1; n2; s1; s2] = true).
  { change [y1; y2; y3; y4; m1; m2; d1; d2; h1; h2; n1; n2; s1; s2]
      with ([y1; y2; y3; y4] ++ [m1; m2] ++ [d1; d2] ++ [h1; h2] ++ [n1; n2] ++ [s1; s2]).
    rewrite !forallb_app, Dy, Dm, Dd, Dh, Dn, Ds. reflexivity. }
  rewrite Hall, Ry, Rm, Rd, Rh, Rn, Rs.
  change (code (chr 45) =? 45)%N with true. change (code (chr 84) =? 84)%N with true.
  change (code (chr 58) =? 58)%N with true. change (code (chr 90) =? 90)%N with true.
  cbn [andb tm_mon tm_mday tm_hour tm_min tm_sec].
  destruct t as [ty tmo td th tmi ts]. cbn [tm_year tm_mon tm_mday tm_hour tm_min tm_sec] in *.
  replace ((1 <=? tmo) && (tmo <=? 12) && (1 <=? td) && (td <=? 31) && (th <=? 23)
           && (tmi <=? 59) && (ts <=? 59))%N with true; [reflexivity |].
  symmetry. rewrite !andb_true_iff, !N.leb_le. lia.
Qed.

(** ** pmoves_nats_bridge: the connection handle *)

Arguments except_any : simpl never.

Section NatsFacts.
Variable P : platform.

(** The adapter never leaves the model: the broker answers by succeeding or
    by raising. *)
Lemma defined_await (e : event) (answer : history -> option exc_class) :
  defined (await e answer).
Proof.
  intros s. unfold await, bind, nats_history, nats_emit, ret, raise.
  now destruct (answer (nats_trace s)).
Qed.

Lemma defined_import_nats : defined (import_nats P).
Proof. intros s. unfold import_nats, ret, raise. now destruct (nats_installed P). Qed.

Lemma defined_nats_emit (e : event) : defined (nats_emit e).
Proof. intros s. discriminate. Qed.

Lemma defined_set_nc (c : option SyncNats) : defined (set_nc c).
Proof. intros s. discriminate. Qed.

Lemma defined_nats_history : defined nats_history.
Proof. intros s. discriminate. Qed.

Hint Resolve defined_await defined_import_nats defined_nats_emit defined_set_nc
  defined_nats_history : defined.

Lemma defined_SyncNats_publish (c : SyncNats) (subject body : string) :
  defined (_SyncNats_publish P c subject body).
Proof. unfold _SyncNats_publish. auto with defined. Qed.

Lemma defined_SyncNats_close (c : SyncNats) : defined (_SyncNats_close P c).
Proof. unfold _SyncNats_close. auto with defined. Qed.

Lemma defined_ensure_connected : defined (_ensure_connected P).
Proof.
  unfold _ensure_connected, _SyncNats__init__.
  apply defined_bind; [auto with defined |]. intros s.
  destruct (_nc s); auto 10 with defined.
Qed.

Lemma defined_safe_publish_body (subject : string) (payload : pydict) :
  defined (let* nc := _ensure_connected P in
           match nc with
           | None => ret tt
           | Some c =>
               let* body := _envelope P subject payload in
               _SyncNats_publish P c subject body
           end).
Proof.
  apply defined_bind; [apply defined_ensure_connected |].
  intros [c|]; [| auto with defined].
  unfold _envelope. apply defined_bind; [auto with defined |].
  intros body. apply defined_SyncNats_publish.
Qed.

Lemma ensure_connected_memo (s : nats_state) (c : SyncNats) :
  _nc s = Some c -> _ensure_connected P s = (Ret (Some c), s).
Proof.
  intros H. unfold _ensure_connected, bind, get_state. now rewrite H.
Qed.

(** The first call on a disconnected adapter, case by case. *)
Lemma ensure_connected_fresh (s : nats_state) :
  _nc s = None ->
  _ensure_connected P s =
    if nats_installed P then
      let h := nats_trace s ++ [EvNatsConnect (NATS_URL P)] in
      match nats_connect P (NATS_URL P) (nats_trace s) with
      | None =>
          let c := {| sn_url := NATS_URL P; sn_id := length (nats_trace s) |} in
          (Ret (Some c), {| _nc := Some c; nats_trace := h |})
      | Some _ => (Ret None, {| _nc := None; nats_trace := h |})
      end
    else (Ret None, s).
Proof.
  destruct s as [nc tr]; simpl; intros ->.
  unfold _ensure_connected, _SyncNats__init__, import_nats, await, try_except,
    bind, get_state, nats_history, nats_emit, set_nc, ret, raise; simpl.
  destruct (nats_installed P); simpl.
  - destruct (nats_connect P (NATS_URL P) tr) as [e|]; simpl.
    + now rewrite except_Exception_all.
    + reflexivity.
  - reflexivity.
Qed.

Lemma SyncNats_publish_run (c : SyncNats) (subject body : string) (s : nats_state) :
  snd (_SyncNats_publish P c subject body s) =
    {| _nc := _nc s;
       nats_trace := nats_trace s ++ publish_events P c (nats_trace s) subject body |}.
Proof.
  destruct s as [nc tr].
  unfold _SyncNats_publish, publish_events, await, bind, nats_history, nats_emit,
    ret, raise; simpl.
  destruct (nats_publish P (sn_id c) subject body tr); simpl; [reflexivity |].
  rewrite <- app_assoc; simpl.
  now destruct (nats_flush P (sn_id c) (tr ++ [EvNatsPublish (sn_id c) subject body])).
Qed.

(** A publish on a connected adapter returns, keeps the handle, and talks to
    the broker only through that handle. *)
Lemma safe_publish_connected (c : SyncNats) (subject : string) (payload : pydict)
    (s : nats_state) :
  _nc s = Some c ->
  _safe_publish P subject payload s =
    (Ret tt,
     {| _nc := Some c;
        nats_trace := nats_trace s
          ++ publish_events P c (nats_trace s) subject
               (envelope_bytes P (nats_trace s) subject payload) |}).
Proof.
  intros Hc. unfold _safe_publish.
  rewrite try_except_Exception_run by apply defined_safe_publish_body.
  assert (Hbody : forall B (k : option SyncNats -> M nats_state B),
             bind (_ensure_connected P) k s = k (Some c) s).
  { intros B k. unfold bind. now rewrite (ensure_connected_memo s c Hc). }
  rewrite Hbody.
  assert (Henv : forall B (k : string -> M nats_state B),
             bind (_envelope P subject payload) k s
             = k (envelope_bytes P (nats_trace s) subject payload) s).
  { intros B k. reflexivity. }
  now rewrite Henv, SyncNats_publish_run, Hc, unit_outcome.
Qed.

(** A publish on a disconnected adapter returns; it leaves the handle set
    exactly when the connection attempt succeeded. *)
Lemma safe_publish_disconnected (subject : string) (payload : pydict) (s : nats_state) :
  _nc s = None ->
  fst (_safe_publish P subject payload s) = Ret tt
  /\ (_nc (snd (_safe_publish P subject payload s)) = None <->
      (nats_installed P = false
       \/ nats_connect P (NATS_URL P) (nats_trace s) <> None)).
Proof.
  intros Hn. unfold _safe_publish.
  rewrite try_except_Exception_run by apply defined_safe_publish_body.
  assert (Hbody : forall B (k : option SyncNats -> M nats_state B),
             bind (_ensure_connected P) k s
             = k (match fst (_ensure_connected P s) with Ret x => x | _ => None end)
                 (snd (_ensure_connected P s))).
  { intros B k. unfold bind. rewrite (ensure_connected_fresh s Hn).
    destruct (nats_installed P); [|reflexivity].
    now destruct (nats_connect P (NATS_URL P) (nats_trace s)). }
  rewrite Hbody, (ensure_connected_fresh s Hn).
  destruct (nats_installed P).
  - destruct (nats_connect P (NATS_URL P) (nats_trace s)) as [e|]; cbn [fst snd].
    + split; [reflexivity |]. split; [right; discriminate | reflexivity].
    + unfold bind at 1 2. unfold _envelope at 1 2, nats_history, bind, ret.
      rewrite SyncNats_publish_run. cbn [fst snd _nc].
      rewrite unit_outcome. split; [reflexivity |].
      split; [discriminate | intros [?|?]; congruence].
  - cbn [fst snd ret]. unfold ret; cbn [fst snd]. rewrite Hn.
    split; [reflexivity |]. split; [now left | reflexivity].
Qed.

Lemma close_run (s : nats_state) :
  fst (close P s) = Ret tt /\ _nc (snd (close P s)) = None.
Proof.
  destruct s as [[c|] tr]; unfold close, bind, get_state; cbn [_nc].
  - rewrite try_except_Exception_run by apply defined_SyncNats_close. now cbn.
  - now cbn.
Qed.

Lemma close_disconnected (s : nats_state) :
  _nc s = None -> close P s = (Ret tt, s).
Proof.
  intros H. unfold close, bind, get_state. now rewrite H.
Qed.
End NatsFacts.

(** C2 (as amended).  The global handle [_nc] of the transport adapter:
    a failure while connecting leaves it unset; a successful connect stores
    it and later calls return the stored handle without touching the broker;
    a publish on a connected handle always returns and keeps the handle,
    whether the send or the flush failed or not, and reaches the broker only
    through that handle (no new connection is attempted); a publish on a
    disconnected adapter returns and leaves the handle unset exactly when the
    connection attempt failed; [close] always returns and always clears the
    handle, and on a never-connected adapter it does nothing at all. *)
Theorem adapter_handle_state_machine (P : platform) (s : nats_state)
    (subject : string) (payload : pydict) :
  (_nc s = None ->
     nats_installed P = false \/ nats_connect P (NATS_URL P) (nats_trace s) <> None ->
     fst (_ensure_connected P s) = Ret None
     /\ _nc (snd (_ensure_connected P s)) = None)
  /\ (_nc s = None ->
      nats_installed P = true ->
      nats_connect P (NATS_URL P) (nats_trace s) = None ->
      exists c,
        _ensure_connected P s =
          (Ret (Some c),
           {| _nc := Some c;
              nats_trace := nats_trace s ++ [EvNatsConnect (NATS_URL P)] |})
        /\ _ensure_connected P (snd (_ensure_connected P s)) =
             (Ret (Some c), snd (_ensure_connected P s)))
  /\ (forall c, _nc s = Some c ->
      _ensure_connected P s = (Ret (Some c), s)
      /\ _safe_publish P subject payload s =
           (Ret tt,
            {| _nc := Some c;
               nats_trace := nats_trace s
                 ++ publish_events P c (nats_trace s) subject
                      (envelope_bytes P (nats_trace s) subject payload) |}))
  /\ (_nc s = None ->
      fst (_safe_publish P subject payload s) = Ret tt
      /\ (_nc (snd (_safe_publish P subject payload s)) = None <->
          (nats_installed P = false
           \/ nats_connect P (NATS_URL P) (nats_trace s) <> None)))
  /\ fst (close P s) = Ret tt
  /\ _nc (snd (close P s)) = None
  /\ (_nc s = None -> close P s = (Ret tt, s)).
Proof.
  repeat apply conj.
  - intros Hn Hfail. rewrite (ensure_connected_fresh P s Hn).
    destruct Hfail as [-> | Hc].
    + now split.
    + destruct (nats_installed P); [| now split].
      now destruct (nats_connect P (NATS_URL P) (nats_trace s)).
  - intros Hn Hi Hc. rewrite (ensure_connected_fresh P s Hn), Hi, Hc. cbn zeta.
    eexists. split; [reflexivity |]. now apply ensure_connected_memo.
  - intros c Hc. split.
    + now apply ensure_connected_memo.
    + now apply safe_publish_connected.
  - now apply safe_publish_disconnected.
  - apply close_run.
  - apply close_run.
  - apply close_disconnected.
Qed.

(** C2, as first stated, fails: with a broker that accepts the connection
    and refuses every send, the first publish connects and fails, the handle
    stays in place, and the second publish does not connect again. *)
Lemma publish_failure_keeps_handle :
  let P := sample_platform "" true false broker_up publish_fails no_http no_files in
  let s1 := snd (_safe_publish P "llama.benchmark.cell.v1" [] nats_initial) in
  let s2 := snd (_safe_publish P "llama.benchmark.cell.v1" [] s1) in
  _nc s1 = Some {| sn_url := "nats://localhost:4222"; sn_id := 0 |}
  /\ _nc s1 <> None
  /\ (exists body, nats_trace s1 =
        [EvNatsConnect "nats://localhost:4222";
         EvNatsPublish 0 "llama.benchmark.cell.v1" body])
  /\ _nc s2 = _nc s1
  /\ length (List.filter is_connect (nats_trace s2)) = 1%nat.
Proof.
  cbv zeta. repeat apply conj.
  - vm_compute. reflexivity.
  - vm_compute. discriminate.
  - eexists. vm_compute. reflexivity.
  - vm_compute. reflexivity.
  - vm_compute. reflexivity.
Qed.

(** ** pmoves_nats_bridge: payload of [publish_cell] *)

(** C10.  The payload of [publish_cell] is the row laid over the single
    field [sweep_type]: it holds the row's own [sweep_type] when the row has
    one and the argument otherwise, and every other key holds what the row
    gives it (nothing when the row lacks it). *)
Theorem publish_cell_payload_merge (P : platform) (sweep_type : string)
    (row : pydict) (Hrow : NoDup (map fst row)) :
  publish_cell P sweep_type row =
    _safe_publish P "llama.benchmark.cell.v1" (cell_payload sweep_type row)
  /\ dict_get "sweep_type" (cell_payload sweep_type row) =
       Some (match dict_get "sweep_type" row with
             | Some v => v
             | None => VStr sweep_type
             end)
  /\ forall k, k <> "sweep_type" ->
       dict_get k (cell_payload sweep_type row) = dict_get k row.
Proof.
  split; [reflexivity |]. unfold cell_payload. split.
  - rewrite dict_get_update by assumption. now destruct (dict_get _ row).
  - intros k Hk. rewrite dict_get_update by assumption.
    destruct (dict_get k row); [reflexivity |]. simpl.
    destruct (String.eqb_spec k "sweep_type"); [congruence | reflexivity].
Qed.

(** A row that carries its own [sweep_type]: the row's value wins, and the
    other field is kept. *)
Lemma publish_cell_payload_merge_witness :
  NoDup (map fst [("batch", VInt 8); ("sweep_type", VStr "row-own")])
  /\ dict_get "sweep_type"
       (cell_payload "arg" [("batch", VInt 8); ("sweep_type", VStr "row-own")])
     = Some (VStr "row-own")
  /\ dict_get "batch"
       (cell_payload "arg" [("batch", VInt 8); ("sweep_type", VStr "row-own")])
     = Some (VInt 8).
Proof.
  assert (Hnd : NoDup (map fst [("batch", VInt 8); ("sweep_type", VStr "row-own")])).
  { simpl. repeat constructor; rewrite ?elem_of_cons, ?elem_of_nil; intuition discriminate. }
  split; [exact Hnd |].
  pose proof (publish_cell_payload_merge
                (sample_platform "" false false broker_down publish_ok no_http no_files)
                "arg" _ Hnd) as (_ & Hst & Hother).
  split; [exact Hst |]. apply (Hother "batch"). discriminate.
Defined.

(** ** pmoves_metrics *)

(** C9.  [start_server] does nothing when a server exists already: it
    returns at once, whatever port and mode are asked for, and leaves the
    existing server, its port and the history as they were. *)
Theorem start_server_idempotent (P : platform) (port : Z) (background : bool)
    (s : metrics_state) (srv : HTTPServer) (Hbound : _server s = Some srv) :
  start_server P port background s = (Ret Returns, s).
Proof.
  unfold start_server, bind, get_state. now rewrite Hbound.
Qed.

(** A second call, for another port and in blocking mode, after a first
    call bound port 8201. *)
Lemma start_server_idempotent_witness :
  let P := sample_platform "" false true broker_down publish_ok no_http no_files in
  let s1 := snd (start_server P 8201 true metrics_initial) in
  _server s1 = Some {| server_host := "0.0.0.0"; server_port := 8201 |}
  /\ start_server P 9000 false s1 = (Ret Returns, s1).
Proof.
  cbv zeta. split; [reflexivity |].
  apply (start_server_idempotent _ 9000 false _
           {| server_host := "0.0.0.0"; server_port := 8201 |}).
  reflexivity.
Defined.

(** C6.  Routes of the exporter.  [/healthz] answers 200 with content type
    [application/json] and a body of eleven bytes, the text [{"ok":true}]
    (written out below character by character), with or without the
    metrics library; [/metrics] answers 200 with the registry snapshot when
    the library was imported and 404 when it was not; every other path
    answers 404.  The status on the connection is 200 for the two routes
    that are served and 404 for everything else. *)
Theorem do_GET_routes (P : platform) (path : string) (r : registry) :
  do_GET P "/healthz" r =
    [send_response 200;
     send_header "Content-Type" "application/json";
     send_header "Content-Length" "11";
     end_headers;
     wfile_write healthz_body]
  /\ healthz_body =
       String "{" (String (chr 34) (String "o" (String "k" (String (chr 34) ":true}"))))
  /\ String.length healthz_body = 11%nat
  /\ (prom_installed P = true ->
      do_GET P "/metrics" r =
        [send_response 200;
         send_header "Content-Type" (CONTENT_TYPE_LATEST P);
         send_header "Content-Length" (content_length (generate_latest P r));
         end_headers;
         wfile_write (generate_latest P r)])
  /\ (prom_installed P = false -> do_GET P "/metrics" r = [send_error 404])
  /\ (path <> "/healthz" -> path <> "/metrics" -> do_GET P path r = [send_error 404])
  /\ response_status P (do_GET P path r) =
       Some (if String.eqb path "/healthz" then 200
             else if String.eqb path "/metrics" && prom_installed P then 200
             else 404)
  /\ response_body P (do_GET P "/healthz" r) =
       Some (String "{" (String (chr 34) (String "o" (String "k" (String (chr 34) ":true}"))))).
Proof.
  repeat apply conj.
  - reflexivity.
  - reflexivity.
  - reflexivity.
  - intros H. unfold do_GET, _HAS_PROM. now rewrite H.
  - intros H. unfold do_GET, _HAS_PROM. now rewrite H.
  - intros H1 H2. unfold do_GET.
    destruct (String.eqb_spec path "/healthz"); [congruence |].
    destruct (String.eqb_spec path "/metrics"); [congruence | reflexivity].
  - unfold response_status, do_GET, _HAS_PROM.
    destruct (String.eqb path "/healthz"); [reflexivity |].
    now destruct (String.eqb path "/metrics" && prom_installed P).
  - reflexivity.
Qed.

(** The liveness answer read off the connection. *)
Lemma do_GET_status (P : platform) (r : registry) :
  response_status P (do_GET P "/healthz" r) = Some 200
  /\ response_header P "Content-Type" (do_GET P "/healthz" r) = Some "application/json"
  /\ response_body P (do_GET P "/healthz" r) = Some healthz_body.
Proof. repeat apply conj; reflexivity. Qed.

Lemma counter_value_labels (k k' : string) (m : gmap string Z) :
  counter_value k' (counter_labels k m) = counter_value k' m.
Proof.
  unfold counter_value, counter_labels.
  destruct (m !! k) eqn:Hk; [reflexivity |].
  destruct (decide (k = k')) as [<-|Hne].
  - now rewrite lookup_insert_eq, Hk.
  - now rewrite lookup_insert_ne.
Qed.

Lemma counter_value_add (k k' : string) (a : Z) (m : gmap string Z) :
  counter_value k' (counter_add k a m) =
    if decide (k = k') then counter_value k m + a else counter_value k' m.
Proof.
  unfold counter_add, counter_value at 1.
  destruct (decide (k = k')) as [<-|Hne].
  - now rewrite lookup_insert_eq.
  - now rewrite lookup_insert_ne.
Qed.

(** The run of [update_cell] when the library is there. *)
Lemma update_cell_run (P : platform) (model sweep_type config : string)
    (v : spec_float) (errors : Z) (s : metrics_state) :
  prom_installed P = true ->
  update_cell P model sweep_type config v errors s =
    let r1 := throughput_set model sweep_type config v (reg s) in
    let st r := {| reg := r; _server := _server s; metrics_trace := metrics_trace s |} in
    if errors =? 0 then (Ret tt, st r1)
    else if errors <? 0
         then (Raise ValueError, st (with_errors_total (counter_labels sweep_type) r1))
         else (Ret tt,
               st (with_errors_total (counter_add sweep_type errors)
                     (with_errors_total (counter_labels sweep_type) r1))).
Proof.
  intros H. unfold update_cell, _HAS_PROM. rewrite H. cbn zeta.
  destruct s as [r srv tr].
  unfold bind, with_reg, counter_inc, bind, with_reg, ret, raise; simpl.
  destruct (errors =? 0); simpl; [reflexivity |].
  now destruct (errors <? 0).
Qed.

Lemma update_cell_throughput (P : platform) (model sweep_type config : string)
    (v : spec_float) (errors : Z) (s : metrics_state) :
  prom_installed P = true ->
  THROUGHPUT_TPS (reg (snd (update_cell P model sweep_type config v errors s))) =
    <[(model, sweep_type, config) := v]> (THROUGHPUT_TPS (reg s)).
Proof.
  intros H. rewrite update_cell_run by assumption. cbn zeta.
  destruct (errors =? 0); [reflexivity |]. now destruct (errors <? 0).
Qed.

Lemma update_cell_errors (P : platform) (model sweep_type config : string)
    (v : spec_float) (errors : Z) (s : metrics_state) (k : string) :
  prom_installed P = true ->
  counter_value k (ERRORS_TOTAL (reg (snd (update_cell P model sweep_type config v errors s)))) =
    if decide (k = sweep_type)
    then counter_value k (ERRORS_TOTAL (reg s)) + (if 0 <? errors then errors else 0)
    else counter_value k (ERRORS_TOTAL (reg s)).
Proof.
  intros H. rewrite update_cell_run by assumption. cbn zeta.
  destruct (Z.eqb_spec errors 0) as [->|Hnz]; cbn [snd reg ERRORS_TOTAL throughput_set].
  - destruct (decide (k = sweep_type)); simpl; lia.
  - destruct (Z.ltb_spec errors 0) as [Hneg|Hpos];
      cbn [snd reg ERRORS_TOTAL throughput_set with_errors_total].
    + rewrite counter_value_labels.
      destruct (Z.ltb_spec 0 errors); [lia |].
      destruct (decide (k = sweep_type)); lia.
    + rewrite counter_value_add, !counter_value_labels.
      destruct (Z.ltb_spec 0 errors); [| lia].
      destruct (decide (sweep_type = k)) as [Heq|Hne];
        destruct (decide (k = sweep_type)); try congruence; subst; lia.
Qed.

(** C7.  [update_cell] with the metrics library imported sets the throughput
    gauge of exactly the series (model, sweep_type, config) to the given
    value and leaves every other series alone, so that a second call with
    another config label adds a series instead of overwriting the first; it
    raises the error counter of [sweep_type] by [errors] when [errors] is
    positive and leaves every error counter at its value otherwise (a
    negative amount is refused by the library with [ValueError], after the
    gauge was set).  Without the library the call changes nothing. *)
Theorem update_cell_effect (P : platform) (model sweep_type config : string)
    (v : spec_float) (errors : Z) (s : metrics_state) :
  let s' := snd (update_cell P model sweep_type config v errors s) in
  (prom_installed P = true ->
     THROUGHPUT_TPS (reg s') !! (model, sweep_type, config) = Some v
     /\ (forall k, k <> (model, sweep_type, config) ->
           THROUGHPUT_TPS (reg s') !! k = THROUGHPUT_TPS (reg s) !! k)
     /\ (forall config2 v2 errors2, config2 <> config ->
           let s2 := snd (update_cell P model sweep_type config2 v2 errors2 s') in
           THROUGHPUT_TPS (reg s2) !! (model, sweep_type, config) = Some v
           /\ THROUGHPUT_TPS (reg s2) !! (model, sweep_type, config2) = Some v2)
     /\ counter_value sweep_type (ERRORS_TOTAL (reg s')) =
          counter_value sweep_type (ERRORS_TOTAL (reg s))
          + (if 0 <? errors then errors else 0)
     /\ (forall k, k <> sweep_type ->
           counter_value k (ERRORS_TOTAL (reg s')) = counter_value k (ERRORS_TOTAL (reg s)))
     /\ fst (update_cell P model sweep_type config v errors s) =
          (if errors <? 0 then Raise ValueError else Ret tt))
  /\ (prom_installed P = false ->
      update_cell P model sweep_type config v errors s = (Ret tt, s)).
Proof.
  cbv zeta. split.
  - intros H. repeat apply conj.
    + rewrite update_cell_throughput by assumption. apply lookup_insert_eq.
    + intros k Hk. rewrite update_cell_throughput by assumption.
      now apply lookup_insert_ne.
    + intros config2 v2 errors2 Hne.
      rewrite !update_cell_throughput by assumption. split.
      * rewrite lookup_insert_ne by congruence. apply lookup_insert_eq.
      * apply lookup_insert_eq.
    + rewrite update_cell_errors by assumption.
      destruct (decide (sweep_type = sweep_type)); [reflexivity | congruence].
    + intros k Hk. rewrite update_cell_errors by assumption.
      destruct (decide (k = sweep_type)); [congruence | reflexivity].
    + rewrite update_cell_run by assumption. cbn zeta.
      destruct (Z.eqb_spec errors 0) as [->|Hnz]; [reflexivity |].
      now destruct (errors <? 0).
  - intros H. unfold update_cell, _HAS_PROM. now rewrite H.
Qed.

(** Two cells of one sweep, the second with three errors. *)
Lemma update_cell_effect_witness :
  let P := sample_platform "" false true broker_down publish_ok no_http no_files in
  let s1 := snd (update_cell P "m.gguf" "batch" "b=8" f42_5 0 metrics_initial) in
  let s2 := snd (update_cell P "m.gguf" "batch" "b=16" (S754_finite false 51 0) 3 s1) in
  THROUGHPUT_TPS (reg s2) !! ("m.gguf", "batch", "b=8") = Some f42_5
  /\ THROUGHPUT_TPS (reg s2) !! ("m.gguf", "batch", "b=16") = Some (S754_finite false 51 0)
  /\ counter_value "batch" (ERRORS_TOTAL (reg s1)) = 0
  /\ counter_value "batch" (ERRORS_TOTAL (reg s2)) = 3.
Proof.
  cbv zeta.
  pose proof (update_cell_effect
    (sample_platform "" false true broker_down publish_ok no_http no_files)
    "m.gguf" "batch" "b=8" f42_5 0 metrics_initial) as [H1 _].
  cbv zeta in H1. destruct (H1 eq_refl) as (_ & _ & H2 & H3 & _).
  destruct (H2 "b=16" (S754_finite false 51 0) 3) as [Ha Hb]; [discriminate |].
  repeat apply conj; [exact Ha | exact Hb | exact H3 |].
  pose proof (update_cell_effect
    (sample_platform "" false true broker_down publish_ok no_http no_files)
    "m.gguf" "batch" "b=16" (S754_finite false 51 0) 3
    (snd (update_cell (sample_platform "" false true broker_down publish_ok no_http no_files)
            "m.gguf" "batch" "b=8" f42_5 0 metrics_initial))) as [H1' _].
  cbv zeta in H1'. destruct (H1' eq_refl) as (_ & _ & _ & H4 & _).
  rewrite H4, H3. reflexivity.
Defined.

(** ** Strings *)

Lemma chars_append (a b : string) : chars (a +:+ b) = chars a ++ chars b.
Proof. induction a as [|c a IH]; simpl; [reflexivity | now rewrite IH]. Qed.

Lemma is_prefix_app (p s : list ascii) : is_prefix p (p ++ s) = true.
Proof.
  induction p as [|c p IH]; simpl; [reflexivity |].
  now rewrite Ascii.eqb_refl, IH.
Qed.

Lemma contains_chars_prefix (needle hay : list ascii) :
  is_prefix needle hay = true -> contains_chars needle hay = true.
Proof. intros H. destruct hay; simpl; now rewrite H. Qed.

Lemma contains_chars_middle (pre needle post : list ascii) :
  contains_chars needle (pre ++ needle ++ post) = true.
Proof.
  induction pre as [|c pre IH]; simpl.
  - apply contains_chars_prefix, is_prefix_app.
  - rewrite IH. apply orb_true_r.
Qed.

(** [x in a + x + b] *)
Lemma contains_middle (a x b : string) : contains x (a +:+ x +:+ b) = true.
Proof.
  unfold contains. rewrite !chars_append. apply contains_chars_middle.
Qed.

(** ** pmoves_chit_bridge *)

Lemma bind_ret_run {S A B} (m : M S A) (k : A -> M S B) (s s' : S) (a : A) :
  m s = (Ret a, s') -> bind m k s = k a s'.
Proof. intros H. unfold bind. now rewrite H. Qed.

Lemma bind_raise_run {S A B} (m : M S A) (k : A -> M S B) (s s' : S) (e : exc_class) :
  m s = (Raise e, s') -> bind m k s = (Raise e, s').
Proof. intros H. unfold bind. now rewrite H. Qed.

Lemma try_except_ret {S A} (body handler : M S A) (c : exc_class -> bool)
    (s s' : S) (a : A) :
  body s = (Ret a, s') -> try_except body c handler s = (Ret a, s').
Proof. intros H. unfold try_except. now rewrite H. Qed.

(** One step of a run: the first action of a sequence returns. *)
Ltac bind_step tac := erewrite bind_ret_run; [cbv beta | tac].

Lemma do_urlopen_run (P : platform) (req : Request) (t : Z) (h : history) :
  do_urlopen P req t h = (urlopen P req t h, h ++ [EvUrlopen req t]).
Proof. reflexivity. Qed.

Lemma do_read_file_run (P : platform) (path : string) (h : history) :
  do_read_file P path h = (read_file P path h, h ++ [EvReadFile path]).
Proof. reflexivity. Qed.

Lemma json_loads_Some (ft : float_text) (body : string) (v : pyval) :
  json_loads ft body = Some v <-> json_decode ft body = Ret v.
Proof.
  unfold json_loads. destruct (json_decode ft body); split; congruence.
Qed.

Lemma loads_run (P : platform) (body : string) (v : pyval) (h : history) :
  json_loads (ft P) body = Some v -> loads P body h = (Ret v, h).
Proof.
  intros H. apply json_loads_Some in H. unfold loads, lift_outcome. now rewrite H.
Qed.

(** The decoder raises nothing but the two decoding errors. *)
Lemma json_decode_raises (ft : float_text) (body : string) (e : exc_class) :
  json_decode ft body = Raise e -> e = UnicodeDecodeError \/ e = JSONDecodeError.
Proof.
  unfold json_decode, decode_body, decode_utf8.
  destruct (detect_encoding (chars body)).
  - destruct (utf8_valid (chars body)); [| intros [= <-]; now left].
    destruct (utf8_narrow (chars body)) as [t|]; [| discriminate].
    destruct (parse_text ft t); [discriminate |].
    destruct (wide_escape t); [discriminate | intros [= <-]; now right].
  - destruct (utf8_valid (skipn 3 (chars body))); [| intros [= <-]; now left].
    destruct (utf8_narrow (skipn 3 (chars body))) as [t|]; [| discriminate].
    destruct (parse_text ft t); [discriminate |].
    destruct (wide_escape t); [discriminate | intros [= <-]; now right].
  - discriminate.
Qed.

(** ** Requests that [Request] accepts *)

Lemma Request_run (P : platform) (r : Request) (h : history) :
  Request_ P r h = (Request__init__ (ft P) r, h).
Proof. reflexivity. Qed.

Lemma Request_init_ret (ft : float_text) (r r' : Request) :
  Request__init__ ft r = Ret r' -> r' = r.
Proof.
  unfold Request__init__. destruct (negb _); [discriminate |].
  destruct (existsb _ _); [discriminate | now intros [= <-]].
Qed.

(** A request that was opened is one that could be built. *)
Lemma urlopen_ret_accepted (P : platform) (r : Request) (t : Z) (h : history)
    (body : string) :
  urlopen P r t h = Ret body -> Request__init__ (ft P) r = Ret r.
Proof.
  unfold urlopen. destruct (Request__init__ (ft P) r) as [r'| |] eqn:E; try discriminate.
  intros _. now rewrite (Request_init_ret _ _ _ E).
Qed.

Lemma urlopen_accepted (P : platform) (r : Request) (t : Z) (h : history) :
  Request__init__ (ft P) r = Ret r -> urlopen P r t h = http_answer P r t h.
Proof. intros E. unfold urlopen. now rewrite E. Qed.

Lemma url_plain_facts (c : ascii) :
  url_plain c = true ->
  is_space c = false /\ is_hash c = false /\ url_unparsed c = false
  /\ (code c =? 60)%N = false.
Proof. destruct c as [[] [] [] [] [] [] [] []]; intros H; try discriminate H; now repeat split. Qed.

Lemma forallb_rev {A} (f : A -> bool) (l : list A) : forallb f (rev l) = forallb f l.
Proof.
  induction l as [|x l IH]; [reflexivity |]. cbn [rev forallb].
  rewrite forallb_app, IH. cbn [forallb]. rewrite andb_true_r. apply andb_comm.
Qed.

Lemma lstrip_plain (l : list ascii) : forallb url_plain l = true -> lstrip l = l.
Proof.
  destruct l as [|c l]; [reflexivity |]. cbn [forallb lstrip].
  intros H. apply andb_prop in H as [Hc _].
  destruct (url_plain_facts c Hc) as (-> & _). reflexivity.
Qed.

Lemma strip_plain (l : list ascii) : forallb url_plain l = true -> strip l = l.
Proof.
  intros H. unfold strip. rewrite (lstrip_plain l H).
  rewrite lstrip_plain by now rewrite forallb_rev. apply rev_involutive.
Qed.

Lemma strip_prefix_app_none (p a b : list ascii) :
  (length p <= length a)%nat ->
  strip_prefix p a = None -> strip_prefix p (a ++ b) = None.
Proof.
  revert a. induction p as [|x p IH]; intros a Hlen; [discriminate |].
  destruct a as [|y a]; cbn [length] in Hlen; [lia |]. cbn [strip_prefix app].
  destruct (Ascii.eqb x y); [apply IH; lia | reflexivity].
Qed.

Lemma before_tag_plain (l : list ascii) : forallb url_plain l = true -> before_tag l = l.
Proof.
  induction l as [|c l IH]; [reflexivity |]. cbn [forallb before_tag].
  intros H. apply andb_prop in H as [Hc Hl].
  destruct (url_plain_facts c Hc) as (_ & Hh & _).
  assert (Hno : existsb is_hash l = false).
  { clear IH. induction l as [|d l IHl]; [reflexivity |]. cbn [forallb existsb] in *.
    apply andb_prop in Hl as [Hd Hl]. destruct (url_plain_facts d Hd) as (_ & -> & _).
    now apply IHl. }
  now rewrite Hno, Hh.
Qed.

Lemma colon_first_app (a b : list ascii) :
  colon_first a = true -> colon_first (a ++ b) = true.
Proof.
  induction a as [|c a IH]; [discriminate |]. cbn [colon_first app].
  destruct (code c =? 58)%N; [reflexivity |].
  destruct (code c =? 47)%N; [discriminate | exact IH].
Qed.

Lemma has_scheme_app (a b : list ascii) :
  has_scheme a = true -> has_scheme (a ++ b) = true.
Proof.
  destruct a as [|c a]; [discriminate |]. cbn [has_scheme app].
  intros H. apply andb_prop in H as [Hc Ha]. now rewrite Hc, colon_first_app.
Qed.

Lemma unparsed_plain (l : list ascii) :
  forallb url_plain l = true -> existsb url_unparsed l = false.
Proof.
  induction l as [|c l IH]; [reflexivity |]. cbn [forallb existsb].
  intros H. apply andb_prop in H as [Hc Hl].
  destruct (url_plain_facts c Hc) as (_ & _ & -> & _). now apply IH.
Qed.

(** A base URL followed by plain text is a URL that [Request] accepts. *)
Lemma Request_init_base (ft : float_text) (r : Request) (base tail : string) :
  url r = VStr (base +:+ tail) ->
  url_base_ok base = true ->
  forallb url_plain (chars tail) = true ->
  Request__init__ ft r = Ret r.
Proof.
  intros Hurl Hbase Htail. unfold url_base_ok in Hbase. cbv zeta in Hbase.
  apply andb_prop in Hbase as [Hbase Hnot]. apply andb_prop in Hbase as [Hbase Hsch].
  apply andb_prop in Hbase as [Hlen Hpl]. apply Nat.leb_le in Hlen.
  assert (Hall : forallb url_plain (chars base ++ chars tail) = true)
    by now rewrite forallb_app, Hpl, Htail.
  assert (Hun : unwrap (chars base ++ chars tail) = chars base ++ chars tail).
  { unfold unwrap. cbv zeta. rewrite (strip_plain _ Hall).
    assert (Hlt : match chars base ++ chars tail with
                  | c :: r0 =>
                      if (code c =? 60)%N
                         && match last r0 with
                            | Some d => (code d =? 62)%N
                            | None => false
                            end
                      then strip (removelast r0)
                      else chars base ++ chars tail
                  | [] => chars base ++ chars tail
                  end = chars base ++ chars tail).
    { destruct (chars base ++ chars tail) as [|c r0] eqn:E; [reflexivity |].
      cbn [forallb] in Hall. apply andb_prop in Hall as [Hc _].
      destruct (url_plain_facts c Hc) as (_ & _ & _ & ->). reflexivity. }
    rewrite Hlt. rewrite strip_prefix_app_none; [reflexivity | exact Hlen |].
    now destruct (strip_prefix (chars "URL:") (chars base)). }
  unfold Request__init__. rewrite Hurl. cbn [py_str]. rewrite chars_append, Hun.
  rewrite (before_tag_plain _ Hall), (has_scheme_app _ _ Hsch), (unparsed_plain _ Hall).
  reflexivity.
Qed.

Lemma quote_byte_safe (b : ascii) : forallb url_safe_char (quote_byte b) = true.
Proof. destruct b as [[] [] [] [] [] [] [] []]; reflexivity. Qed.

Lemma url_safe_not_separator (c : ascii) :
  url_safe_char c = true -> (code c =? 38)%N = false /\ (code c =? 61)%N = false.
Proof. destruct c as [[] [] [] [] [] [] [] []]; intros H; try discriminate H; now split. Qed.

Lemma quote_plus_safe (s : string) : forallb url_safe_char (chars (quote_plus s)) = true.
Proof.
  unfold quote_plus. rewrite list_ascii_of_string_of_list_ascii.
  induction (concat (map utf8_bytes (chars s))) as [|b l IH]; [reflexivity |].
  cbn [map concat]. now rewrite forallb_app, quote_byte_safe, IH.
Qed.

Lemma url_safe_plain (c : ascii) : url_safe_char c = true -> url_plain c = true.
Proof. destruct c as [[] [] [] [] [] [] [] []]; intros H; try discriminate H; reflexivity. Qed.

Lemma forallb_impl {A} (f g : A -> bool) (l : list A) :
  (forall x, f x = true -> g x = true) -> forallb f l = true -> forallb g l = true.
Proof.
  intros Hfg. rewrite !forallb_forall. intros H x Hx. apply Hfg. now apply H.
Qed.

Lemma join_chars_forallb (f : ascii -> bool) (sep : list ascii) (parts : list (list ascii)) :
  forallb f sep = true ->
  (forall p, In p parts -> forallb f p = true) ->
  forallb f (join_chars sep parts) = true.
Proof.
  intros Hsep. induction parts as [|p ps IH]; intros Hall; [reflexivity |].
  destruct ps as [|q ps].
  - cbn [join_chars]. apply Hall. now left.
  - rewrite join_chars_cons, !forallb_app, Hsep.
    rewrite (Hall p) by now left. rewrite IH; [reflexivity |].
    intros x Hx. apply Hall. now right.
Qed.

Lemma urlencode_plain (d : list (string * string)) :
  forallb url_plain (chars (urlencode d)) = true.
Proof.
  unfold urlencode, str_join. rewrite list_ascii_of_string_of_list_ascii.
  apply join_chars_forallb; [reflexivity |].
  intros p Hp. apply in_map_iff in Hp as (s & <- & Hs).
  apply in_map_iff in Hs as ([k v] & <- & _). cbn [fst snd].
  rewrite !chars_append, !forallb_app.
  rewrite !(forallb_impl _ _ _ url_safe_plain (quote_plus_safe _)). reflexivity.
Qed.

(** The requests built from the configured base URLs are accepted. *)
Lemma presign_request_accepted (P : platform) (bucket key meth : string) :
  Request__init__ (ft P) (presign_request P bucket key meth)
  = Ret (presign_request P bucket key meth).
Proof.
  pose proof (base_urls_ok P) as H. apply andb_prop in H as [_ H].
  apply (Request_init_base _ _ (PRESIGN_URL P)
           ("/presign?" +:+ urlencode [("bucket", bucket); ("key", key); ("method", meth)]));
    [reflexivity | exact H |].
  rewrite chars_append, forallb_app, urlencode_plain. reflexivity.
Qed.

Lemma post_request_accepted (P : platform) (payload : pydict) :
  Request__init__ (ft P) (post_request P (CIPHER_MEMORY_URL P +:+ "/api/memory") payload)
  = Ret (post_request P (CIPHER_MEMORY_URL P +:+ "/api/memory") payload).
Proof.
  pose proof (base_urls_ok P) as H. apply andb_prop in H as [H _].
  now apply (Request_init_base _ _ (CIPHER_MEMORY_URL P) "/api/memory").
Qed.


Lemma except_URLError_OSError (e : exc_class) :
  except_any [URLError; OSError] e = isinstance e OSError.
Proof. destruct e; reflexivity. Qed.

Lemma except_post_json (e : exc_class) :
  except_any [URLError; OSError; JSONDecodeError] e =
    isinstance e OSError || isinstance e JSONDecodeError.
Proof. destruct e; reflexivity. Qed.

(** [archive_csv_to_minio] as one decision tree over the answers of its
    peers. *)
Lemma archive_run (P : platform) (csv_path bucket : string)
    (object_key : option string) (h : history) :
  PRESIGN_SECRET P <> "" ->
  let key := archive_key csv_path object_key in
  let caught (e : exc_class) : outcome pyval :=
    if isinstance e OSError then Ret VNone else Raise e in
  let url_of (body : string) : outcome pyval :=
    match json_decode (ft P) body with
    | Ret (VDict d) => Ret (dict_get_default "url" VNone d)
    | Ret _ => Raise AttributeError
    | Raise e => Raise e
    | Beyond => Beyond
    end in
  let r1 := presign_request P bucket key "PUT" in
  let r3 := presign_request P bucket key "GET" in
  let h1 := h ++ [EvUrlopen r1 10] in
  let h2 := h1 ++ [EvReadFile csv_path] in
  archive_csv_to_minio P csv_path bucket object_key h =
    match urlopen P r1 10 h with
    | Raise e => (caught e, h1)
    | Beyond => (Beyond, h1)
    | Ret body1 =>
        match url_of body1 with
        | Raise e => (caught e, h1)
        | Beyond => (Beyond, h1)
        | Ret up =>
            if truthy up then
              match read_file P csv_path h1 with
              | Raise e => (caught e, h2)
              | Beyond => (Beyond, h2)
              | Ret bytes =>
                  let r2 := upload_request up bytes in
                  let h3 := h2 ++ [EvUrlopen r2 30] in
                  match Request__init__ (ft P) r2 with
                  | Raise e => (caught e, h2)
                  | Beyond => (Beyond, h2)
                  | Ret _ =>
                      match urlopen P r2 30 h2 with
                      | Raise e => (caught e, h3)
                      | Beyond => (Beyond, h3)
                      | Ret _ =>
                          let h4 := h3 ++ [EvUrlopen r3 10] in
                          match urlopen P r3 10 h3 with
                          | Raise e => (caught e, h4)
                          | Beyond => (Beyond, h4)
                          | Ret body3 =>
                              match url_of body3 with
                              | Raise e => (caught e, h4)
                              | Beyond => (Beyond, h4)
                              | Ret down => (Ret down, h4)
                              end
                          end
                      end
                  end
              end
            else (Ret VNone, h1)
        end
    end.
Proof.
  intros Hsecret. cbv zeta. unfold archive_csv_to_minio.
  rewrite (proj2 (String.eqb_neq _ _) Hsecret).
  fold (archive_key csv_path object_key).
  set (key := archive_key csv_path object_key).
  unfold try_except, bind, loads, py_get, lift_outcome, ret, raise.
  rewrite !Request_run, !presign_request_accepted. cbv beta iota.
  rewrite do_urlopen_run.
  destruct (urlopen P (presign_request P bucket key "PUT") 10 h) as [body1|e1|];
    cbv beta iota;
    [| rewrite except_URLError_OSError; now destruct (isinstance _ OSError) | reflexivity].
  destruct (json_decode (ft P) body1) as [[| | | | | | |d1]|e|];
    cbv beta iota; try reflexivity;
    [| rewrite except_URLError_OSError; now destruct (isinstance _ OSError)].
  destruct (truthy (dict_get_default "url" VNone d1)); cbn [negb]; cbv beta iota;
    [| reflexivity].
  rewrite do_read_file_run.
  destruct (read_file P csv_path _) as [bytes|e2|];
    cbv beta iota;
    [| rewrite except_URLError_OSError; now destruct (isinstance _ OSError) | reflexivity].
  rewrite Request_run.
  destruct (Request__init__ (ft P) (upload_request _ bytes)) as [r2|e2|] eqn:E2;
    cbv beta iota;
    [| rewrite except_URLError_OSError; now destruct (isinstance _ OSError) | reflexivity].
  rewrite (Request_init_ret _ _ _ E2). rewrite do_urlopen_run.
  destruct (urlopen P (upload_request _ bytes) 30 _) as [ans|e3|];
    cbv beta iota;
    [| rewrite except_URLError_OSError; now destruct (isinstance _ OSError) | reflexivity].
  rewrite Request_run, presign_request_accepted. cbv beta iota.
  rewrite do_urlopen_run.
  destruct (urlopen P (presign_request P bucket key "GET") 10 _) as [body3|e4|];
    cbv beta iota;
    [| rewrite except_URLError_OSError; now destruct (isinstance _ OSError) | reflexivity].
  destruct (json_decode (ft P) body3) as [[| | | | | | |d3]|e|];
    cbv beta iota; try reflexivity.
  rewrite except_URLError_OSError; now destruct (isinstance _ OSError).
Qed.

(** C8.  Without a presign secret [archive_csv_to_minio] returns [None] at
    once: no request is sent and no file is opened, whatever the path, the
    bucket and the key. *)
Theorem archive_without_secret (P : platform) (csv_path bucket : string)
    (object_key : option string) (h : history)
    (Hsecret : PRESIGN_SECRET P = "") :
  archive_csv_to_minio P csv_path bucket object_key h = (Ret VNone, h).
Proof.
  unfold archive_csv_to_minio. now rewrite Hsecret.
Qed.

(** The gateway of the end-to-end scenario is never contacted when the
    secret is empty. *)
Lemma archive_without_secret_witness :
  let P := sample_platform "" false false broker_down publish_ok gateway_stub csv_files in
  PRESIGN_SECRET P = ""
  /\ archive_csv_to_minio P "/tmp/run.csv" "outputs" None [] = (Ret VNone, []).
Proof.
  cbv zeta. split; [reflexivity |].
  apply archive_without_secret. reflexivity.
Defined.

(** C4.  The three steps of [archive_csv_to_minio].  With a secret set, the
    function (1) asks the gateway, by GET with the bearer secret, for a
    presigned URL for (bucket, key, PUT), the key being the given one or the
    fixed prefix followed by the base name of the file; (2) reads the file
    and PUTs its bytes to the URL it was given; (3) asks the gateway the
    same way for (bucket, key, GET).  When each step succeeds it performs
    exactly these actions, in this order, and returns the URL of step 3. *)
Theorem archive_three_step_flow (P : platform) (csv_path bucket : string)
    (object_key : option string) (h : history)
    (body1 body3 bytes put_answer : string) (d1 d3 : pydict) (up down : pyval) :
  let key := match object_key with
             | Some k => k
             | None => "llama-throughput-lab/" +:+ basename csv_path
             end in
  let presign meth :=
    {| url := VStr (PRESIGN_URL P +:+ "/presign?"
                    +:+ urlencode [("bucket", bucket); ("key", key); ("method", meth)]);
       data := None;
       headers := [("Authorization", "Bearer " +:+ PRESIGN_SECRET P)];
       method := "GET" |} in
  let put := {| url := up; data := Some bytes;
                headers := [("Content-Type", "text/csv")]; method := "PUT" |} in
  let step1 := EvUrlopen (presign "PUT") 10 in
  let step2 := [EvReadFile csv_path; EvUrlopen put 30] in
  let step3 := EvUrlopen (presign "GET") 10 in
  PRESIGN_SECRET P <> "" ->
  urlopen P (presign "PUT") 10 h = Ret body1 ->
  json_loads (ft P) body1 = Some (VDict d1) ->
  dict_get "url" d1 = Some up ->
  truthy up = true ->
  read_file P csv_path (h ++ [step1]) = Ret bytes ->
  urlopen P put 30 (h ++ [step1; EvReadFile csv_path]) = Ret put_answer ->
  urlopen P (presign "GET") 10 (h ++ step1 :: step2) = Ret body3 ->
  json_loads (ft P) body3 = Some (VDict d3) ->
  dict_get "url" d3 = Some down ->
  archive_csv_to_minio P csv_path bucket object_key h =
    (Ret down, h ++ step1 :: step2 ++ [step3]).
Proof.
  cbv beta zeta. intros Hsecret H1 J1 U1 T1 F2 H2 H3 J3 U3.
  rewrite (archive_run P csv_path bucket object_key h Hsecret). cbv zeta.
  unfold archive_key, default_object_key, presign_request, upload_request,
    dict_get_default.
  apply json_loads_Some in J1. apply json_loads_Some in J3.
  rewrite H1, J1, U1, T1, F2, (urlopen_ret_accepted P _ _ _ _ H2).
  rewrite <- !app_assoc. cbn [app].
  rewrite H2, H3, J3, U3. reflexivity.
Qed.

(** The end-to-end scenario: the gateway stub hands out u1 for PUT and u2
    for GET, the object store accepts the PUT, and the archive of
    [/tmp/run.csv] returns u2 after exactly the three steps. *)
Lemma archive_three_step_flow_witness :
  let P := sample_platform "s3cr3t" false false broker_down publish_ok
             gateway_stub csv_files in
  let presign meth :=
    {| url := VStr ("http://localhost:8088/presign?bucket=outputs&key=llama-throughput-lab%2Frun.csv&method=" +:+ meth);
       data := None;
       headers := [("Authorization", "Bearer s3cr3t")];
       method := "GET" |} in
  archive_csv_to_minio P "/tmp/run.csv" "outputs" None [] =
    (Ret (VStr u2),
     [EvUrlopen (presign "PUT") 10;
      EvReadFile "/tmp/run.csv";
      EvUrlopen {| url := VStr u1; data := Some "batch,throughput";
                   headers := [("Content-Type", "text/csv")]; method := "PUT" |} 30;
      EvUrlopen (presign "GET") 10]).
Proof.
  cbv beta zeta.
  apply (archive_three_step_flow
           (sample_platform "s3cr3t" false false broker_down publish_ok
              gateway_stub csv_files)
           "/tmp/run.csv" "outputs" None []
           (json_dumps sample_ft (VDict [("url", VStr u1)]))
           (json_dumps sample_ft (VDict [("url", VStr u2)]))
           "batch,throughput" ""
           [("url", VStr u1)] [("url", VStr u2)] (VStr u1) (VStr u2));
    try (vm_compute; reflexivity).
  vm_compute. discriminate.
Defined.

(** [_post_json] as one decision tree: the request is built, opened, and
    the answer decoded; the handler catches [OSError] and
    [JSONDecodeError], nothing else. *)
Lemma post_json_run (P : platform) (u : string) (payload : pydict) (t : Z)
    (h : history) :
  let req := post_request P u payload in
  let caught (e : exc_class) : outcome pyval :=
    if isinstance e OSError || isinstance e JSONDecodeError then Ret VNone
    else Raise e in
  _post_json P u payload t h =
    match Request__init__ (ft P) req with
    | Raise e => (caught e, h)
    | Beyond => (Beyond, h)
    | Ret _ =>
        match urlopen P req t h with
        | Raise e => (caught e, h ++ [EvUrlopen req t])
        | Beyond => (Beyond, h ++ [EvUrlopen req t])
        | Ret body =>
            match json_decode (ft P) body with
            | Raise e => (caught e, h ++ [EvUrlopen req t])
            | Beyond => (Beyond, h ++ [EvUrlopen req t])
            | Ret v => (Ret v, h ++ [EvUrlopen req t])
            end
        end
    end.
Proof.
  cbv zeta. unfold _post_json, try_except, bind, loads, lift_outcome, ret.
  fold (post_request P u payload). rewrite Request_run. cbv beta iota.
  destruct (Request__init__ (ft P) (post_request P u payload)) as [r|e|] eqn:E;
    cbv beta iota;
    [| rewrite except_post_json; now destruct (_ || _) | reflexivity].
  rewrite (Request_init_ret _ _ _ E), do_urlopen_run.
  destruct (urlopen P (post_request P u payload) t h) as [body|e|];
    cbv beta iota;
    [| rewrite except_post_json; now destruct (_ || _) | reflexivity].
  destruct (json_decode (ft P) body) as [v|e|]; cbv beta iota; try reflexivity.
  rewrite except_post_json; now destruct (_ || _).
Qed.

(** A request that can be built is opened exactly once. *)
Lemma post_json_history (P : platform) (u : string) (payload : pydict) (t : Z)
    (h : history) :
  Request__init__ (ft P) (post_request P u payload) = Ret (post_request P u payload) ->
  snd (_post_json P u payload t h) = h ++ [EvUrlopen (post_request P u payload) t].
Proof.
  intros E. rewrite post_json_run. cbv zeta. rewrite E.
  destruct (urlopen P _ t h) as [body|e|]; try reflexivity.
  now destruct (json_decode (ft P) body).
Qed.

(** [_post_json] returns (the decoded answer or [None]) whenever the HTTP
    exchange succeeds with an answer that is UTF-8 text within the decoder's
    reach, or fails with an [OSError]. *)
Lemma post_json_total (P : platform) (u : string) (payload : pydict) (t : Z)
    (h : history) :
  let req := post_request P u payload in
  (forall e, urlopen P req t h = Raise e -> isinstance e OSError = true) ->
  urlopen P req t h <> Beyond ->
  (forall body, urlopen P req t h = Ret body ->
                json_decode (ft P) body <> Beyond
                /\ json_decode (ft P) body <> Raise UnicodeDecodeError) ->
  exists v, fst (_post_json P u payload t h) = Ret v.
Proof.
  cbv zeta. intros Hos Hin Hbody. rewrite post_json_run. cbv zeta.
  unfold urlopen in *.
  destruct (Request__init__ (ft P) (post_request P u payload)) as [r|e|];
    [| specialize (Hos e eq_refl); rewrite Hos; simpl; eauto | now contradict Hin].
  destruct (http_answer P _ t h) as [body|e|];
    [| specialize (Hos e eq_refl); rewrite Hos; simpl; eauto | now contradict Hin].
  destruct (Hbody body eq_refl) as [Hb Hu].
  destruct (json_decode (ft P) body) as [v|e|] eqn:J; [simpl; eauto | | now contradict Hb].
  destruct (json_decode_raises _ _ _ J) as [-> | ->]; [now contradict Hu | simpl; eauto].
Qed.

Lemma best_config_get (best : pydict) (k : string) :
  dict_get k (best_config_of best) =
    if String.eqb k "throughput" then None else dict_get k best.
Proof.
  unfold best_config_of. induction best as [|[k' v] best IH]; simpl.
  - now destruct (String.eqb k "throughput").
  - destruct (String.eqb_spec k' "throughput") as [E|Hk']; simpl.
    + subst k'. rewrite IH. now destruct (String.eqb k "throughput").
    + destruct (String.eqb_spec k k') as [E|Hne].
      * subst k'. destruct (String.eqb_spec k "throughput"); [congruence | reflexivity].
      * exact IH.
Qed.

(** C5 (as amended).  For a [best] built from the values [json.dumps] can
    write ([None], booleans, integers, floats, strings, lists, tuples and
    string-keyed dicts: the type [pyval]), and a memory URL that [Request]
    accepts (a [platform]): when the throughput of [best] (0 when the key
    is absent) is a number that [.1f] can format, [store_reasoning] sends
    one POST to the memory API whose body is the JSON text of a record with
    [metadata.best_config] equal to [best] without its [throughput] key,
    every other key unchanged, and with a [content] string that contains the
    throughput formatted with one fractional digit. *)
Theorem store_reasoning_posts_record (P : platform) (sweep_type model_path : string)
    (best : pydict) (csv_path : string) (gpu_type : option string) (h : history)
    (thr : string) :
  format_1f (best_throughput best) = Ret thr ->
  let record := reasoning_record P sweep_type model_path best csv_path gpu_type thr
                  (gmtime P h) in
  let post := {| url := VStr (CIPHER_MEMORY_URL P +:+ "/api/memory");
                 data := Some (json_dumps (ft P) (VDict record));
                 headers := [("Content-Type", "application/json")];
                 method := "POST" |} in
  snd (store_reasoning P sweep_type model_path best csv_path gpu_type h) =
    h ++ [EvUrlopen post 10]
  /\ (exists metadata content,
        dict_get "metadata" record = Some (VDict metadata)
        /\ dict_get "best_config" metadata =
             Some (VDict (List.filter
                            (fun kv => negb (String.eqb (fst kv) "throughput")) best))
        /\ dict_get "content" record = Some (VStr content)
        /\ contains thr content = true)
  /\ (forall k, dict_get k (best_config_of best) =
                  if String.eqb k "throughput" then None else dict_get k best).
Proof.
  intros Hfmt. cbv zeta. repeat apply conj.
  - unfold store_reasoning. unfold bind at 1. unfold lift_outcome at 1.
    rewrite Hfmt. unfold bind, get_state.
    exact (post_json_history P _ _ 10 h (post_request_accepted P _)).
  - unfold reasoning_record. cbv zeta. eexists. eexists.
    split; [reflexivity |]. split.
    + destruct gpu_type as [g|]; [destruct (String.eqb g "") |]; reflexivity.
    + split; [reflexivity |]. unfold content_line.
      unfold contains. rewrite !chars_append.
      rewrite (app_assoc (chars "Model ")), (app_assoc _ (chars " achieves ")).
      apply contains_chars_middle.
  - apply best_config_get.
Qed.

(** The end-to-end scenario of the specification: throughput 42.5 at
    batch 8. *)
Lemma store_reasoning_posts_record_witness :
  let P := sample_platform "" false false broker_down publish_ok memory_stub no_files in
  let best := [("throughput", VFloat f42_5); ("batch", VInt 8)] in
  let record := reasoning_record P "batch" "/models/m.gguf" best "/tmp/run.csv" None
                  "42.5" sample_time in
  format_1f (best_throughput best) = Ret "42.5"
  /\ exists metadata content,
       dict_get "metadata" record = Some (VDict metadata)
       /\ dict_get "best_config" metadata = Some (VDict [("batch", VInt 8)])
       /\ dict_get "content" record = Some (VStr content)
       /\ contains "42.5" content = true.
Proof.
  cbv zeta. split; [reflexivity |].
  destruct (store_reasoning_posts_record
              (sample_platform "" false false broker_down publish_ok memory_stub no_files)
              "batch" "/models/m.gguf"
              [("throughput", VFloat f42_5); ("batch", VInt 8)]
              "/tmp/run.csv" None [] "42.5" eq_refl)
    as (_ & (metadata & content & Hm & Hb & Hc & Hin) & _).
  exists metadata, content. repeat split; assumption.
Defined.

Example store_reasoning_content_line :
  content_line
    (sample_platform "" false false broker_down publish_ok memory_stub no_files)
    "/models/m.gguf" "42.5" [("batch", VInt 8)]
  = "Model m.gguf achieves 42.5 tok/s at batch=8".
Proof. vm_compute. reflexivity. Qed.

(** C5, as first stated, fails: for a [best] read from a CSV row, whose
    values are text, the [.1f] conversion raises [ValueError] and nothing is
    posted. *)
Lemma store_reasoning_text_throughput :
  let P := sample_platform "" false false broker_down publish_ok memory_stub no_files in
  store_reasoning P "batch" "/models/m.gguf"
    [("throughput", VStr "42.5"); ("batch", VStr "8")] "/tmp/run.csv" None []
  = (Raise ValueError, []).
Proof. vm_compute. reflexivity. Qed.

(** ** Failures that reach the caller *)

(** No failure of the broker or of its client library leaves
    [_safe_publish], hence none leaves the three publishers. *)
Lemma safe_publish_returns (P : platform) (subject : string) (payload : pydict)
    (s : nats_state) :
  fst (_safe_publish P subject payload s) = Ret tt.
Proof.
  unfold _safe_publish.
  rewrite try_except_Exception_run by apply defined_safe_publish_body.
  cbn [fst]. now rewrite unit_outcome.
Qed.

Lemma publishers_return (P : platform) (sweep_type model_path csv_path : string)
    (config row best : pydict) (total_cells : Z) (s : nats_state) :
  fst (publish_started P sweep_type model_path config s) = Ret tt
  /\ fst (publish_cell P sweep_type row s) = Ret tt
  /\ fst (publish_completed P sweep_type best csv_path total_cells s) = Ret tt
  /\ fst (close P s) = Ret tt.
Proof.
  repeat apply conj; try apply safe_publish_returns. apply close_run.
Qed.

(** [store_reasoning] returns whenever the throughput can be formatted and
    the HTTP exchange succeeds with an answer that is UTF-8 text within the
    decoder's reach, or fails with an [OSError]. *)
Lemma store_reasoning_returns (P : platform) (sweep_type model_path : string)
    (best : pydict) (csv_path : string) (gpu_type : option string) (h : history)
    (thr : string) :
  format_1f (best_throughput best) = Ret thr ->
  (forall req e, urlopen P req 10 h = Raise e -> isinstance e OSError = true) ->
  (forall req, urlopen P req 10 h <> Beyond) ->
  (forall req body, urlopen P req 10 h = Ret body ->
                    json_decode (ft P) body <> Beyond
                    /\ json_decode (ft P) body <> Raise UnicodeDecodeError) ->
  exists v, fst (store_reasoning P sweep_type model_path best csv_path gpu_type h) = Ret v.
Proof.
  intros Hfmt Hos Hin Hbody. unfold store_reasoning. unfold bind at 1.
  unfold lift_outcome at 1. rewrite Hfmt. unfold bind, get_state.
  apply post_json_total; cbv zeta; [intros e; apply Hos | apply Hin | apply Hbody].
Qed.

(** When the gateway's first answer is text that is not JSON, the decoding
    error leaves [archive_csv_to_minio]: its handler names [URLError] and
    [OSError] only. *)
Lemma archive_undecodable_answer (P : platform) (csv_path bucket : string)
    (object_key : option string) (h : history) (body : string) :
  let key := archive_key csv_path object_key in
  PRESIGN_SECRET P <> "" ->
  urlopen P (presign_request P bucket key "PUT") 10 h = Ret body ->
  json_decode (ft P) body = Raise JSONDecodeError ->
  archive_csv_to_minio P csv_path bucket object_key h =
    (Raise JSONDecodeError, h ++ [EvUrlopen (presign_request P bucket key "PUT") 10]).
Proof.
  cbv zeta. intros Hsecret H1 J1.
  rewrite (archive_run P csv_path bucket object_key h Hsecret). cbv zeta.
  now rewrite H1, J1.
Qed.

(** C1 at its failing input.  The presign gateway answers 200 with an HTML
    page (a malformed, non-JSON response): [archive_csv_to_minio] raises
    [JSONDecodeError] to its caller after the first request, where
    [_post_json], whose handler names that class, returns [None] on the
    same answer. *)
Theorem archive_malformed_response_raises :
  let P := sample_platform "s3cr3t" false false broker_down publish_ok
             html_stub csv_files in
  archive_csv_to_minio P "/tmp/run.csv" "outputs" None [] =
    (Raise JSONDecodeError,
     [EvUrlopen (presign_request P "outputs" "llama-throughput-lab/run.csv" "PUT") 10])
  /\ fst (_post_json P "http://localhost:8096/api/memory" [] 10 []) = Ret VNone
  /\ except_any [URLError; OSError] JSONDecodeError = false
  /\ except_any [URLError; OSError; JSONDecodeError] JSONDecodeError = true.
Proof.
  cbv zeta. repeat apply conj; vm_compute; reflexivity.
Qed.

(** ** pmoves_nats_bridge: the envelope *)

Lemma envelope_run (P : platform) (subject : string) (payload : pydict) (s : nats_state) :
  _envelope P subject payload s =
    (Ret (envelope_bytes P (nats_trace s) subject payload), s).
Proof. reflexivity. Qed.

(** Decoding an envelope gives back the dict that was serialized, the
    payload with its tuples as lists. *)
Lemma envelope_decodes (P : platform) (h : history) (subject : string) (payload : pydict) :
  json_exact (ft P) (VDict payload) = true ->
  json_loads (ft P) (envelope_bytes P h subject payload) =
    Some (VDict [("id", VStr (uuid4 P h));
                 ("topic", VStr subject);
                 ("ts", VStr (strftime ISO_Z (gmtime P h)));
                 ("version", VStr "v1");
                 ("source", VStr "llama-throughput-lab");
                 ("payload", as_json (VDict payload))]).
Proof.
  intros Hp. unfold envelope_bytes, encode. rewrite json_loads_dumps; [reflexivity |].
  unfold envelope_dict. cbn [json_exact forallb snd]. cbn [json_exact] in Hp.
  rewrite Hp. reflexivity.
Qed.

(** C3 (as amended).  For every topic and every payload whose dicts repeat
    no key and whose floats are ones the interpreter's printer and reader
    agree on, the bytes of [_envelope] decode to an object whose payload is
    the given payload with each tuple turned into a list, hence the payload
    itself when it holds no tuple; whose topic is the given topic, whose
    version is ["v1"], whose source is ["llama-throughput-lab"]; and whose
    time stamp, for a clock between the years 1000 and 9999, parses as the
    UTC time of the call in the form [YYYY-MM-DDTHH:MM:SSZ]. *)
Theorem envelope_roundtrip (P : platform) (s : nats_state) (subject : string)
    (payload : pydict) :
  json_exact (ft P) (VDict payload) = true ->
  valid_gmtime (gmtime P (nats_trace s)) ->
  let ts := strftime ISO_Z (gmtime P (nats_trace s)) in
  exists body d,
    _envelope P subject payload s = (Ret body, s)
    /\ json_loads (ft P) body = Some (VDict d)
    /\ dict_get "payload" d = Some (as_json (VDict payload))
    /\ (tuple_free (VDict payload) = true ->
        dict_get "payload" d = Some (VDict payload))
    /\ dict_get "topic" d = Some (VStr subject)
    /\ dict_get "version" d = Some (VStr "v1")
    /\ dict_get "source" d = Some (VStr "llama-throughput-lab")
    /\ dict_get "id" d = Some (VStr (uuid4 P (nats_trace s)))
    /\ dict_get "ts" d = Some (VStr ts)
    /\ parse_iso8601_z ts = Some (gmtime P (nats_trace s)).
Proof.
  intros Hp Ht. cbv zeta. eexists _, _. split; [apply envelope_run |].
  split; [now apply envelope_decodes |].
  repeat apply conj; try reflexivity.
  - intros Htf. cbn [dict_get String.eqb Ascii.eqb Bool.eqb].
    now rewrite (as_json_tuple_free _ Htf).
  - now apply parse_iso8601_strftime.
Qed.

(** A cell of a sweep: text, a float, an integer, a nested list. *)
Lemma envelope_roundtrip_witness :
  let P := sample_platform "" true false broker_up publish_ok no_http no_files in
  let payload := [("sweep_type", VStr "batch");
                  ("throughput_tps", VFloat f42_5);
                  ("errors", VInt 0);
                  ("tags", VList [VStr "b=8"; VNone; VBool true; VInt (-3)])] in
  json_exact (ft P) (VDict payload) = true
  /\ valid_gmtime (gmtime P [])
  /\ exists d,
    json_loads (ft P) (envelope_bytes P [] "llama.benchmark.cell.v1" payload) = Some (VDict d)
    /\ dict_get "payload" d = Some (VDict payload)
    /\ dict_get "topic" d = Some (VStr "llama.benchmark.cell.v1")
    /\ dict_get "version" d = Some (VStr "v1")
    /\ dict_get "ts" d = Some (VStr "2026-03-09T07:05:00Z")
    /\ parse_iso8601_z "2026-03-09T07:05:00Z" = Some sample_time.
Proof.
  cbv zeta.
  split; [vm_compute; reflexivity |].
  split; [unfold valid_gmtime; vm_compute; intuition discriminate |].
  destruct (envelope_roundtrip
              (sample_platform "" true false broker_up publish_ok no_http no_files)
              nats_initial "llama.benchmark.cell.v1"
              [("sweep_type", VStr "batch");
               ("throughput_tps", VFloat f42_5);
               ("errors", VInt 0);
               ("tags", VList [VStr "b=8"; VNone; VBool true; VInt (-3)])])
    as (body & d & Hb & Hd & Hp & Htf & Htopic & Hv & _ & _ & Hts & Hparse).
  - vm_compute. reflexivity.
  - unfold valid_gmtime. vm_compute. intuition discriminate.
  - injection Hb as <-. exists d. split; [exact Hd |].
    split; [apply Htf; reflexivity |].
    split; [exact Htopic |]. split; [exact Hv |].
    split; [exact Hts | exact Hparse].
Defined.

(** C3, as first stated, fails: a payload that holds a tuple is
    serializable, and comes back with a list in its place. *)
Lemma envelope_tuple_payload_changes :
  let P := sample_platform "" true false broker_up publish_ok no_http no_files in
  let payload := [("shape", VTuple [VInt 1; VInt 2])] in
  exists d,
    json_loads (ft P) (envelope_bytes P [] "llama.benchmark.cell.v1" payload) = Some (VDict d)
    /\ dict_get "payload" d = Some (VDict [("shape", VList [VInt 1; VInt 2])])
    /\ dict_get "payload" d <> Some (VDict payload).
Proof.
  cbv zeta. eexists. split; [vm_compute; reflexivity |].
  split; [reflexivity | discriminate].
Qed.

(* ===================================================================== *)
(** * Part III: further properties of the code                            *)
(* ===================================================================== *)

(** ** pmoves_nats_bridge: scripts of calls *)

(** A publish on a disconnected adapter whose connection attempt succeeds:
    the connect, then the send (and the flush) on the new handle. *)
Lemma safe_publish_fresh_run (P : platform) (subject : string) (payload : pydict)
    (s : nats_state) :
  _nc s = None ->
  nats_installed P = true ->
  nats_connect P (NATS_URL P) (nats_trace s) = None ->
  _safe_publish P subject payload s =
    (Ret tt,
     {| _nc := Some {| sn_url := NATS_URL P; sn_id := length (nats_trace s) |};
        nats_trace :=
          (nats_trace s ++ [EvNatsConnect (NATS_URL P)])
          ++ publish_events P {| sn_url := NATS_URL P; sn_id := length (nats_trace s) |}
               (nats_trace s ++ [EvNatsConnect (NATS_URL P)]) subject
               (envelope_bytes P (nats_trace s ++ [EvNatsConnect (NATS_URL P)])
                  subject payload) |}).
Proof.
  intros Hn Hi Hc. unfold _safe_publish. rewrite try_except_Exception_run by apply defined_safe_publish_body.
  erewrite bind_ret_run;
    [| rewrite (ensure_connected_fresh P s Hn), Hi, Hc; reflexivity].
  cbv beta iota.
  erewrite bind_ret_run; [| apply envelope_run].
  cbv beta. rewrite SyncNats_publish_run, unit_outcome. reflexivity.
Qed.

(** A publish on a disconnected adapter whose connection attempt fails, or
    whose client library is absent. *)
Lemma safe_publish_failed_connect (P : platform) (subject : string) (payload : pydict)
    (s : nats_state) :
  _nc s = None ->
  _safe_publish P subject payload s =
    (Ret tt,
     if nats_installed P then
       match nats_connect P (NATS_URL P) (nats_trace s) with
       | Some _ => {| _nc := None;
                      nats_trace := nats_trace s ++ [EvNatsConnect (NATS_URL P)] |}
       | None => snd (_safe_publish P subject payload s)
       end
     else s).
Proof.
  intros Hn. destruct (nats_installed P) eqn:Hi.
  - destruct (nats_connect P (NATS_URL P) (nats_trace s)) as [e|] eqn:Hc.
    + unfold _safe_publish. rewrite try_except_Exception_run by apply defined_safe_publish_body.
      erewrite bind_ret_run;
        [| rewrite (ensure_connected_fresh P s Hn), Hi, Hc; reflexivity].
      reflexivity.
    + rewrite (safe_publish_fresh_run P subject payload s Hn Hi Hc). reflexivity.
  - unfold _safe_publish. rewrite try_except_Exception_run by apply defined_safe_publish_body.
    erewrite bind_ret_run;
      [| rewrite (ensure_connected_fresh P s Hn), Hi; reflexivity].
    reflexivity.
Qed.

Lemma nats_do_publish (P : platform) (c : nats_call) :
  is_publish_call c = true ->
  exists subject payload, nats_do P c = _safe_publish P subject payload.
Proof.
  destruct c; intros H; try discriminate; eexists _, _; reflexivity.
Qed.

(** X1.  Without the client library the publisher is inert: whatever the
    calls, none raises, none reaches the broker, and the state stays as it
    was. *)
Theorem absent_library_is_inert (P : platform) (calls : list nats_call)
    (s : nats_state) :
  nats_installed P = false ->
  _nc s = None ->
  nats_script P calls s = (Ret tt, s).
Proof.
  intros Hi Hn. induction calls as [|c calls IH]; [reflexivity |].
  cbn [nats_script]. erewrite bind_ret_run; [exact IH |].
  destruct c; cbn [nats_do];
    try (unfold publish_started, publish_cell, publish_completed;
         rewrite safe_publish_failed_connect, Hi by assumption; reflexivity).
  now apply close_disconnected.
Qed.

Lemma absent_library_is_inert_witness :
  let P := sample_platform "" false false broker_up publish_ok no_http no_files in
  nats_script P
    [CallStarted "batch" "/models/m.gguf" [("n_batch", VInt 8)];
     CallCell "batch" [("throughput_tps", VFloat f42_5)];
     CallCompleted "batch" [("throughput", VFloat f42_5)] "/tmp/run.csv" 1;
     CallClose]
    nats_initial
  = (Ret tt, nats_initial).
Proof.
  cbv zeta. apply absent_library_is_inert; reflexivity.
Defined.

(** X2.  With a broker that cannot be reached, every publish makes one
    connection attempt and nothing else (no send, no back-off, no handle),
    and [close] does nothing: after a script the history has grown by one
    connect per publish call. *)
Theorem unreachable_broker_retries_every_publish (P : platform)
    (calls : list nats_call) (s : nats_state) :
  nats_installed P = true ->
  (forall h, nats_connect P (NATS_URL P) h <> None) ->
  _nc s = None ->
  nats_script P calls s =
    (Ret tt,
     {| _nc := None;
        nats_trace := nats_trace s
          ++ repeat (EvNatsConnect (NATS_URL P))
               (length (List.filter is_publish_call calls)) |}).
Proof.
  intros Hi Hdown. revert s. induction calls as [|c calls IH]; intros s Hn.
  - cbn. rewrite app_nil_r. destruct s as [nc tr]. cbn in Hn. now subst.
  - cbn [nats_script List.filter].
    destruct (is_publish_call c) eqn:Hc.
    + destruct (nats_do_publish P c Hc) as (subject & payload & ->).
      erewrite bind_ret_run; [| apply safe_publish_failed_connect; exact Hn].
      rewrite Hi. specialize (Hdown (nats_trace s)).
      destruct (nats_connect P (NATS_URL P) (nats_trace s)); [| congruence].
      rewrite IH by reflexivity. cbn [nats_trace length repeat].
      now rewrite <- app_assoc.
    + destruct c; try discriminate. cbn [nats_do].
      erewrite bind_ret_run; [| now apply close_disconnected].
      now apply IH.
Qed.

Lemma unreachable_broker_retries_every_publish_witness :
  let P := sample_platform "" true false broker_down publish_ok no_http no_files in
  nats_script P
    [CallStarted "batch" "/models/m.gguf" [];
     CallCell "batch" [("throughput_tps", VFloat f42_5)];
     CallClose;
     CallCell "batch" [("throughput_tps", VFloat f42_5)]]
    nats_initial
  = (Ret tt,
     {| _nc := None;
        nats_trace := [EvNatsConnect "nats://localhost:4222";
                       EvNatsConnect "nats://localhost:4222";
                       EvNatsConnect "nats://localhost:4222"] |}).
Proof.
  cbv zeta.
  exact (unreachable_broker_retries_every_publish
           (sample_platform "" true false broker_down publish_ok no_http no_files)
           _ nats_initial eq_refl
           (fun h (H : Some ConnectionError = None) =>
              eq_ind (Some ConnectionError)
                (fun o => match o with Some _ => True | None => False end)
                I None H)
           eq_refl).
Defined.

Lemma publish_events_no_connect (P : platform) (c : SyncNats) (h : history)
    (subject body : string) :
  List.filter is_connect (publish_events P c h subject body) = []
  /\ length (List.filter is_publish (publish_events P c h subject body)) = 1%nat.
Proof.
  unfold publish_events.
  destruct (nats_publish P (sn_id c) subject body h); now cbn.
Qed.

Lemma connected_script_run (P : platform) (c : SyncNats) (calls : list nats_call) :
  forallb is_publish_call calls = true ->
  forall s, _nc s = Some c ->
  exists evs,
    nats_script P calls s = (Ret tt, {| _nc := Some c; nats_trace := nats_trace s ++ evs |})
    /\ List.filter is_connect evs = []
    /\ length (List.filter is_publish evs) = length calls.
Proof.
  induction calls as [|k calls IH]; intros Hall s Hc.
  - exists []. rewrite app_nil_r. destruct s as [nc tr]. cbn in Hc. subst.
    now cbn.
  - cbn [forallb] in Hall. apply andb_prop in Hall as [Hk Hall].
    destruct (nats_do_publish P k Hk) as (subject & payload & Hdo).
    destruct (IH Hall _ (eq_refl : _nc {| _nc := Some c;
                nats_trace := nats_trace s
                  ++ publish_events P c (nats_trace s) subject
                       (envelope_bytes P (nats_trace s) subject payload) |} = Some c))
      as (evs & Hrun & Hno & Hlen).
    destruct (publish_events_no_connect P c (nats_trace s) subject
                (envelope_bytes P (nats_trace s) subject payload)) as [Hno1 Hlen1].
    eexists. split; [| split].
    + cbn [nats_script]. rewrite Hdo.
      erewrite bind_ret_run; [| exact (safe_publish_connected P c subject payload s Hc)].
      rewrite Hrun. cbn [nats_trace]. rewrite <- app_assoc. reflexivity.
    + rewrite List.filter_app, Hno1, Hno. reflexivity.
    + rewrite List.filter_app, length_app, Hlen1, Hlen. reflexivity.
Qed.

(** X3.  With a broker that accepts connections, a run of publish calls on
    a fresh adapter, each with a payload of values that [json.dumps] can
    write (the type [pyval]: [None], booleans, integers, floats, strings,
    lists, tuples and string-keyed dicts), connects exactly once, on the
    first call, and then sends exactly one message per call, whether or not
    the earlier sends went through; the handle made by that one connect is
    the one kept. *)
Theorem reachable_broker_connects_once (P : platform) (k : nats_call)
    (calls : list nats_call) (s : nats_state) :
  nats_installed P = true ->
  (forall h, nats_connect P (NATS_URL P) h = None) ->
  forallb is_publish_call (k :: calls) = true ->
  _nc s = None ->
  exists evs,
    nats_script P (k :: calls) s =
      (Ret tt,
       {| _nc := Some {| sn_url := NATS_URL P; sn_id := length (nats_trace s) |};
          nats_trace := nats_trace s ++ EvNatsConnect (NATS_URL P) :: evs |})
    /\ List.filter is_connect evs = []
    /\ length (List.filter is_publish evs) = S (length calls).
Proof.
  intros Hi Hup Hall Hn. cbn [forallb] in Hall. apply andb_prop in Hall as [Hk Hall].
  destruct (nats_do_publish P k Hk) as (subject & payload & Hdo).
  pose proof (safe_publish_fresh_run P subject payload s Hn Hi (Hup _)) as Hfirst.
  set (c := {| sn_url := NATS_URL P; sn_id := length (nats_trace s) |}) in *.
  set (h1 := nats_trace s ++ [EvNatsConnect (NATS_URL P)]) in *.
  set (e1 := publish_events P c h1 subject (envelope_bytes P h1 subject payload)) in *.
  destruct (connected_script_run P c calls Hall
              {| _nc := Some c; nats_trace := h1 ++ e1 |} eq_refl)
    as (evs & Hrun & Hno & Hlen).
  destruct (publish_events_no_connect P c h1 subject
              (envelope_bytes P h1 subject payload)) as [Hno1 Hlen1].
  fold e1 in Hno1, Hlen1.
  exists (e1 ++ evs). split; [| split].
  - cbn [nats_script]. rewrite Hdo.
    erewrite bind_ret_run; [| exact Hfirst].
    rewrite Hrun. cbn [nats_trace]. unfold h1.
    rewrite <- !app_assoc. reflexivity.
  - rewrite List.filter_app, Hno1, Hno. reflexivity.
  - rewrite List.filter_app, length_app, Hlen1, Hlen. reflexivity.
Qed.

Lemma reachable_broker_connects_once_witness :
  let P := sample_platform "" true false broker_up publish_fails no_http no_files in
  exists evs,
    nats_script P
      [CallStarted "batch" "/models/m.gguf" [];
       CallCell "batch" [("throughput_tps", VFloat f42_5)];
       CallCompleted "batch" [] "/tmp/run.csv" 1]
      nats_initial =
      (Ret tt,
       {| _nc := Some {| sn_url := "nats://localhost:4222"; sn_id := 0 |};
          nats_trace := EvNatsConnect "nats://localhost:4222" :: evs |})
    /\ List.filter is_connect evs = []
    /\ length (List.filter is_publish evs) = 3%nat.
Proof.
  cbv zeta.
  exact (reachable_broker_connects_once
           (sample_platform "" true false broker_up publish_fails no_http no_files)
           (CallStarted "batch" "/models/m.gguf" [])
           [CallCell "batch" [("throughput_tps", VFloat f42_5)];
            CallCompleted "batch" [] "/tmp/run.csv" 1]
           nats_initial eq_refl (fun _ => eq_refl) eq_refl eq_refl).
Defined.

(** X4.  [close] on a connected adapter drains the connection and then
    closes its event loop; when the drain raises, the loop is never closed
    (the `loop.close()` line is skipped) but the exception is swallowed and
    the handle is cleared all the same. *)
Theorem close_drains_then_closes_loop (P : platform) (c : SyncNats) (s : nats_state) :
  _nc s = Some c ->
  close P s =
    (Ret tt,
     {| _nc := None;
        nats_trace := nats_trace s ++
          EvNatsDrain (sn_id c) ::
          match nats_drain P (sn_id c) (nats_trace s) with
          | None => [EvLoopClose (sn_id c)]
          | Some _ => []
          end |}).
Proof.
  intros Hc. destruct s as [nc tr]. cbn [_nc nats_trace] in *. subst nc.
  unfold close, bind, get_state. cbn [_nc].
  rewrite try_except_Exception_run by apply defined_SyncNats_close.
  unfold _SyncNats_close, await, bind, nats_emit, nats_history, set_nc, ret, raise;
    cbn [_nc nats_trace].
  destruct (nats_drain P (sn_id c) tr); cbn [_nc nats_trace fst snd];
    rewrite <- ?app_assoc; reflexivity.
Qed.

Lemma close_drains_then_closes_loop_witness :
  close sample_platform_stuck nats_connected =
    (Ret tt,
     {| _nc := None;
        nats_trace := [EvNatsConnect "nats://localhost:4222"; EvNatsDrain 0] |}).
Proof.
  exact (close_drains_then_closes_loop sample_platform_stuck
           {| sn_url := "nats://localhost:4222"; sn_id := 0 |} nats_connected eq_refl).
Defined.

Lemma close_extends (P : platform) (s : nats_state) :
  exists evs,
    nats_trace (snd (close P s)) = nats_trace s ++ evs
    /\ forall c, _nc s = Some c -> In (EvNatsDrain (sn_id c)) evs.
Proof.
  destruct s as [[c|] tr]; unfold close, bind, get_state; cbn [_nc].
  - rewrite try_except_Exception_run by apply defined_SyncNats_close.
    unfold _SyncNats_close, await, bind, nats_emit, nats_history, set_nc, ret, raise;
      cbn [_nc nats_trace].
    destruct (nats_drain P (sn_id c) tr); cbn [_nc nats_trace fst snd];
      rewrite <- ?app_assoc; eexists; (split; [reflexivity |]);
      intros c' [= <-]; now left.
  - exists []. cbn. rewrite app_nil_r. split; [reflexivity | discriminate].
Qed.

(** X5.  After [close], the next publish opens a new connection: the handle
    it leaves is a later one than the one that was closed, it was made by a
    connect that the history records, and the old connection was drained
    before. *)
Theorem close_then_publish_reconnects (P : platform) (c : SyncNats) (s : nats_state)
    (k : nats_call) :
  nats_installed P = true ->
  nats_connect P (NATS_URL P) (nats_trace (snd (close P s))) = None ->
  is_publish_call k = true ->
  _nc s = Some c ->
  (sn_id c < length (nats_trace s))%nat ->
  exists evs c',
    nats_script P [CallClose; k] s =
      (Ret tt, {| _nc := Some c'; nats_trace := nats_trace s ++ evs |})
    /\ (sn_id c < sn_id c')%nat
    /\ nth_error (nats_trace s ++ evs) (sn_id c') = Some (EvNatsConnect (NATS_URL P))
    /\ In (EvNatsDrain (sn_id c)) evs.
Proof.
  intros Hi Hup Hk Hc Hlt.
  destruct (nats_do_publish P k Hk) as (subject & payload & Hdo).
  destruct (close_run P s) as [Hret Hnone].
  destruct (close_extends P s) as (evs & Htr & Hdrain).
  destruct (close P s) as [o s1] eqn:Hclose. cbn [fst snd] in *. subst o.
  pose proof (safe_publish_fresh_run P subject payload s1 Hnone Hi Hup) as Hpub.
  rewrite Htr in Hpub.
  eexists _, _. split; [| split; [| split]].
  - cbn [nats_script nats_do]. erewrite bind_ret_run; [| exact Hclose].
    rewrite Hdo. erewrite bind_ret_run; [| exact Hpub].
    unfold ret. rewrite <- !app_assoc. reflexivity.
  - cbn [sn_id]. rewrite length_app. lia.
  - cbn [sn_id]. rewrite !app_assoc.
    rewrite <- (app_assoc _ [_]).
    rewrite nth_error_app2 by lia. now rewrite Nat.sub_diag.
  - apply in_or_app. left. now apply Hdrain.
Qed.

Lemma close_then_publish_reconnects_witness :
  exists evs c',
    nats_script sample_platform_stuck
      [CallClose; CallCell "batch" [("throughput_tps", VFloat f42_5)]] nats_connected =
      (Ret tt, {| _nc := Some c'; nats_trace := nats_trace nats_connected ++ evs |})
    /\ (0 < sn_id c')%nat
    /\ nth_error (nats_trace nats_connected ++ evs) (sn_id c')
       = Some (EvNatsConnect "nats://localhost:4222")
    /\ In (EvNatsDrain 0) evs.
Proof.
  exact (close_then_publish_reconnects sample_platform_stuck
           {| sn_url := "nats://localhost:4222"; sn_id := 0 |} nats_connected
           (CallCell "batch" [("throughput_tps", VFloat f42_5)])
           eq_refl eq_refl eq_refl eq_refl (le_n 1)).
Defined.

Lemma handle_wf_extend (P : platform) (c : SyncNats) (tr evs : history) :
  handle_wf P {| _nc := Some c; nats_trace := tr |} ->
  handle_wf P {| _nc := Some c; nats_trace := tr ++ evs |}.
Proof.
  unfold handle_wf. cbn [_nc nats_trace]. intros (Hu & Hn & Hf).
  assert (Hlt : (sn_id c < length tr)%nat).
  { apply nth_error_Some. congruence. }
  split; [exact Hu | split].
  - rewrite nth_error_app1 by exact Hlt. exact Hn.
  - rewrite firstn_app. replace (sn_id c - length tr)%nat with 0%nat by lia.
    cbn [firstn]. now rewrite app_nil_r.
Qed.

Lemma handle_wf_fresh (P : platform) (tr evs : history) :
  nats_connect P (NATS_URL P) tr = None ->
  handle_wf P {| _nc := Some {| sn_url := NATS_URL P; sn_id := length tr |};
                 nats_trace := (tr ++ [EvNatsConnect (NATS_URL P)]) ++ evs |}.
Proof.
  intros Hc. unfold handle_wf. cbn [_nc nats_trace sn_url sn_id].
  split; [reflexivity | split].
  - rewrite <- app_assoc. rewrite nth_error_app2 by lia. now rewrite Nat.sub_diag.
  - rewrite <- app_assoc, firstn_app, Nat.sub_diag, firstn_all. cbn [firstn].
    now rewrite app_nil_r.
Qed.

Lemma nats_do_wf (P : platform) (k : nats_call) (s : nats_state) :
  handle_wf P s ->
  fst (nats_do P k s) = Ret tt
  /\ handle_wf P (snd (nats_do P k s))
  /\ exists evs, nats_trace (snd (nats_do P k s)) = nats_trace s ++ evs.
Proof.
  intros Hwf. destruct (is_publish_call k) eqn:Hk.
  - destruct (nats_do_publish P k Hk) as (subject & payload & ->).
    destruct (_nc s) as [c|] eqn:Hc.
    + rewrite (safe_publish_connected P c subject payload s Hc). cbn [fst snd nats_trace].
      split; [reflexivity | split; [| eauto]].
      apply handle_wf_extend. destruct s as [nc tr]. cbn in Hc. now subst.
    + rewrite (safe_publish_failed_connect P subject payload s Hc). cbn [fst snd].
      split; [reflexivity |].
      destruct (nats_installed P) eqn:Hi.
      * destruct (nats_connect P (NATS_URL P) (nats_trace s)) eqn:Hconn.
        -- split; [exact I | eauto].
        -- rewrite (safe_publish_fresh_run P subject payload s Hc Hi Hconn).
           cbn [snd nats_trace]. split; [now apply handle_wf_fresh |].
           rewrite <- app_assoc. eauto.
      * split; [exact Hwf | exists []; now rewrite app_nil_r].
  - destruct k; try discriminate. cbn [nats_do].
    destruct (close_run P s) as [Hret Hnone].
    destruct (close_extends P s) as (evs & Htr & _).
    split; [exact Hret | split; [| eauto]].
    unfold handle_wf. now rewrite Hnone.
Qed.

(** X6.  Whatever the calls and whatever the broker does, the public API
    never raises, only appends to the history, and keeps the handle honest:
    a stored handle always points at a connect to the configured broker that
    is in the history and that succeeded. *)
Theorem script_keeps_handle_wf (P : platform) (calls : list nats_call)
    (s : nats_state) :
  handle_wf P s ->
  fst (nats_script P calls s) = Ret tt
  /\ handle_wf P (snd (nats_script P calls s))
  /\ exists evs, nats_trace (snd (nats_script P calls s)) = nats_trace s ++ evs.
Proof.
  revert s. induction calls as [|k calls IH]; intros s Hwf.
  - cbn. split; [reflexivity | split; [exact Hwf |]].
    exists []. now rewrite app_nil_r.
  - destruct (nats_do_wf P k s Hwf) as (Hret & Hwf1 & evs1 & Htr1).
    destruct (nats_do P k s) as [o s1] eqn:Hdo. cbn [fst snd] in *. subst o.
    destruct (IH s1 Hwf1) as (Hret2 & Hwf2 & evs2 & Htr2).
    cbn [nats_script]. erewrite bind_ret_run; [| exact Hdo].
    split; [exact Hret2 | split; [exact Hwf2 |]].
    exists (evs1 ++ evs2). now rewrite Htr2, Htr1, <- app_assoc.
Qed.

Lemma script_keeps_handle_wf_witness :
  let P := sample_platform "" true false broker_up publish_fails no_http no_files in
  let calls := [CallStarted "batch" "/models/m.gguf" []; CallClose;
                CallCell "batch" [("throughput_tps", VFloat f42_5)]] in
  fst (nats_script P calls nats_initial) = Ret tt
  /\ handle_wf P (snd (nats_script P calls nats_initial))
  /\ exists evs, nats_trace (snd (nats_script P calls nats_initial))
                 = nats_trace nats_initial ++ evs.
Proof.
  cbv zeta.
  exact (script_keeps_handle_wf
           (sample_platform "" true false broker_up publish_fails no_http no_files)
           _ nats_initial I).
Defined.

(** ** pmoves_nats_bridge: what goes on the wire *)

(** X7.  The start and completion messages of a sweep, sent on a connected
    adapter: each is one publish on its own subject whose bytes decode to an
    envelope carrying that subject as topic and, as payload, exactly the
    fields of the call in the order `sweep_type, model, config` and
    `sweep_type, best, csv_path, total_cells`. *)
Theorem lifecycle_messages_decode (P : platform) (c : SyncNats) (s : nats_state)
    (sweep_type model_path csv_path : string) (config best : pydict)
    (total_cells : Z) :
  _nc s = Some c ->
  json_exact (ft P) (VDict config) = true ->
  json_exact (ft P) (VDict best) = true ->
  let h := nats_trace s in
  let head subject :=
    [("id", VStr (uuid4 P h)); ("topic", VStr subject);
     ("ts", VStr (strftime ISO_Z (gmtime P h)));
     ("version", VStr "v1"); ("source", VStr "llama-throughput-lab")] in
  (exists body,
     snd (publish_started P sweep_type model_path config s) =
       {| _nc := Some c;
          nats_trace := h ++ publish_events P c h "llama.benchmark.started.v1" body |}
     /\ json_loads (ft P) body =
          Some (VDict (head "llama.benchmark.started.v1" ++
                  [("payload",
                    VDict [("sweep_type", VStr sweep_type);
                           ("model", VStr model_path);
                           ("config", as_json (VDict config))])])))
  /\ (exists body,
     snd (publish_completed P sweep_type best csv_path total_cells s) =
       {| _nc := Some c;
          nats_trace := h ++ publish_events P c h "llama.benchmark.completed.v1" body |}
     /\ json_loads (ft P) body =
          Some (VDict (head "llama.benchmark.completed.v1" ++
                  [("payload",
                    VDict [("sweep_type", VStr sweep_type);
                           ("best", as_json (VDict best));
                           ("csv_path", VStr csv_path);
                           ("total_cells", VInt total_cells)])]))).
Proof.
  intros Hc Hcfg Hbest h head. split.
  - eexists. split.
    + unfold publish_started.
      rewrite (safe_publish_connected P c _ _ s Hc). reflexivity.
    + rewrite envelope_decodes; [reflexivity |].
      change (forallb (fun kv => json_exact (ft P) (snd kv))
                [("sweep_type", VStr sweep_type); ("model", VStr model_path);
                 ("config", VDict config)]
              && bool_decide (NoDup ["sweep_type"; "model"; "config"]) = true).
      cbn [forallb snd]. change (json_exact (ft P) (VStr ?x)) with true.
      rewrite Hcfg. reflexivity.
  - eexists. split.
    + unfold publish_completed.
      rewrite (safe_publish_connected P c _ _ s Hc). reflexivity.
    + rewrite envelope_decodes; [reflexivity |].
      change (forallb (fun kv => json_exact (ft P) (snd kv))
                [("sweep_type", VStr sweep_type); ("best", VDict best);
                 ("csv_path", VStr csv_path); ("total_cells", VInt total_cells)]
              && bool_decide (NoDup ["sweep_type"; "best"; "csv_path"; "total_cells"])
              = true).
      cbn [forallb snd]. change (json_exact (ft P) (VStr ?x)) with true.
      change (json_exact (ft P) (VInt ?x)) with true.
      rewrite Hbest. reflexivity.
Qed.

Lemma lifecycle_messages_decode_witness :
  let P := sample_platform "" true false broker_up publish_ok no_http no_files in
  let h := nats_trace nats_connected in
  let c := {| sn_url := "nats://localhost:4222"; sn_id := 0 |} in
  let head subject :=
    [("id", VStr (uuid4 P h)); ("topic", VStr subject);
     ("ts", VStr (strftime ISO_Z (gmtime P h)));
     ("version", VStr "v1"); ("source", VStr "llama-throughput-lab")] in
  (exists body,
     snd (publish_started P "batch" "/models/m.gguf" [("n_batch", VTuple [VInt 8; VInt 16])]
            nats_connected) =
       {| _nc := Some c;
          nats_trace := h ++ publish_events P c h "llama.benchmark.started.v1" body |}
     /\ json_loads (ft P) body =
          Some (VDict (head "llama.benchmark.started.v1" ++
                  [("payload",
                    VDict [("sweep_type", VStr "batch");
                           ("model", VStr "/models/m.gguf");
                           ("config", VDict [("n_batch", VList [VInt 8; VInt 16])])])])))
  /\ (exists body,
     snd (publish_completed P "batch" [("throughput_tps", VFloat f42_5)] "/tmp/run.csv" 4
            nats_connected) =
       {| _nc := Some c;
          nats_trace := h ++ publish_events P c h "llama.benchmark.completed.v1" body |}
     /\ json_loads (ft P) body =
          Some (VDict (head "llama.benchmark.completed.v1" ++
                  [("payload",
                    VDict [("sweep_type", VStr "batch");
                           ("best", VDict [("throughput_tps", VFloat f42_5)]);
                           ("csv_path", VStr "/tmp/run.csv");
                           ("total_cells", VInt 4)])]))).
Proof.
  cbv zeta.
  exact (lifecycle_messages_decode
           (sample_platform "" true false broker_up publish_ok no_http no_files)
           {| sn_url := "nats://localhost:4222"; sn_id := 0 |} nats_connected
           "batch" "/models/m.gguf" "/tmp/run.csv"
           [("n_batch", VTuple [VInt 8; VInt 16])]
           [("throughput_tps", VFloat f42_5)] 4
           eq_refl eq_refl eq_refl).
Defined.

Lemma dict_get_split (k : string) (v : pyval) (d : pydict) :
  dict_get k d = Some v ->
  exists d1 d2, d = d1 ++ (k, v) :: d2 /\ k ∉ map fst d1.
Proof.
  induction d as [|[k' v'] d IH]; cbn [dict_get]; [discriminate |].
  destruct (String.eqb_spec k k') as [<-|Hne].
  - intros [= ->]. exists [], d. split; [reflexivity | apply not_elem_of_nil].
  - intros H. destruct (IH H) as (d1 & d2 & -> & Hk).
    exists ((k', v') :: d1), d2. split; [reflexivity |].
    cbn [map fst]. rewrite not_elem_of_cons. now split.
Qed.

Lemma filter_other_keys_fresh (k : string) (d : pydict) :
  k ∉ map fst d ->
  List.filter (fun kv => negb (String.eqb (fst kv) k)) d = d.
Proof.
  induction d as [|[k' v'] d IH]; cbn [List.filter map fst]; [reflexivity |].
  rewrite not_elem_of_cons. intros [Hne Hk].
  destruct (String.eqb_spec k' k); [congruence |]. cbn [negb]. now rewrite IH.
Qed.

(** X8.  The order of the payload of [publish_cell]: `sweep_type` is always
    its first key, also when the row brings its own value for it from
    further down, and the row's other keys follow in the row's order. *)
Theorem cell_payload_order (sweep_type : string) (row : pydict) :
  NoDup (map fst row) ->
  cell_payload sweep_type row =
    ("sweep_type", dict_get_default "sweep_type" (VStr sweep_type) row)
    :: List.filter (fun kv => negb (String.eqb (fst kv) "sweep_type")) row.
Proof.
  intros Hnd. unfold cell_payload, dict_get_default.
  destruct (dict_get "sweep_type" row) as [v|] eqn:Hget.
  - destruct (dict_get_split _ _ _ Hget) as (d1 & d2 & -> & Hk1).
    rewrite map_app in Hnd. cbn [map fst] in Hnd.
    apply NoDup_app in Hnd as (Hnd1 & Hdisj & Hnd2).
    apply NoDup_cons in Hnd2 as [Hk2 Hnd2].
    unfold dict_update. rewrite fold_left_app. cbn [fold_left fst snd].
    fold (dict_update [("sweep_type", VStr sweep_type)] d1).
    rewrite (dict_update_fresh d1 [("sweep_type", VStr sweep_type)]).
    2:{ cbn [app map fst]. apply NoDup_cons. now split. }
    cbn [app dict_set]. rewrite String.eqb_refl.
    fold (dict_update (("sweep_type", v) :: d1) d2).
    rewrite (dict_update_fresh d2 (("sweep_type", v) :: d1)).
    2:{ cbn [app map fst]. apply NoDup_cons. split.
        - rewrite map_app, elem_of_app. tauto.
        - rewrite map_app. apply NoDup_app. split; [exact Hnd1 | split; [| exact Hnd2]].
          intros x Hx Hx2. apply (Hdisj x Hx). apply elem_of_cons. now right. }
    rewrite List.filter_app. cbn [List.filter fst]. rewrite String.eqb_refl. cbn [negb].
    now rewrite !filter_other_keys_fresh by assumption.
  - apply dict_get_None in Hget.
    rewrite dict_update_fresh.
    2:{ cbn [app map fst]. apply NoDup_cons. now split. }
    cbn [app]. now rewrite filter_other_keys_fresh.
Qed.

Lemma cell_payload_order_witness :
  cell_payload "arg" [("batch", VInt 8); ("sweep_type", VStr "row-own"); ("ubatch", VInt 2)]
  = [("sweep_type", VStr "row-own"); ("batch", VInt 8); ("ubatch", VInt 2)].
Proof.
  refine (cell_payload_order "arg"
            [("batch", VInt 8); ("sweep_type", VStr "row-own"); ("ubatch", VInt 2)] _).
  cbn [map fst]. repeat constructor; rewrite ?elem_of_cons, ?elem_of_nil; intuition discriminate.
Defined.

(** ** pmoves_chit_bridge: every path of [archive_csv_to_minio] *)

(** The run stops after [n] of the four steps. *)
Ltac stop_after n up bytes :=
  solve [exists n, up, bytes; split; [lia |]; cbn [snd firstn];
         rewrite <- ?app_assoc; reflexivity].

(** X9.  Whatever the gateway, the store and the file system do,
    [archive_csv_to_minio] with a secret set performs a (non-empty) initial
    part of one fixed sequence and nothing else: the PUT presign request,
    the read of the file, the upload, the GET presign request.  It never
    sends more than three requests, never uploads before the gateway
    answered, and never asks for the download URL before the upload. *)
Theorem archive_actions_prefix (P : platform) (csv_path bucket : string)
    (object_key : option string) (h : history) :
  PRESIGN_SECRET P <> "" ->
  exists (n : nat) (upload_url : pyval) (bytes : string),
    (1 <= n <= 4)%nat
    /\ snd (archive_csv_to_minio P csv_path bucket object_key h) =
         h ++ firstn n (archive_steps P csv_path bucket
                          (archive_key csv_path object_key) upload_url bytes).
Proof.
  intros Hsecret. rewrite (archive_run P csv_path bucket object_key h Hsecret).
  cbv zeta. set (key := archive_key csv_path object_key).
  unfold archive_steps.
  destruct (urlopen P (presign_request P bucket key "PUT") 10 h) as [body1|e1|];
    try stop_after 1%nat VNone "".
  destruct (json_decode (ft P) body1) as [[| | | | | | |d1]|e|];
    try stop_after 1%nat VNone "".
  set (up := dict_get_default "url" VNone d1).
  destruct (truthy up); try stop_after 1%nat VNone "".
  destruct (read_file P csv_path _) as [bytes|e2|]; try stop_after 2%nat up "".
  destruct (Request__init__ (ft P) (upload_request up bytes)) as [r2|e|];
    try stop_after 2%nat up "".
  destruct (urlopen P (upload_request up bytes) 30 _) as [ans|e3|];
    try stop_after 3%nat up bytes.
  destruct (urlopen P (presign_request P bucket key "GET") 10 _) as [body3|e4|];
    try stop_after 4%nat up bytes.
  destruct (json_decode (ft P) body3) as [[| | | | | | |d3]|e|];
    stop_after 4%nat up bytes.
Qed.

Lemma archive_actions_prefix_witness :
  let P := sample_platform "s3cr3t" false false broker_down publish_ok
             gateway_stub no_files in
  exists (n : nat) (upload_url : pyval) (bytes : string),
    (1 <= n <= 4)%nat
    /\ snd (archive_csv_to_minio P "/tmp/run.csv" "outputs" None []) =
         [] ++ firstn n (archive_steps P "/tmp/run.csv" "outputs"
                           (archive_key "/tmp/run.csv" None) upload_url bytes).
Proof.
  cbv zeta.
  refine (archive_actions_prefix
            (sample_platform "s3cr3t" false false broker_down publish_ok
               gateway_stub no_files)
            "/tmp/run.csv" "outputs" None [] _).
  discriminate.
Defined.

(** X10.  [archive_csv_to_minio] degrades to [None] rather than raising as
    long as its peers behave the way the handler expects: every error of an
    HTTP exchange or of the file is an [OSError] (which [URLError] and
    [HTTPError] are), every answer of the gateway is a JSON object, and a
    non-empty `url` in it is one that [Request()] accepts (an absolute URL;
    for a URL without a scheme the [ValueError] of [Request()] leaves the
    function, see [archive_relative_upload_url]). *)
Theorem archive_degrades_gracefully (P : platform) (csv_path bucket : string)
    (object_key : option string) (h : history) :
  (forall req t h' e, http_answer P req t h' = Raise e -> isinstance e OSError = true) ->
  (forall req t h', http_answer P req t h' <> Beyond) ->
  (forall path h' e, read_file P path h' = Raise e -> isinstance e OSError = true) ->
  (forall path h', read_file P path h' <> Beyond) ->
  (forall req h' body,
     method req = "GET" -> http_answer P req 10 h' = Ret body ->
     exists d,
       json_loads (ft P) body = Some (VDict d)
       /\ (truthy (dict_get_default "url" VNone d) = true ->
           forall bytes,
             Request__init__ (ft P) (upload_request (dict_get_default "url" VNone d) bytes)
             = Ret (upload_request (dict_get_default "url" VNone d) bytes))) ->
  exists v, fst (archive_csv_to_minio P csv_path bucket object_key h) = Ret v.
Proof.
  intros Hreq Hreq' Hfile Hfile' Hjson.
  destruct (String.eqb_spec (PRESIGN_SECRET P) "") as [Hs|Hs].
  { unfold archive_csv_to_minio. rewrite Hs. cbn. eauto. }
  rewrite (archive_run P csv_path bucket object_key h Hs). cbv zeta.
  set (key := archive_key csv_path object_key).
  assert (Hp : forall meth t h',
             urlopen P (presign_request P bucket key meth) t h'
             = http_answer P (presign_request P bucket key meth) t h')
    by (intros; apply urlopen_accepted, presign_request_accepted).
  rewrite !Hp.
  destruct (http_answer P (presign_request P bucket key "PUT") 10 h)
    as [body1|e1|] eqn:E1;
    [| rewrite (Hreq _ _ _ _ E1); cbn; eauto | now destruct (Hreq' _ _ _ E1)].
  destruct (Hjson (presign_request P bucket key "PUT") _ _ eq_refl E1) as (d1 & J1 & A1).
  apply json_loads_Some in J1. rewrite J1.
  destruct (truthy _); [| cbn; eauto]. specialize (A1 eq_refl).
  destruct (read_file P csv_path _) as [bytes|e2|] eqn:E2;
    [| rewrite (Hfile _ _ _ E2); cbn; eauto | now destruct (Hfile' _ _ E2)].
  rewrite (A1 bytes), (urlopen_accepted P _ 30 _ (A1 bytes)).
  destruct (http_answer P (upload_request _ bytes) 30 _) as [ans|e3|] eqn:E3;
    [| rewrite (Hreq _ _ _ _ E3); cbn; eauto | now destruct (Hreq' _ _ _ E3)].
  rewrite Hp.
  destruct (http_answer P (presign_request P bucket key "GET") 10 _)
    as [body3|e4|] eqn:E4;
    [| rewrite (Hreq _ _ _ _ E4); cbn; eauto | now destruct (Hreq' _ _ _ E4)].
  destruct (Hjson (presign_request P bucket key "GET") _ _ eq_refl E4) as (d3 & J3 & _).
  apply json_loads_Some in J3. rewrite J3. cbn. eauto.
Qed.

(** A gateway that hands out the absolute URL u1, a store that accepts the
    upload, the file in place: the four steps run and the call returns. *)
Lemma archive_degrades_gracefully_witness :
  exists v,
    fst (archive_csv_to_minio
           (sample_platform "s3cr3t" false false broker_down publish_ok
              gateway_absolute csv_files)
           "/tmp/run.csv" "outputs" None []) = Ret v.
Proof.
  refine (archive_degrades_gracefully
            (sample_platform "s3cr3t" false false broker_down publish_ok
               gateway_absolute csv_files)
            "/tmp/run.csv" "outputs" None [] _ _ _ _ _).
  - intros req t h' e H. cbn in H. unfold gateway_absolute in H.
    destruct (String.eqb (method req) "PUT"); discriminate H.
  - intros req t h'. cbn. unfold gateway_absolute.
    destruct (String.eqb (method req) "PUT"); discriminate.
  - intros path h' e H. cbn in H. unfold csv_files in H.
    destruct (String.eqb path "/tmp/run.csv"); [discriminate H |].
    injection H as <-. reflexivity.
  - intros path h'. cbn. unfold csv_files.
    destruct (String.eqb path "/tmp/run.csv"); discriminate.
  - intros req h' body Hm H. cbn in H. unfold gateway_absolute in H.
    rewrite Hm in H. cbn in H. injection H as <-.
    exists [("url", VStr u1)]. split; [vm_compute; reflexivity |].
    intros _ bytes. vm_compute. reflexivity.
Defined.

(** The same gateway handing out a URL without a scheme: [Request()] refuses
    it with [ValueError], which the handler does not name, after the file
    was read and before anything is uploaded. *)
Example archive_relative_upload_url :
  let P := sample_platform "s3cr3t" false false broker_down publish_ok
             gateway_relative csv_files in
  archive_csv_to_minio P "/tmp/run.csv" "outputs" None [] =
    (Raise ValueError,
     [EvUrlopen (presign_request P "outputs" "llama-throughput-lab/run.csv" "PUT") 10;
      EvReadFile "/tmp/run.csv"]).
Proof. vm_compute. reflexivity. Qed.

(** X11.  When the gateway's answer to the first request is an object whose
    `url` is missing, null or empty, [archive_csv_to_minio] returns [None]
    after that one request: the file is never opened and nothing is
    uploaded. *)
Theorem archive_no_upload_url (P : platform) (csv_path bucket : string)
    (object_key : option string) (h : history) (body : string) (d : pydict) :
  PRESIGN_SECRET P <> "" ->
  let r1 := presign_request P bucket (archive_key csv_path object_key) "PUT" in
  urlopen P r1 10 h = Ret body ->
  json_loads (ft P) body = Some (VDict d) ->
  truthy (dict_get_default "url" VNone d) = false ->
  archive_csv_to_minio P csv_path bucket object_key h = (Ret VNone, h ++ [EvUrlopen r1 10]).
Proof.
  intros Hsecret r1 H1 J1 Hup. apply json_loads_Some in J1.
  rewrite (archive_run P csv_path bucket object_key h Hsecret). cbv zeta.
  fold r1. rewrite H1, J1, Hup. reflexivity.
Qed.

Lemma archive_no_upload_url_witness :
  let P := sample_platform "s3cr3t" false false broker_down publish_ok
             memory_stub csv_files in
  archive_csv_to_minio P "/tmp/run.csv" "outputs" None [] =
    (Ret VNone,
     [] ++ [EvUrlopen (presign_request P "outputs"
                         (archive_key "/tmp/run.csv" None) "PUT") 10]).
Proof.
  cbv zeta.
  refine (archive_no_upload_url
            (sample_platform "s3cr3t" false false broker_down publish_ok
               memory_stub csv_files)
            "/tmp/run.csv" "outputs" None []
            (json_dumps sample_ft (VDict [("ok", VBool true)]))
            [("ok", VBool true)] _ eq_refl _ eq_refl).
  - discriminate.
  - vm_compute. reflexivity.
Defined.

(** X12.  When the file cannot be read after the gateway gave an upload
    URL, nothing is uploaded and no download URL is asked for; the call
    returns [None] when the error is an [OSError] (a missing file, say) and
    lets any other error through. *)
Theorem archive_unreadable_file (P : platform) (csv_path bucket : string)
    (object_key : option string) (h : history) (body : string) (d : pydict)
    (e : exc_class) :
  PRESIGN_SECRET P <> "" ->
  let r1 := presign_request P bucket (archive_key csv_path object_key) "PUT" in
  urlopen P r1 10 h = Ret body ->
  json_loads (ft P) body = Some (VDict d) ->
  truthy (dict_get_default "url" VNone d) = true ->
  read_file P csv_path (h ++ [EvUrlopen r1 10]) = Raise e ->
  archive_csv_to_minio P csv_path bucket object_key h =
    (if isinstance e OSError then Ret VNone else Raise e,
     h ++ [EvUrlopen r1 10; EvReadFile csv_path]).
Proof.
  intros Hsecret r1 H1 J1 Hup Hread. apply json_loads_Some in J1.
  rewrite (archive_run P csv_path bucket object_key h Hsecret). cbv zeta.
  fold r1. rewrite H1, J1, Hup, Hread. now rewrite <- app_assoc.
Qed.

Lemma archive_unreadable_file_witness :
  let P := sample_platform "s3cr3t" false false broker_down publish_ok
             gateway_stub no_files in
  archive_csv_to_minio P "/tmp/run.csv" "outputs" None [] =
    (Ret VNone,
     [] ++ [EvUrlopen (presign_request P "outputs"
                         (archive_key "/tmp/run.csv" None) "PUT") 10;
            EvReadFile "/tmp/run.csv"]).
Proof.
  cbv zeta.
  refine (archive_unreadable_file
            (sample_platform "s3cr3t" false false broker_down publish_ok
               gateway_stub no_files)
            "/tmp/run.csv" "outputs" None []
            (json_dumps sample_ft (VDict [("url", VStr u1)]))
            [("url", VStr u1)] FileNotFoundError _ _ _ eq_refl eq_refl).
  - discriminate.
  - vm_compute. reflexivity.
  - vm_compute. reflexivity.
Defined.

(** X13.  A gateway answer that is JSON but not an object (an array, a
    string, a number, null) makes `data.get` fail: the [AttributeError]
    leaves [archive_csv_to_minio], whose handler does not name it, after the
    first request. *)
Theorem archive_non_object_answer (P : platform) (csv_path bucket : string)
    (object_key : option string) (h : history) (body : string) (v : pyval) :
  PRESIGN_SECRET P <> "" ->
  let r1 := presign_request P bucket (archive_key csv_path object_key) "PUT" in
  urlopen P r1 10 h = Ret body ->
  json_loads (ft P) body = Some v ->
  (forall d, v <> VDict d) ->
  archive_csv_to_minio P csv_path bucket object_key h =
    (Raise AttributeError, h ++ [EvUrlopen r1 10]).
Proof.
  intros Hsecret r1 H1 J1 Hv. apply json_loads_Some in J1.
  rewrite (archive_run P csv_path bucket object_key h Hsecret). cbv zeta.
  fold r1. rewrite H1, J1.
  destruct v; try reflexivity. now destruct (Hv d).
Qed.

Lemma archive_non_object_answer_witness :
  let P := sample_platform "s3cr3t" false false broker_down publish_ok
             array_stub csv_files in
  archive_csv_to_minio P "/tmp/run.csv" "outputs" None [] =
    (Raise AttributeError,
     [] ++ [EvUrlopen (presign_request P "outputs"
                         (archive_key "/tmp/run.csv" None) "PUT") 10]).
Proof.
  cbv zeta.
  refine (archive_non_object_answer
            (sample_platform "s3cr3t" false false broker_down publish_ok
               array_stub csv_files)
            "/tmp/run.csv" "outputs" None [] "[]" (VList []) _ eq_refl _ _).
  - discriminate.
  - vm_compute. reflexivity.
  - discriminate.
Defined.

(** X14.  An upload that went through can still end in [None]: when the
    answer to the last request is an object without a `url`, the function
    returns [None], the value it also returns when nothing was uploaded,
    although the file is in the store. *)
Theorem archive_uploaded_without_download_url (P : platform) (csv_path bucket : string)
    (object_key : option string) (h : history)
    (body1 body3 bytes put_answer : string) (d1 d3 : pydict) :
  PRESIGN_SECRET P <> "" ->
  let key := archive_key csv_path object_key in
  let up := dict_get_default "url" VNone d1 in
  let steps := archive_steps P csv_path bucket key up bytes in
  urlopen P (presign_request P bucket key "PUT") 10 h = Ret body1 ->
  json_loads (ft P) body1 = Some (VDict d1) ->
  truthy up = true ->
  read_file P csv_path (h ++ firstn 1 steps) = Ret bytes ->
  urlopen P (upload_request up bytes) 30 (h ++ firstn 2 steps) = Ret put_answer ->
  urlopen P (presign_request P bucket key "GET") 10 (h ++ firstn 3 steps) = Ret body3 ->
  json_loads (ft P) body3 = Some (VDict d3) ->
  dict_get "url" d3 = None ->
  archive_csv_to_minio P csv_path bucket object_key h = (Ret VNone, h ++ steps)
  /\ In (EvUrlopen (upload_request up bytes) 30) steps.
Proof.
  intros Hsecret key up steps H1 J1 Hup Hread Hput H3 J3 Hno.
  split; [| unfold steps, archive_steps; cbn; tauto].
  apply json_loads_Some in J1. apply json_loads_Some in J3.
  rewrite (archive_run P csv_path bucket object_key h Hsecret). cbv zeta.
  fold key. unfold steps, archive_steps in *. cbn [firstn] in *.
  rewrite H1, J1. fold up. rewrite Hup, Hread.
  rewrite (urlopen_ret_accepted P _ _ _ _ Hput).
  rewrite <- app_assoc. cbn [app]. rewrite Hput.
  rewrite <- app_assoc. cbn [app]. rewrite H3, J3.
  unfold dict_get_default at 1. rewrite Hno.
  rewrite <- app_assoc. reflexivity.
Qed.

Lemma archive_uploaded_without_download_url_witness :
  let P := sample_platform "s3cr3t" false false broker_down publish_ok
             gateway_put_only csv_files in
  let steps := archive_steps P "/tmp/run.csv" "outputs"
                 (archive_key "/tmp/run.csv" None) (VStr u1) "batch,throughput" in
  archive_csv_to_minio P "/tmp/run.csv" "outputs" None [] = (Ret VNone, [] ++ steps)
  /\ In (EvUrlopen (upload_request (VStr u1) "batch,throughput") 30) steps.
Proof.
  cbv zeta.
  refine (archive_uploaded_without_download_url
            (sample_platform "s3cr3t" false false broker_down publish_ok
               gateway_put_only csv_files)
            "/tmp/run.csv" "outputs" None []
            (json_dumps sample_ft (VDict [("url", VStr u1)])) "{}"
            "batch,throughput" "" [("url", VStr u1)] [] _ _ _ _ _ _ _ _ _);
    try (vm_compute; reflexivity).
  discriminate.
Defined.

(** ** pmoves_chit_bridge: [_post_json] and [store_reasoning] *)

Lemma Request_init_raises (ft : float_text) (r : Request) (e : exc_class) :
  Request__init__ ft r = Raise e -> e = ValueError.
Proof.
  unfold Request__init__. destruct (negb _); [now intros [= <-] |].
  destruct (existsb _ _); discriminate.
Qed.

Lemma decode_body_raises (b : list ascii) (e : exc_class) :
  decode_body b = Raise e -> e = UnicodeDecodeError.
Proof.
  unfold decode_body, decode_utf8.
  destruct (detect_encoding b); [| | discriminate].
  - destruct (utf8_valid b); [| now intros [= <-]].
    destruct (utf8_narrow b); discriminate.
  - destruct (utf8_valid (skipn 3 b)); [| now intros [= <-]].
    destruct (utf8_narrow (skipn 3 b)); discriminate.
Qed.

(** X15.  Every outcome of [_post_json], for a payload of JSON values and
    within the text the model reaches (characters below U+0100; the value
    [Beyond] marks what lies outside).  A URL that [Request()] refuses makes
    it raise [ValueError] before anything is sent.  Otherwise it sends
    exactly one request, and: an error of class [OSError] (among them
    [URLError] and [HTTPError]) gives [None], an error of any other class
    leaves the function; an answer that is not well-formed UTF-8 raises
    [UnicodeDecodeError] to the caller; an answer that is JSON is returned
    decoded, so that `null` gives the same [None] as a failure does; a text
    that is not JSON gives [None]. *)
Theorem post_json_outcomes (P : platform) (u : string) (payload : pydict) (t : Z)
    (h : history) :
  let req := post_request P u payload in
  let sent := h ++ [EvUrlopen req t] in
  _post_json P u payload t h =
    match Request__init__ (ft P) req with
    | Raise e => (Raise e, h)
    | Beyond => (Beyond, h)
    | Ret _ =>
        match http_answer P req t h with
        | Raise e =>
            (if isinstance e OSError || isinstance e JSONDecodeError
             then Ret VNone else Raise e, sent)
        | Beyond => (Beyond, sent)
        | Ret body =>
            match decode_body (chars body) with
            | Raise e => (Raise e, sent)
            | Beyond => (Beyond, sent)
            | Ret text =>
                match parse_text (ft P) text with
                | Some v => (Ret v, sent)
                | None => (if wide_escape text then Beyond else Ret VNone, sent)
                end
            end
        end
    end
  /\ (forall e, Request__init__ (ft P) req = Raise e -> e = ValueError)
  /\ (forall body e, decode_body (chars body) = Raise e -> e = UnicodeDecodeError).
Proof.
  cbv zeta. split; [| split; [apply Request_init_raises | intros body; apply decode_body_raises]].
  rewrite post_json_run. cbv zeta. unfold urlopen.
  destruct (Request__init__ (ft P) (post_request P u payload)) as [r|e|] eqn:E;
    [| now rewrite (Request_init_raises _ _ _ E) | reflexivity].
  destruct (http_answer P (post_request P u payload) t h) as [body|e|]; try reflexivity.
  unfold json_decode.
  destruct (decode_body (chars body)) as [text|e|] eqn:D;
    [| now rewrite (decode_body_raises _ _ D) | reflexivity].
  destruct (parse_text (ft P) text); [reflexivity |].
  now destruct (wide_escape text).
Qed.

(** The answers at the edge of [_post_json]: bytes that are no UTF-8 raise
    [UnicodeDecodeError] to the caller; a page that is text but no JSON
    gives [None]; a string with an escape at U+4E2D is valid JSON whose
    value lies outside the model's text. *)
Example post_json_edge_answers :
  let P http := sample_platform "" false false broker_down publish_ok http no_files in
  let u := "http://localhost:8096/api/memory" in
  let quoted s := String (chr 34) (s +:+ String (chr 34) "") in
  fst (_post_json (P (fun _ _ _ => Ret (String (chr 255) ""))) u [] 10 [])
    = Raise UnicodeDecodeError
  /\ fst (_post_json (P html_stub) u [] 10 []) = Ret VNone
  /\ fst (_post_json (P (fun _ _ _ => Ret (quoted "\u4e2d"))) u [] 10 []) = Beyond
  /\ fst (_post_json (P (fun _ _ _ => Ret (quoted "\u00e9"))) u [] 10 [])
       = Ret (VStr (String (chr 233) ""))
  /\ _post_json (P memory_stub) "/api/memory" [] 10 [] = (Raise ValueError, []).
Proof. cbv zeta. repeat apply conj; vm_compute; reflexivity. Qed.

Lemma json_exact_get (ft : float_text) (d : pydict) (k : string) (v : pyval) :
  json_exact ft (VDict d) = true -> dict_get k d = Some v -> json_exact ft v = true.
Proof.
  cbn [json_exact]. intros H. apply andb_prop in H as [H _]. revert H.
  induction d as [|[k' v'] d IH]; cbn [forallb dict_get snd]; [discriminate |].
  intros H. apply andb_prop in H as [Hv Hd].
  destruct (String.eqb k k'); [now intros [= <-] | now apply IH].
Qed.

Lemma filter_keys_subset (f : string * pyval -> bool) (d : pydict) (k : string) :
  k ∈ map fst (List.filter f d) -> k ∈ map fst d.
Proof.
  induction d as [|kv d IH]; cbn [List.filter map]; [easy |].
  destruct (f kv); cbn [map]; rewrite ?elem_of_cons; intuition.
Qed.

Lemma json_exact_filter (ft : float_text) (f : string * pyval -> bool) (d : pydict) :
  json_exact ft (VDict d) = true -> json_exact ft (VDict (List.filter f d)) = true.
Proof.
  cbn [json_exact]. intros H. apply andb_prop in H as [Hv Hnd].
  apply bool_decide_eq_true in Hnd. apply andb_true_intro. split.
  - clear Hnd. induction d as [|kv d IH]; cbn [List.filter forallb] in *; [reflexivity |].
    apply andb_prop in Hv as [H1 H2].
    destruct (f kv); cbn [forallb]; [rewrite H1 |]; now apply IH.
  - apply bool_decide_eq_true. clear Hv.
    induction d as [|kv d IH]; cbn [List.filter map] in *; [constructor |].
    apply NoDup_cons in Hnd as [Hk Hnd].
    destruct (f kv); cbn [map]; [| now apply IH].
    apply NoDup_cons. split; [| now apply IH].
    intros Hin. apply Hk. now apply filter_keys_subset in Hin.
Qed.

Lemma reasoning_record_exact (P : platform) (sweep_type model_path : string)
    (best : pydict) (csv_path : string) (gpu_type : option string) (thr : string)
    (now : struct_time) :
  json_exact (ft P) (VDict best) = true ->
  json_exact (ft P)
    (VDict (reasoning_record P sweep_type model_path best csv_path gpu_type thr now)) = true.
Proof.
  intros Hbest.
  assert (Hthr : json_exact (ft P) (best_throughput best) = true).
  { unfold best_throughput, dict_get_default.
    destruct (dict_get "throughput" best) eqn:E; [| reflexivity].
    exact (json_exact_get _ _ _ _ Hbest E). }
  assert (Hcfg : json_exact (ft P) (VDict (best_config_of best)) = true)
    by now apply json_exact_filter.
  unfold reasoning_record. cbv zeta.
  destruct gpu_type as [g|]; [destruct (String.eqb g "") |];
    cbn [dict_set String.eqb Ascii.eqb Bool.eqb];
    cbn [json_exact forallb snd map fst]; cbn [json_exact] in Hcfg;
    rewrite Hthr, Hcfg; reflexivity.
Qed.

(** X16.  What the memory API receives from [store_reasoning]: the body of
    the one POST is JSON text that decodes to the record (tuples as lists);
    in it `metadata.best_config` is [best] without `throughput`,
    `metadata.gpu_type` is present exactly when a non-empty [gpu_type] was
    given, and `metadata.timestamp` parses as the UTC time of the call. *)
Theorem store_reasoning_body_decodes (P : platform) (sweep_type model_path : string)
    (best : pydict) (csv_path : string) (gpu_type : option string) (h : history)
    (thr : string) :
  format_1f (best_throughput best) = Ret thr ->
  json_exact (ft P) (VDict best) = true ->
  valid_gmtime (gmtime P h) ->
  let ts := strftime ISO_Z (gmtime P h) in
  exists body record metadata,
    snd (store_reasoning P sweep_type model_path best csv_path gpu_type h) =
      h ++ [EvUrlopen {| url := VStr (CIPHER_MEMORY_URL P +:+ "/api/memory");
                         data := Some body;
                         headers := [("Content-Type", "application/json")];
                         method := "POST" |} 10]
    /\ json_loads (ft P) body = Some (VDict record)
    /\ map fst record = ["type"; "domain"; "content"; "metadata"]
    /\ dict_get "metadata" record = Some (VDict metadata)
    /\ dict_get "best_config" metadata = Some (as_json (VDict (best_config_of best)))
    /\ dict_get "gpu_type" metadata =
         match gpu_type with
         | Some g => if String.eqb g "" then None else Some (VStr g)
         | None => None
         end
    /\ dict_get "timestamp" metadata = Some (VStr ts)
    /\ parse_iso8601_z ts = Some (gmtime P h).
Proof.
  intros Hfmt Hbest Ht. cbv zeta.
  pose proof (reasoning_record_exact P sweep_type model_path best csv_path gpu_type
                thr (gmtime P h) Hbest) as Hrec.
  eexists _, _, _. split; [| split; [| repeat apply conj]].
  - unfold store_reasoning. unfold bind at 1. unfold lift_outcome at 1.
    rewrite Hfmt. unfold bind, get_state.
    rewrite post_json_history by apply post_request_accepted. reflexivity.
  - unfold encode. rewrite (json_loads_dumps _ _ Hrec).
    unfold reasoning_record. cbv zeta. cbn [as_json map fst snd]. reflexivity.
  - reflexivity.
  - reflexivity.
  - destruct gpu_type as [g|]; [destruct (String.eqb g "") |]; reflexivity.
  - destruct gpu_type as [g|]; [destruct (String.eqb g "") eqn:E |]; reflexivity.
  - destruct gpu_type as [g|]; [destruct (String.eqb g "") |]; reflexivity.
  - now apply parse_iso8601_strftime.
Qed.

Lemma store_reasoning_body_decodes_witness :
  let P := sample_platform "" false false broker_down publish_ok memory_stub no_files in
  exists body record metadata,
    snd (store_reasoning P "batch" "/models/m.gguf"
           [("throughput", VFloat f42_5); ("n_batch", VInt 8)] "/tmp/run.csv"
           (Some "rtx4090") []) =
      [] ++ [EvUrlopen {| url := VStr (CIPHER_MEMORY_URL P +:+ "/api/memory");
                          data := Some body;
                          headers := [("Content-Type", "application/json")];
                          method := "POST" |} 10]
    /\ json_loads (ft P) body = Some (VDict record)
    /\ map fst record = ["type"; "domain"; "content"; "metadata"]
    /\ dict_get "metadata" record = Some (VDict metadata)
    /\ dict_get "best_config" metadata =
         Some (as_json (VDict (best_config_of
                                 [("throughput", VFloat f42_5); ("n_batch", VInt 8)])))
    /\ dict_get "gpu_type" metadata = Some (VStr "rtx4090")
    /\ dict_get "timestamp" metadata = Some (VStr (strftime ISO_Z (gmtime P [])))
    /\ parse_iso8601_z (strftime ISO_Z (gmtime P [])) = Some (gmtime P []).
Proof.
  cbv zeta.
  refine (store_reasoning_body_decodes
            (sample_platform "" false false broker_down publish_ok memory_stub no_files)
            "batch" "/models/m.gguf"
            [("throughput", VFloat f42_5); ("n_batch", VInt 8)] "/tmp/run.csv"
            (Some "rtx4090") [] "42.5" eq_refl eq_refl _).
  unfold valid_gmtime. vm_compute. intuition discriminate.
Defined.

(** X17.  A [best] without the key `throughput` (a row that names it
    `throughput_tps`, say): [store_reasoning] still posts, the summary line
    reads `0.0 tok/s`, `best_throughput_tps` is the integer 0, and
    `best_config` is the whole of [best]. *)
Theorem store_reasoning_without_throughput (P : platform)
    (sweep_type model_path : string) (best : pydict) (csv_path : string)
    (gpu_type : option string) (h : history) :
  dict_get "throughput" best = None ->
  let record := reasoning_record P sweep_type model_path best csv_path gpu_type "0.0"
                  (gmtime P h) in
  store_reasoning P sweep_type model_path best csv_path gpu_type h =
    _post_json P (CIPHER_MEMORY_URL P +:+ "/api/memory") record 10 h
  /\ dict_get "content" record =
       Some (VStr ("Model " +:+ basename model_path +:+ " achieves 0.0 tok/s at "
                   +:+ str_join ", "
                         (map (fun kv => fst kv +:+ "=" +:+ py_str (ft P) (snd kv)) best)))
  /\ exists metadata,
       dict_get "metadata" record = Some (VDict metadata)
       /\ dict_get "best_throughput_tps" metadata = Some (VInt 0)
       /\ dict_get "best_config" metadata = Some (VDict best).
Proof.
  intros Hno.
  assert (Hthr : best_throughput best = VInt 0).
  { unfold best_throughput, dict_get_default. now rewrite Hno. }
  assert (Hcfg : best_config_of best = best).
  { apply filter_other_keys_fresh. now apply dict_get_None. }
  cbv zeta. split; [| split].
  - unfold store_reasoning. rewrite Hthr. reflexivity.
  - unfold reasoning_record, content_line. cbv zeta. rewrite Hcfg. reflexivity.
  - unfold reasoning_record. cbv zeta. rewrite Hthr, Hcfg.
    eexists. split; [reflexivity |].
    destruct gpu_type as [g|]; [destruct (String.eqb g "") |]; split; reflexivity.
Qed.

Lemma store_reasoning_without_throughput_witness :
  let P := sample_platform "" false false broker_down publish_ok memory_stub no_files in
  let best := [("throughput_tps", VFloat f42_5); ("n_batch", VInt 8)] in
  let record := reasoning_record P "batch" "/models/m.gguf" best "/tmp/run.csv" None "0.0"
                  (gmtime P []) in
  store_reasoning P "batch" "/models/m.gguf" best "/tmp/run.csv" None [] =
    _post_json P (CIPHER_MEMORY_URL P +:+ "/api/memory") record 10 []
  /\ dict_get "content" record =
       Some (VStr ("Model " +:+ basename "/models/m.gguf" +:+ " achieves 0.0 tok/s at "
                   +:+ str_join ", "
                         (map (fun kv => fst kv +:+ "=" +:+ py_str (ft P) (snd kv)) best)))
  /\ exists metadata,
       dict_get "metadata" record = Some (VDict metadata)
       /\ dict_get "best_throughput_tps" metadata = Some (VInt 0)
       /\ dict_get "best_config" metadata = Some (VDict best).
Proof.
  cbv zeta.
  exact (store_reasoning_without_throughput
           (sample_platform "" false false broker_down publish_ok memory_stub no_files)
           "batch" "/models/m.gguf"
           [("throughput_tps", VFloat f42_5); ("n_batch", VInt 8)] "/tmp/run.csv"
           None [] eq_refl).
Defined.

(** ** pmoves_chit_bridge: paths and query strings *)

Lemma count_safe (n : N) (l : list ascii) :
  (n = 38 \/ n = 61)%N ->
  forallb url_safe_char l = true ->
  length (List.filter (fun c => (code c =? n)%N) l) = 0%nat.
Proof.
  intros Hn. induction l as [|c l IH]; cbn [forallb List.filter]; [reflexivity |].
  intros H. apply andb_prop in H as [Hc Hl].
  destruct (url_safe_not_separator c Hc) as [H38 H61].
  destruct Hn as [-> | ->]; [rewrite H38 | rewrite H61]; now apply IH.
Qed.

Lemma count_pair (n : N) (k v : string) :
  (n = 38 \/ n = 61)%N ->
  length (List.filter (fun c => (code c =? n)%N)
            (chars (quote_plus k +:+ "=" +:+ quote_plus v))) =
    if (n =? 61)%N then 1%nat else 0%nat.
Proof.
  intros Hn. rewrite !chars_append, !List.filter_app, !length_app.
  rewrite !(count_safe n _ Hn (quote_plus_safe _)).
  destruct Hn as [-> | ->]; reflexivity.
Qed.

(** X18.  The query string that [urlencode] builds cannot be broken by its
    inputs: whatever the keys and values (a bucket or an object key with
    [&], [=], spaces or slashes), the text has one [=] per pair and one [&]
    between two pairs, nothing more; a value cannot add a parameter. *)
Theorem urlencode_separators (d : list (string * string)) :
  count_code 61 (urlencode d) = length d
  /\ count_code 38 (urlencode d) = Nat.pred (length d).
Proof.
  unfold count_code, urlencode, str_join.
  rewrite list_ascii_of_string_of_list_ascii, map_map.
  induction d as [|[k v] d IH]; [split; reflexivity |].
  destruct IH as [IH61 IH38]. cbn [map fst snd] in *.
  destruct d as [|kv d].
  - cbn [map join_chars length Nat.pred].
    rewrite !count_pair by tauto. split; reflexivity.
  - cbn [map join_chars] in *. cbn [length Nat.pred] in *.
    rewrite !List.filter_app, !length_app.
    rewrite !count_pair by tauto. rewrite IH61, IH38. split; reflexivity.
Qed.

Lemma after_last_slash_app (d n : list ascii) :
  existsb is_slash n = false ->
  after_last_slash (d ++ chr 47 :: n) = n.
Proof.
  intros Hn. induction d as [|c d IH]; cbn [app after_last_slash].
  - now rewrite Hn.
  - rewrite existsb_app. cbn [existsb].
    replace (is_slash (chr 47)) with true by reflexivity.
    now rewrite orb_true_r.
Qed.

Lemma after_last_slash_none (n : list ascii) :
  existsb is_slash n = false -> after_last_slash n = n.
Proof.
  destruct n as [|c n]; [reflexivity |]. cbn [existsb after_last_slash].
  intros H. apply orb_false_elim in H as [Hc Hn]. now rewrite Hn, Hc.
Qed.

Lemma after_last_slash_free (s : list ascii) :
  existsb is_slash (after_last_slash s) = false.
Proof.
  induction s as [|c s IH]; [reflexivity |]. cbn [after_last_slash].
  destruct (existsb is_slash s) eqn:E; [exact IH |].
  destruct (is_slash c) eqn:Ec; [exact E |]. cbn [existsb]. now rewrite Ec, E.
Qed.

(** X19.  [os.path.basename] as the two callers use it: the result never
    holds a slash; a path `dir/name` gives `name`, a bare name gives itself;
    so the default object key of an archive is the fixed prefix followed by
    the file's name, whatever directory the file is in. *)
Theorem basename_of_path (dir name : string) :
  existsb is_slash (chars name) = false ->
  basename (dir +:+ "/" +:+ name) = name
  /\ basename name = name
  /\ default_object_key (dir +:+ "/" +:+ name) = "llama-throughput-lab/" +:+ name
  /\ forall p, existsb is_slash (chars (basename p)) = false.
Proof.
  intros Hn.
  assert (H1 : basename (dir +:+ "/" +:+ name) = name).
  { unfold basename. rewrite !chars_append.
    change (chars "/") with [chr 47]. cbn [app].
    rewrite after_last_slash_app by exact Hn. apply string_of_list_ascii_of_string. }
  split; [exact H1 | split; [| split]].
  - unfold basename. rewrite after_last_slash_none by exact Hn.
    apply string_of_list_ascii_of_string.
  - unfold default_object_key. now rewrite H1.
  - intros p. unfold basename. rewrite list_ascii_of_string_of_list_ascii.
    apply after_last_slash_free.
Qed.

Lemma basename_of_path_witness :
  basename ("/data/runs" +:+ "/" +:+ "run.csv") = "run.csv"
  /\ basename "run.csv" = "run.csv"
  /\ default_object_key ("/data/runs" +:+ "/" +:+ "run.csv")
     = "llama-throughput-lab/" +:+ "run.csv"
  /\ forall p, existsb is_slash (chars (basename p)) = false.
Proof.
  exact (basename_of_path "/data/runs" "run.csv" eq_refl).
Defined.

(** ** pmoves_metrics: series of calls *)

(** The run of [update_sweep] when the library is there. *)
Lemma update_sweep_run (P : platform) (model sweep_type : string) (v : spec_float)
    (s : metrics_state) :
  prom_installed P = true ->
  update_sweep P model sweep_type v s =
    (Ret tt,
     {| reg :=
          {| THROUGHPUT_TPS := THROUGHPUT_TPS (reg s);
             SWEEPS_TOTAL :=
               counter_add sweep_type 1 (counter_labels sweep_type (SWEEPS_TOTAL (reg s)));
             ERRORS_TOTAL := ERRORS_TOTAL (reg s);
             LAST_SWEEP_TS := Some (time_time P (metrics_trace s));
             BEST_THROUGHPUT := <[(model, sweep_type) := v]> (BEST_THROUGHPUT (reg s)) |};
        _server := _server s;
        metrics_trace := metrics_trace s |}).
Proof.
  intros H. unfold update_sweep, _HAS_PROM. rewrite H. cbn [negb].
  destruct s as [r srv tr]. reflexivity.
Qed.

Lemma update_sweep_sweeps (P : platform) (model sweep_type : string) (v : spec_float)
    (s : metrics_state) (k : string) :
  prom_installed P = true ->
  counter_value k (SWEEPS_TOTAL (reg (snd (update_sweep P model sweep_type v s)))) =
    counter_value k (SWEEPS_TOTAL (reg s)) + (if String.eqb sweep_type k then 1 else 0).
Proof.
  intros H. rewrite update_sweep_run by assumption. cbn [snd reg SWEEPS_TOTAL].
  rewrite counter_value_add, !counter_value_labels.
  destruct (decide (sweep_type = k)) as [->|Hne].
  - now rewrite String.eqb_refl.
  - apply String.eqb_neq in Hne. rewrite Hne. lia.
Qed.

Lemma update_cell_sweeps (P : platform) (model sweep_type config : string)
    (v : spec_float) (errors : Z) (s : metrics_state) :
  SWEEPS_TOTAL (reg (snd (update_cell P model sweep_type config v errors s))) =
    SWEEPS_TOTAL (reg s).
Proof.
  destruct (prom_installed P) eqn:H.
  - rewrite update_cell_run by assumption. cbn zeta.
    destruct (errors =? 0); [reflexivity |]. now destruct (errors <? 0).
  - unfold update_cell, _HAS_PROM. now rewrite H.
Qed.

(** X20.  [update_sweep] with the metrics library imported: the sweep
    counter of [sweep_type] goes up by one and no other, the time stamp
    gauge takes the clock of the call, the best-throughput gauge of (model,
    sweep_type) takes the given value and no other series of it changes,
    and the per-cell gauge and the error counters are left alone. *)
Theorem update_sweep_effect (P : platform) (model sweep_type : string)
    (v : spec_float) (s : metrics_state) :
  prom_installed P = true ->
  let s' := snd (update_sweep P model sweep_type v s) in
  fst (update_sweep P model sweep_type v s) = Ret tt
  /\ counter_value sweep_type (SWEEPS_TOTAL (reg s')) =
       counter_value sweep_type (SWEEPS_TOTAL (reg s)) + 1
  /\ (forall k, k <> sweep_type ->
        counter_value k (SWEEPS_TOTAL (reg s')) = counter_value k (SWEEPS_TOTAL (reg s)))
  /\ LAST_SWEEP_TS (reg s') = Some (time_time P (metrics_trace s))
  /\ BEST_THROUGHPUT (reg s') !! (model, sweep_type) = Some v
  /\ (forall k, k <> (model, sweep_type) ->
        BEST_THROUGHPUT (reg s') !! k = BEST_THROUGHPUT (reg s) !! k)
  /\ THROUGHPUT_TPS (reg s') = THROUGHPUT_TPS (reg s)
  /\ ERRORS_TOTAL (reg s') = ERRORS_TOTAL (reg s)
  /\ _server s' = _server s
  /\ metrics_trace s' = metrics_trace s.
Proof.
  intros H. cbv zeta. repeat apply conj.
  - now rewrite update_sweep_run.
  - rewrite update_sweep_sweeps by assumption. now rewrite String.eqb_refl.
  - intros k Hk. rewrite update_sweep_sweeps by assumption.
    destruct (String.eqb_spec sweep_type k); [congruence | lia].
  - now rewrite update_sweep_run.
  - rewrite update_sweep_run by assumption. apply lookup_insert_eq.
  - intros k Hk. rewrite update_sweep_run by assumption.
    cbn [snd reg BEST_THROUGHPUT]. now apply lookup_insert_ne.
  - now rewrite update_sweep_run.
  - now rewrite update_sweep_run.
  - now rewrite update_sweep_run.
  - now rewrite update_sweep_run.
Qed.

Lemma update_sweep_effect_witness :
  let P := sample_platform "" false true broker_down publish_ok no_http no_files in
  let s' := snd (update_sweep P "m.gguf" "batch" f42_5 metrics_initial) in
  fst (update_sweep P "m.gguf" "batch" f42_5 metrics_initial) = Ret tt
  /\ counter_value "batch" (SWEEPS_TOTAL (reg s')) =
       counter_value "batch" (SWEEPS_TOTAL (reg metrics_initial)) + 1
  /\ (forall k, k <> "batch" ->
        counter_value k (SWEEPS_TOTAL (reg s'))
        = counter_value k (SWEEPS_TOTAL (reg metrics_initial)))
  /\ LAST_SWEEP_TS (reg s') = Some (time_time P (metrics_trace metrics_initial))
  /\ BEST_THROUGHPUT (reg s') !! ("m.gguf", "batch") = Some f42_5
  /\ (forall k, k <> ("m.gguf", "batch") ->
        BEST_THROUGHPUT (reg s') !! k = BEST_THROUGHPUT (reg metrics_initial) !! k)
  /\ THROUGHPUT_TPS (reg s') = THROUGHPUT_TPS (reg metrics_initial)
  /\ ERRORS_TOTAL (reg s') = ERRORS_TOTAL (reg metrics_initial)
  /\ _server s' = _server metrics_initial
  /\ metrics_trace s' = metrics_trace metrics_initial.
Proof.
  cbv zeta.
  exact (update_sweep_effect
           (sample_platform "" false true broker_down publish_ok no_http no_files)
           "m.gguf" "batch" f42_5 metrics_initial eq_refl).
Defined.

(** X21.  Without the metrics library the two recording helpers are inert
    over any series of calls: none raises, not even one with a negative
    error count, and the state stays as it was. *)
Theorem without_library_metrics_inert (P : platform) (calls : list metrics_call)
    (s : metrics_state) :
  prom_installed P = false ->
  metrics_run P calls s = s
  /\ forall c, metrics_do P c s = (Ret tt, s).
Proof.
  intros H.
  assert (Hdo : forall c s0, metrics_do P c s0 = (Ret tt, s0)).
  { intros [m st cfg v e | m st v] s0; cbn [metrics_do];
      unfold update_cell, update_sweep, _HAS_PROM; now rewrite H. }
  split; [| intros c; apply Hdo].
  unfold metrics_run. induction calls as [|c calls IH]; [reflexivity |].
  cbn [fold_left]. now rewrite Hdo.
Qed.

Lemma without_library_metrics_inert_witness :
  let P := sample_platform "" false false broker_down publish_ok no_http no_files in
  let calls := [CallUpdateCell "m.gguf" "batch" "b=8" f42_5 (-1);
                CallUpdateSweep "m.gguf" "batch" f42_5] in
  metrics_run P calls metrics_initial = metrics_initial
  /\ forall c, metrics_do P c metrics_initial = (Ret tt, metrics_initial).
Proof.
  cbv zeta.
  exact (without_library_metrics_inert
           (sample_platform "" false false broker_down publish_ok no_http no_files)
           _ metrics_initial eq_refl).
Defined.

Lemma metrics_do_monotone (P : platform) (c : metrics_call) (s : metrics_state)
    (k : string) :
  let s' := snd (metrics_do P c s) in
  counter_value k (ERRORS_TOTAL (reg s)) <= counter_value k (ERRORS_TOTAL (reg s'))
  /\ counter_value k (SWEEPS_TOTAL (reg s)) <= counter_value k (SWEEPS_TOTAL (reg s'))
  /\ (forall key, is_Some (THROUGHPUT_TPS (reg s) !! key) ->
                  is_Some (THROUGHPUT_TPS (reg s') !! key))
  /\ (forall key, is_Some (BEST_THROUGHPUT (reg s) !! key) ->
                  is_Some (BEST_THROUGHPUT (reg s') !! key))
  /\ _server s' = _server s
  /\ metrics_trace s' = metrics_trace s.
Proof.
  cbv zeta. destruct (prom_installed P) eqn:H.
  2:{ assert (Hdo : metrics_do P c s = (Ret tt, s)).
      { destruct c; cbn [metrics_do]; unfold update_cell, update_sweep, _HAS_PROM;
          now rewrite H. }
      rewrite Hdo. cbn [snd]. repeat split; try lia; auto. }
  destruct c as [m st cfg v e | m st v]; cbn [metrics_do].
  - repeat apply conj.
    + rewrite update_cell_errors by assumption.
      destruct (decide (k = st)); [| lia]. destruct (Z.ltb_spec 0 e); lia.
    + rewrite update_cell_sweeps. lia.
    + intros key Hkey. rewrite update_cell_throughput by assumption.
      destruct (decide ((m, st, cfg) = key)) as [<-|Hne].
      * rewrite lookup_insert_eq. eauto.
      * now rewrite lookup_insert_ne.
    + rewrite update_cell_run by assumption. cbn zeta.
      destruct (e =? 0); [auto |]. destruct (e <? 0); auto.
    + rewrite update_cell_run by assumption. cbn zeta.
      destruct (e =? 0); [reflexivity |]. now destruct (e <? 0).
    + rewrite update_cell_run by assumption. cbn zeta.
      destruct (e =? 0); [reflexivity |]. now destruct (e <? 0).
  - repeat apply conj.
    + rewrite update_sweep_run by assumption. cbn [snd reg ERRORS_TOTAL]. lia.
    + rewrite update_sweep_sweeps by assumption. destruct (String.eqb st k); lia.
    + rewrite update_sweep_run by assumption. auto.
    + intros key Hkey. rewrite update_sweep_run by assumption.
      cbn [snd reg BEST_THROUGHPUT].
      destruct (decide ((m, st) = key)) as [<-|Hne].
      * rewrite lookup_insert_eq. eauto.
      * now rewrite lookup_insert_ne.
    + now rewrite update_sweep_run.
    + now rewrite update_sweep_run.
Qed.

(** X22.  Over any series of calls of the recording helpers, whether they
    return or raise: no counter ever goes down, no gauge series once
    written disappears, and neither the server nor the history is touched. *)
Theorem counters_never_decrease (P : platform) (calls : list metrics_call)
    (s : metrics_state) (k : string) :
  let s' := metrics_run P calls s in
  counter_value k (ERRORS_TOTAL (reg s)) <= counter_value k (ERRORS_TOTAL (reg s'))
  /\ counter_value k (SWEEPS_TOTAL (reg s)) <= counter_value k (SWEEPS_TOTAL (reg s'))
  /\ (forall key, is_Some (THROUGHPUT_TPS (reg s) !! key) ->
                  is_Some (THROUGHPUT_TPS (reg s') !! key))
  /\ (forall key, is_Some (BEST_THROUGHPUT (reg s) !! key) ->
                  is_Some (BEST_THROUGHPUT (reg s') !! key))
  /\ _server s' = _server s
  /\ metrics_trace s' = metrics_trace s.
Proof.
  cbv zeta. unfold metrics_run. revert s.
  induction calls as [|c calls IH]; intros s; cbn [fold_left].
  - repeat split; try lia; auto.
  - destruct (metrics_do_monotone P c s k) as (E1 & S1 & T1 & B1 & V1 & H1).
    destruct (IH (snd (metrics_do P c s))) as (E2 & S2 & T2 & B2 & V2 & H2).
    repeat apply conj; try lia; try congruence; auto.
Qed.

(** X23.  The sweep counter counts the calls: with the library imported,
    after any series of calls the counter of a sweep type has grown by the
    number of [update_sweep] calls made for that type, whatever else was
    recorded in between. *)
Theorem sweeps_total_counts_calls (P : platform) (calls : list metrics_call)
    (s : metrics_state) (k : string) :
  prom_installed P = true ->
  counter_value k (SWEEPS_TOTAL (reg (metrics_run P calls s))) =
    counter_value k (SWEEPS_TOTAL (reg s))
    + Z.of_nat (length (List.filter (is_sweep_of k) calls)).
Proof.
  intros H. unfold metrics_run. revert s.
  induction calls as [|c calls IH]; intros s; cbn [fold_left List.filter].
  - cbn. lia.
  - rewrite IH. destruct c as [m st cfg v e | m st v]; cbn [metrics_do is_sweep_of].
    + now rewrite update_cell_sweeps.
    + rewrite update_sweep_sweeps by assumption.
      destruct (String.eqb st k); cbn [length]; lia.
Qed.

Lemma sweeps_total_counts_calls_witness :
  let P := sample_platform "" false true broker_down publish_ok no_http no_files in
  counter_value "batch"
    (SWEEPS_TOTAL (reg (metrics_run P
       [CallUpdateSweep "m.gguf" "batch" f42_5;
        CallUpdateCell "m.gguf" "batch" "b=8" f42_5 2;
        CallUpdateSweep "m.gguf" "threads" f42_5;
        CallUpdateSweep "n.gguf" "batch" f42_5] metrics_initial))) =
    counter_value "batch" (SWEEPS_TOTAL (reg metrics_initial)) + Z.of_nat 2.
Proof.
  cbv zeta.
  exact (sweeps_total_counts_calls
           (sample_platform "" false true broker_down publish_ok no_http no_files)
           [CallUpdateSweep "m.gguf" "batch" f42_5;
            CallUpdateCell "m.gguf" "batch" "b=8" f42_5 2;
            CallUpdateSweep "m.gguf" "threads" f42_5;
            CallUpdateSweep "n.gguf" "batch" f42_5] metrics_initial "batch" eq_refl).
Defined.

(** X24.  The error counter is the sum of the positive error counts: after
    any series of calls the counter of a sweep type has grown by the sum of
    the [errors] of the [update_cell] calls for that type that were
    positive; a call with zero errors and a call refused for a negative
    count add nothing. *)
Theorem errors_total_sums_errors (P : platform) (calls : list metrics_call)
    (s : metrics_state) (k : string) :
  prom_installed P = true ->
  counter_value k (ERRORS_TOTAL (reg (metrics_run P calls s))) =
    counter_value k (ERRORS_TOTAL (reg s)) + fold_right Z.add 0 (map (errors_of k) calls).
Proof.
  intros H. unfold metrics_run. revert s.
  induction calls as [|c calls IH]; intros s; cbn [fold_left map fold_right].
  - lia.
  - rewrite IH. destruct c as [m st cfg v e | m st v]; cbn [metrics_do errors_of].
    + rewrite update_cell_errors by assumption.
      destruct (decide (k = st)) as [->|Hne].
      * rewrite String.eqb_refl. cbn [andb]. lia.
      * assert (Hst : String.eqb st k = false) by (apply String.eqb_neq; congruence).
        rewrite Hst. cbn [andb]. lia.
    + rewrite update_sweep_run by assumption. cbn [snd reg ERRORS_TOTAL]. lia.
Qed.

Lemma errors_total_sums_errors_witness :
  let P := sample_platform "" false true broker_down publish_ok no_http no_files in
  let calls := [CallUpdateCell "m.gguf" "batch" "b=8" f42_5 2;
                CallUpdateCell "m.gguf" "batch" "b=16" f42_5 (-4);
                CallUpdateCell "m.gguf" "threads" "t=4" f42_5 7;
                CallUpdateCell "m.gguf" "batch" "b=32" f42_5 3] in
  counter_value "batch" (ERRORS_TOTAL (reg (metrics_run P calls metrics_initial))) =
    counter_value "batch" (ERRORS_TOTAL (reg metrics_initial))
    + fold_right Z.add 0 (map (errors_of "batch") calls).
Proof.
  cbv zeta.
  exact (errors_total_sums_errors
           (sample_platform "" false true broker_down publish_ok no_http no_files)
           _ metrics_initial "batch" eq_refl).
Defined.

Lemma last_write_from (key : string * string * string) (calls : list metrics_call)
    (acc : option spec_float) :
  fold_left (fun a c => match cell_write key c with Some v => Some v | None => a end)
    calls acc =
  match last_write key calls with Some v => Some v | None => acc end.
Proof.
  unfold last_write. revert acc.
  induction calls as [|c calls IH]; intros acc; cbn [fold_left]; [reflexivity |].
  rewrite IH. rewrite (IH (match cell_write key c with Some v => Some v | None => None end)).
  destruct (fold_left _ calls None); [reflexivity |].
  now destruct (cell_write key c).
Qed.

(** X25.  The per-cell gauge holds the most recent measurement: after any
    series of calls a series of the gauge shows the value of the last
    [update_cell] made for its labels (also when that call was refused for
    a negative error count, the gauge being set first), and what it showed
    before when there was none. *)
Theorem throughput_gauge_last_write (P : platform) (calls : list metrics_call)
    (s : metrics_state) (key : string * string * string) :
  prom_installed P = true ->
  THROUGHPUT_TPS (reg (metrics_run P calls s)) !! key =
    match last_write key calls with
    | Some v => Some v
    | None => THROUGHPUT_TPS (reg s) !! key
    end.
Proof.
  intros H. unfold metrics_run. revert s.
  induction calls as [|c calls IH]; intros s; [reflexivity |].
  cbn [fold_left]. rewrite IH. unfold last_write at 2. cbn [fold_left].
  rewrite last_write_from.
  destruct (last_write key calls); [reflexivity |].
  destruct c as [m st cfg v e | m st v]; cbn [metrics_do cell_write].
  - rewrite update_cell_throughput by assumption.
    destruct (decide ((m, st, cfg) = key)) as [<-|Hne].
    + rewrite bool_decide_eq_true_2 by reflexivity. apply lookup_insert_eq.
    + rewrite bool_decide_eq_false_2 by exact Hne. now apply lookup_insert_ne.
  - now rewrite update_sweep_run.
Qed.

Lemma throughput_gauge_last_write_witness :
  let P := sample_platform "" false true broker_down publish_ok no_http no_files in
  let calls := [CallUpdateCell "m.gguf" "batch" "b=8" (S754_zero false) 0;
                CallUpdateCell "m.gguf" "batch" "b=16" (S754_zero false) 0;
                CallUpdateCell "m.gguf" "batch" "b=8" f42_5 (-1)] in
  THROUGHPUT_TPS (reg (metrics_run P calls metrics_initial)) !! ("m.gguf", "batch", "b=8") =
    match last_write ("m.gguf", "batch", "b=8") calls with
    | Some v => Some v
    | None => THROUGHPUT_TPS (reg metrics_initial) !! ("m.gguf", "batch", "b=8")
    end.
Proof.
  cbv zeta.
  exact (throughput_gauge_last_write
           (sample_platform "" false true broker_down publish_ok no_http no_files)
           _ metrics_initial ("m.gguf", "batch", "b=8") eq_refl).
Defined.

(** ** pmoves_metrics: the exporter *)

Lemma start_server_unbound (P : platform) (port : Z) (background : bool)
    (s : metrics_state) :
  _server s = None ->
  start_server P port background s =
    match bind_socket P "0.0.0.0" port (metrics_trace s) with
    | Some e =>
        (Raise e,
         {| reg := reg s; _server := None;
            metrics_trace := metrics_trace s ++ [EvBind "0.0.0.0" port] |})
    | None =>
        (Ret (if background then Returns else NeverReturns),
         {| reg := reg s;
            _server := Some {| server_host := "0.0.0.0"; server_port := port |};
            metrics_trace := metrics_trace s ++
              [EvBind "0.0.0.0" port;
               if background then EvThreadStart else EvServeForever] |})
    end.
Proof.
  intros Hs. destruct s as [r srv tr]. cbn [_server] in Hs. subst srv.
  unfold start_server, bind, get_state, HTTPServer__init__, bind, get_state,
    metrics_emit, set_server, ret, raise.
  cbn [_server reg metrics_trace].
  destruct (bind_socket P "0.0.0.0" port tr); [reflexivity |].
  destruct background; cbn [_server reg metrics_trace]; now rewrite <- app_assoc.
Qed.

Lemma start_all_bound (P : platform) (ports : list Z) (s : metrics_state)
    (srv : HTTPServer) :
  _server s = Some srv -> start_all P ports s = s.
Proof.
  intros Hs. unfold start_all. induction ports as [|p ports IH]; [reflexivity |].
  cbn [fold_left]. unfold start_server at 2, bind, get_state. rewrite Hs. exact IH.
Qed.

(** X26.  The first [start_server] of a process binds the port on every
    interface (`0.0.0.0`).  When the bind fails the error reaches the
    caller and no server is recorded, so a later call tries again; when it
    succeeds the server is recorded and, in background mode, one thread is
    started and the call returns, while in foreground mode the call serves
    and never returns. *)
Theorem start_server_first_call (P : platform) (port : Z) (background : bool)
    (s : metrics_state) :
  _server s = None ->
  let r := start_server P port background s in
  metrics_trace (snd r) =
    metrics_trace s ++ EvBind "0.0.0.0" port ::
      match _server (snd r) with
      | Some _ => [if background then EvThreadStart else EvServeForever]
      | None => []
      end
  /\ reg (snd r) = reg s
  /\ match bind_socket P "0.0.0.0" port (metrics_trace s) with
     | Some e => fst r = Raise e /\ _server (snd r) = None
     | None =>
         fst r = Ret (if background then Returns else NeverReturns)
         /\ _server (snd r) = Some {| server_host := "0.0.0.0"; server_port := port |}
     end.
Proof.
  intros Hs. cbv zeta. rewrite (start_server_unbound P port background s Hs).
  destruct (bind_socket P "0.0.0.0" port (metrics_trace s)); cbn; auto.
Qed.

Lemma start_server_first_call_witness :
  let r := start_server sample_platform_stuck 8201 true metrics_initial in
  metrics_trace (snd r) =
    metrics_trace metrics_initial ++ EvBind "0.0.0.0" 8201 ::
      match _server (snd r) with
      | Some _ => [if true then EvThreadStart else EvServeForever]
      | None => []
      end
  /\ reg (snd r) = reg metrics_initial
  /\ match bind_socket sample_platform_stuck "0.0.0.0" 8201 (metrics_trace metrics_initial) with
     | Some e => fst r = Raise e /\ _server (snd r) = None
     | None =>
         fst r = Ret (if true then Returns else NeverReturns)
         /\ _server (snd r) = Some {| server_host := "0.0.0.0"; server_port := 8201 |}
     end.
Proof.
  cbv zeta.
  exact (start_server_first_call sample_platform_stuck 8201 true metrics_initial eq_refl).
Defined.

(** X27.  However often and for whatever ports [start_server] is called in
    background mode, the process ends with at most one server and one
    serving thread: a thread is started exactly when a bind succeeded, the
    server kept is the one of that bind, every call after it does nothing,
    and when no bind succeeded every port was tried.  The registry is never
    touched. *)
Theorem start_all_single_server (P : platform) (ports : list Z) (s : metrics_state) :
  _server s = None ->
  let s' := start_all P ports s in
  exists evs,
    metrics_trace s' = metrics_trace s ++ evs
    /\ reg s' = reg s
    /\ (length (List.filter is_bind evs) <= length ports)%nat
    /\ match _server s' with
       | Some srv =>
           length (List.filter is_thread_start evs) = 1%nat
           /\ In (server_port srv) ports
           /\ last evs = Some EvThreadStart
           /\ In (EvBind "0.0.0.0" (server_port srv)) evs
       | None =>
           List.filter is_thread_start evs = []
           /\ evs = map (EvBind "0.0.0.0") ports
       end.
Proof.
  cbv zeta. revert s. induction ports as [|p ports IH]; intros s Hs.
  - exists []. cbn. rewrite app_nil_r, Hs. auto.
  - change (start_all P (p :: ports) s)
      with (start_all P ports (snd (start_server P p true s))).
    rewrite (start_server_unbound P p true s Hs).
    destruct (bind_socket P "0.0.0.0" p (metrics_trace s)) as [e|]; cbn [snd].
    + destruct (IH {| reg := reg s; _server := None;
                      metrics_trace := metrics_trace s ++ [EvBind "0.0.0.0" p] |} eq_refl)
        as (evs & Htr & Hreg & Hb & Hsrv).
      cbn [metrics_trace reg] in *.
      exists (EvBind "0.0.0.0" p :: evs). repeat apply conj.
      * now rewrite Htr, <- app_assoc.
      * exact Hreg.
      * cbn [List.filter is_bind length]. lia.
      * destruct (_server (start_all P ports _)) as [srv|].
        -- destruct Hsrv as (Ht & Hin & Hlast & Hev). repeat apply conj.
           ++ exact Ht.
           ++ now right.
           ++ destruct evs; [discriminate | exact Hlast].
           ++ now right.
        -- destruct Hsrv as (Ht & ->). split; [exact Ht | reflexivity].
    + rewrite (start_all_bound P ports
                 {| reg := reg s;
                    _server := Some {| server_host := "0.0.0.0"; server_port := p |};
                    metrics_trace := metrics_trace s ++ [EvBind "0.0.0.0" p; EvThreadStart] |}
                 {| server_host := "0.0.0.0"; server_port := p |} eq_refl).
      cbn [metrics_trace reg _server server_port].
      exists [EvBind "0.0.0.0" p; EvThreadStart]. repeat apply conj; try reflexivity.
      * cbn [List.filter is_bind length]. lia.
      * now left.
      * now left.
Qed.

Lemma start_all_single_server_witness :
  let P := sample_platform "" false true broker_down publish_ok no_http no_files in
  let ports : list Z := [8201; 9000; 9001] in
  let s' := start_all P ports metrics_initial in
  exists evs,
    metrics_trace s' = metrics_trace metrics_initial ++ evs
    /\ reg s' = reg metrics_initial
    /\ (length (List.filter is_bind evs) <= length ports)%nat
    /\ match _server s' with
       | Some srv =>
           length (List.filter is_thread_start evs) = 1%nat
           /\ In (server_port srv) ports
           /\ last evs = Some EvThreadStart
           /\ In (EvBind "0.0.0.0" (server_port srv)) evs
       | None =>
           List.filter is_thread_start evs = []
           /\ evs = map (EvBind "0.0.0.0") ports
       end.
Proof.
  cbv zeta.
  exact (start_all_single_server
           (sample_platform "" false true broker_down publish_ok no_http no_files)
           [8201; 9000; 9001] metrics_initial eq_refl).
Defined.

Lemma content_length_reads_back (body : string) :
  forallb is_digit (chars (content_length body)) = true
  /\ read_digits 0%N (chars (content_length body)) = N.of_nat (String.length body).
Proof.
  unfold content_length, str_of_Z, dec_of_Z.
  rewrite list_ascii_of_string_of_list_ascii.
  destruct (Z.ltb_spec (Z.of_nat (String.length body)) 0) as [Hneg|_]; [lia |].
  replace (Z.abs_N (Z.of_nat (String.length body))) with (N.of_nat (String.length body))
    by lia.
  split; [apply dec_of_N_digits | apply read_dec_of_N].
Qed.

(** X28.  Every answer of the exporter is framed: its `Content-Length`
    header is the decimal numeral of the length of exactly the body that is
    written, for the liveness answer, for any snapshot of the registry and
    for the error page alike.  The status is 200 on the two served paths and
    404 on every other, where the response is the one [send_error] writes:
    `Connection: close`, the HTML content type and the error page. *)
Theorem content_length_matches_body (P : platform) (path : string) (r : registry) :
  let acts := do_GET P path r in
  let served := String.eqb path "/healthz" || (String.eqb path "/metrics" && _HAS_PROM P) in
  let body := default "" (response_body P acts) in
  response_status P acts = Some (if served then 200 else 404)
  /\ (exists text,
        response_header P "Content-Length" acts = Some text
        /\ forallb is_digit (chars text) = true
        /\ read_digits 0%N (chars text) = N.of_nat (String.length body))
  /\ (served = false ->
      acts = [send_error 404]
      /\ body = error_page P 404
      /\ response_header P "Content-Type" acts = Some "text/html;charset=utf-8"
      /\ response_header P "Connection" acts = Some "close").
Proof.
  cbv zeta. unfold do_GET, response_status, response_header, response_body.
  destruct (String.eqb path "/healthz"); cbn [orb].
  { split; [reflexivity |]. split; [| discriminate].
    eexists. split; [reflexivity |]. apply content_length_reads_back. }
  destruct (String.eqb path "/metrics" && _HAS_PROM P).
  { split; [reflexivity |]. split; [| discriminate].
    eexists. split; [reflexivity |]. apply content_length_reads_back. }
  assert (Hbody : default "" (first_write (on_wire P [send_error 404])) = error_page P 404).
  { cbn. destruct (String.eqb_spec (error_page P 404) ""); cbn; congruence. }
  rewrite Hbody. split; [reflexivity |]. split.
  - eexists. split; [reflexivity |]. apply content_length_reads_back.
  - intros _. repeat split; reflexivity.
Qed.

(** The 404 of the sample world, call by call. *)
Example do_GET_not_found_on_wire :
  let P := sample_platform "" false true broker_down publish_ok no_http no_files in
  on_wire P (do_GET P "/nope" empty_registry) =
    [send_response 404;
     send_header "Connection" "close";
     send_header "Content-Type" "text/html;charset=utf-8";
     send_header "Content-Length" "27";
     end_headers;
     wfile_write "<html>Error response</html>"].
Proof. vm_compute. reflexivity. Qed.

